(** * Creatio CRM crew tools: a shallow embedding and its properties

    The tools of [creatio_crm_crew/tools] (and the ticket tools of
    [devlifecycle_crew/tools]) are string formatters over two static
    dictionaries.  Python values are embedded as [pyval], dictionaries as
    insertion-ordered association lists, raising code as the [Py] error
    monad, and [str(result)] as [py_repr].

    Text is modelled as ASCII: [str_lower], [str_upper] and [str_strip]
    act on the ASCII letters and blanks only. *)

From Stdlib Require Import String Ascii List Bool Arith ZArith Lia Permutation.
From Stdlib Require Import DecimalString QArith.
Import ListNotations.
Close Scope Q_scope.
Open Scope string_scope.

(** List append, kept apart from the [++] of texts. *)
Notation "l +++ r" := (@app _ l r) (at level 60, right associativity).

(** ** Python [str] operations *)

Definition NL : string := String "010"%char "".
Definition DQ : string := String "034"%char "".
Definition SQ : string := String "039"%char "".
Definition BSL : string := String "092"%char "".

Definition is_upper (c : ascii) : bool :=
  let n := nat_of_ascii c in (65 <=? n)%nat && (n <=? 90)%nat.

Definition is_lower (c : ascii) : bool :=
  let n := nat_of_ascii c in (97 <=? n)%nat && (n <=? 122)%nat.

Definition lower_char (c : ascii) : ascii :=
  if is_upper c then ascii_of_nat (nat_of_ascii c + 32) else c.

Definition upper_char (c : ascii) : ascii :=
  if is_lower c then ascii_of_nat (nat_of_ascii c - 32) else c.

Fixpoint str_map (f : ascii -> ascii) (s : string) : string :=
  match s with
  | EmptyString => EmptyString
  | String c r => String (f c) (str_map f r)
  end.

(** [s.lower()] and [s.upper()] *)
Definition str_lower : string -> string := str_map lower_char.
Definition str_upper : string -> string := str_map upper_char.

(** [s.capitalize()] *)
Definition str_capitalize (s : string) : string :=
  match s with
  | EmptyString => EmptyString
  | String c r => String (upper_char c) (str_lower r)
  end.

(** [s.startswith(p)] *)
Fixpoint str_startswith (p s : string) : bool :=
  match p, s with
  | EmptyString, _ => true
  | String a p', String b s' => Ascii.eqb a b && str_startswith p' s'
  | String _ _, EmptyString => false
  end.

(** [sub in s] *)
Fixpoint str_in (sub s : string) : bool :=
  str_startswith sub s ||
  match s with
  | EmptyString => false
  | String _ r => str_in sub r
  end.

Definition str_rev (s : string) : string :=
  string_of_list_ascii (rev (list_ascii_of_string s)).

(** [s.endswith(p)] *)
Definition str_endswith (p s : string) : bool :=
  str_startswith (str_rev p) (str_rev s).

Definition is_space (c : ascii) : bool :=
  let n := nat_of_ascii c in
  ((9 <=? n)%nat && (n <=? 13)%nat) || ((28 <=? n)%nat && (n <=? 32)%nat).

Fixpoint str_lstrip (s : string) : string :=
  match s with
  | EmptyString => EmptyString
  | String c r => if is_space c then str_lstrip r else s
  end.

Definition str_rstrip (s : string) : string := str_rev (str_lstrip (str_rev s)).

(** [s.strip()] *)
Definition str_strip (s : string) : string := str_rstrip (str_lstrip s).

(** [s.split(sep)] for a one-character separator: never the empty list. *)
Fixpoint str_split (sep : ascii) (s : string) : list string :=
  match s with
  | EmptyString => [EmptyString]
  | String c r =>
      if Ascii.eqb c sep then EmptyString :: str_split sep r
      else match str_split sep r with
           | h :: t => String c h :: t
           | [] => [String c EmptyString]
           end
  end.

(** [sep.join(l)] *)
Definition str_join (sep : string) (l : list string) : string := String.concat sep l.

(** [s[:n]] and [s[:-n]] *)
Fixpoint str_take (n : nat) (s : string) : string :=
  match n, s with
  | S n', String c r => String c (str_take n' r)
  | _, _ => EmptyString
  end.

Definition str_drop_last (n : nat) (s : string) : string :=
  str_take (String.length s - n) s.

(** [s.replace(old, new)] for a non-empty [old]; [skip] counts the
    characters of a match still to be dropped. *)
Fixpoint str_replace_aux (old new : string) (skip : nat) (s : string) : string :=
  match s with
  | EmptyString => EmptyString
  | String c r =>
      match skip with
      | S k => str_replace_aux old new k r
      | O =>
          if str_startswith old s
          then new ++ str_replace_aux old new (String.length old - 1) r
          else String c (str_replace_aux old new O r)
      end
  end.

Definition str_replace (old new s : string) : string :=
  str_replace_aux old new O s.

(** [s.count(c)] for a one-character [c] *)
Fixpoint str_count (c : ascii) (s : string) : nat :=
  match s with
  | EmptyString => O
  | String a r => (if Ascii.eqb a c then 1 else 0) + str_count c r
  end.

(** [x in l] for a list of strings *)
Definition list_in (x : string) (l : list string) : bool :=
  existsb (String.eqb x) l.

(** [any(w in s for w in words)] *)
Definition any_in (words : list string) (s : string) : bool :=
  existsb (fun w => str_in w s) words.

(** [str(n)] for an integer *)
Definition str_of_Z (z : Z) : string := NilZero.string_of_int (Z.to_int z).
Definition str_of_nat (n : nat) : string := str_of_Z (Z.of_nat n).

(** ** Python values, [repr] and exceptions *)

Set Warnings "-register-all".

Inductive pyval : Type :=
| PNone
| PBool (b : bool)
| PInt (z : Z)
| PStr (s : string)
| PList (l : list pyval)
| PDict (d : list (string * pyval)).

Definition hex_digit (n : nat) : string :=
  String.substring n 1 "0123456789abcdef".

Definition hex2 (n : nat) : string := hex_digit (n / 16) ++ hex_digit (n mod 16).

(** One character of [repr(s)] when the surrounding quote is [q]. *)
Definition repr_char (q : ascii) (c : ascii) : string :=
  let n := nat_of_ascii c in
  if Ascii.eqb c "092"%char then BSL ++ BSL
  else if Ascii.eqb c q then BSL ++ String q ""
  else if (n =? 9)%nat then BSL ++ "t"
  else if (n =? 10)%nat then BSL ++ "n"
  else if (n =? 13)%nat then BSL ++ "r"
  else if (n <? 32)%nat || (n =? 127)%nat then BSL ++ "x" ++ hex2 n
  else String c "".

Fixpoint repr_chars (q : ascii) (s : string) : string :=
  match s with
  | EmptyString => EmptyString
  | String c r => repr_char q c ++ repr_chars q r
  end.

(** [repr(s)]: single quotes unless the text has a single quote and no
    double quote. *)
Definition py_repr_str (s : string) : string :=
  let q := if str_in SQ s && negb (str_in DQ s) then "034"%char else "039"%char in
  String q "" ++ repr_chars q s ++ String q "".

(** [repr(v)], which is also [str(v)] for containers. *)
Fixpoint py_repr (v : pyval) : string :=
  match v with
  | PNone => "None"
  | PBool true => "True"
  | PBool false => "False"
  | PInt z => str_of_Z z
  | PStr s => py_repr_str s
  | PList l => "[" ++ str_join ", " (map py_repr l) ++ "]"
  | PDict d =>
      "{" ++ str_join ", "
               (map (fun kv => match kv with
                               | (k, x) => py_repr_str k ++ ": " ++ py_repr x
                               end) d) ++ "}"
  end.

(** [str(v)]: a string prints as itself, everything else as its [repr]. *)
Definition py_str (v : pyval) : string :=
  match v with
  | PStr s => s
  | _ => py_repr v
  end.

Inductive exn : Type :=
| KeyError (k : string)
| IndexError
| TypeError.

(** A computation that returns or raises. *)
Inductive Py (A : Type) : Type :=
| Ok (a : A)
| Raise (e : exn).

Arguments Ok {A} a.
Arguments Raise {A} e.

Definition bind {A B : Type} (m : Py A) (k : A -> Py B) : Py B :=
  match m with
  | Ok a => k a
  | Raise e => Raise e
  end.

Notation "x <- m ;; k" := (bind m (fun x => k))
  (at level 61, m at next level, right associativity).

Definition raises {A : Type} (m : Py A) : bool :=
  match m with
  | Ok _ => false
  | Raise _ => true
  end.

(** [for x in l] with a body that may raise *)
Fixpoint mapM {A B : Type} (f : A -> Py B) (l : list A) : Py (list B) :=
  match l with
  | [] => Ok []
  | a :: r => b <- f a ;; bs <- mapM f r ;; Ok (b :: bs)
  end.

(** [[x for x in l if p(x)]] with a test that may raise *)
Fixpoint filterM {A : Type} (p : A -> Py bool) (l : list A) : Py (list A) :=
  match l with
  | [] => Ok []
  | a :: r => b <- p a ;; rs <- filterM p r ;; Ok (if b then a :: rs else rs)
  end.

(** A loop that threads an accumulator. *)
Fixpoint foldM {A S : Type} (f : S -> A -> Py S) (l : list A) (s : S) : Py S :=
  match l with
  | [] => Ok s
  | a :: r => s' <- f s a ;; foldM f r s'
  end.

Fixpoint assoc {A : Type} (k : string) (d : list (string * A)) : option A :=
  match d with
  | [] => None
  | (k', v) :: r => if String.eqb k k' then Some v else assoc k r
  end.

Definition keys {A : Type} (d : list (string * A)) : list string := map fst d.

(** [d[k]] on a dictionary held as an association list *)
Definition lookup (d : list (string * pyval)) (k : string) : Py pyval :=
  match assoc k d with
  | Some v => Ok v
  | None => Raise (KeyError k)
  end.

(** [v[k]] *)
Definition getitem (v : pyval) (k : string) : Py pyval :=
  match v with
  | PDict d => lookup d k
  | _ => Raise TypeError
  end.

(** [v.get(k, default)] *)
Definition dict_get (v : pyval) (k : string) (default : pyval) : Py pyval :=
  match v with
  | PDict d => Ok (match assoc k d with Some x => x | None => default end)
  | _ => Raise TypeError
  end.

Definition as_str (v : pyval) : Py string :=
  match v with
  | PStr s => Ok s
  | _ => Raise TypeError
  end.

Definition as_list (v : pyval) : Py (list pyval) :=
  match v with
  | PList l => Ok l
  | _ => Raise TypeError
  end.

Definition as_dict (v : pyval) : Py (list (string * pyval)) :=
  match v with
  | PDict d => Ok d
  | _ => Raise TypeError
  end.

(** [v[k]] used as text, as a list, as a dictionary *)
Definition get_str (v : pyval) (k : string) : Py string := x <- getitem v k ;; as_str x.
Definition get_list (v : pyval) (k : string) : Py (list pyval) := x <- getitem v k ;; as_list x.

(** [s[0]] *)
Definition str_first (s : string) : Py string :=
  match s with
  | EmptyString => Raise IndexError
  | String c _ => Ok (String c "")
  end.

Definition PLen {A : Type} (l : list A) : pyval := PInt (Z.of_nat (length l)).
Definition PStrs (l : list string) : pyval := PList (map PStr l).
Definition POpt (o : option string) : pyval :=
  match o with
  | Some s => PStr s
  | None => PNone
  end.

(** Truth value of an optional text argument: [None] and [''] are false. *)
Definition truthy (o : option string) : bool :=
  match o with
  | Some (String _ _) => true
  | _ => false
  end.

(** The text of an optional argument, where the source has tested it. *)
Definition opt_text (o : option string) : string :=
  match o with
  | Some s => s
  | None => ""
  end.

(** [len(v)] *)
Definition py_len (v : pyval) : Py pyval :=
  match v with
  | PList l => Ok (PLen l)
  | PDict d => Ok (PLen d)
  | PStr s => Ok (PInt (Z.of_nat (String.length s)))
  | _ => Raise TypeError
  end.

(** [v == s] for a text [s] *)
Definition py_eq_str (v : pyval) (s : string) : bool :=
  match v with
  | PStr x => String.eqb x s
  | _ => false
  end.

(** [d[k] = v]: a present key keeps its place, a new key goes last. *)
Fixpoint dict_set (d : list (string * pyval)) (k : string) (v : pyval) : list (string * pyval) :=
  match d with
  | [] => [(k, v)]
  | (k', v') :: r => if String.eqb k k' then (k, v) :: r else (k', v') :: dict_set r k v
  end.

(** [a or b] where [b] is evaluated only when [a] is false *)
Definition or_else (a : bool) (b : Py bool) : Py bool :=
  if a then Ok true else b.

(** [.items()] of a dictionary value *)
Definition items (v : pyval) : Py (list (string * pyval)) := as_dict v.

(** ** The static knowledge tables *)

(** A column record of [key_columns]. *)
Definition column (name type description : string) : pyval :=
  PDict [("name", PStr name); ("type", PStr type); ("description", PStr description)].

Definition CREATIO_SCHEMA_KNOWLEDGE : list (string * pyval) :=
  [
   ("Contact", PDict
     [("description", PStr "Core entity storing person/individual information");
      ("table_name", PStr "Contact");
      ("key_columns", PList [
        column "Id" "uniqueidentifier" "Primary key";
        column "Name" "nvarchar(250)" "Full name of the contact";
        column "AccountId" "uniqueidentifier" "FK to Account - associated company";
        column "Email" "nvarchar(250)" "Primary email address";
        column "Phone" "nvarchar(250)" "Primary phone number";
        column "MobilePhone" "nvarchar(250)" "Mobile phone number";
        column "JobTitle" "nvarchar(250)" "Contact's job title";
        column "DepartmentId" "uniqueidentifier" "FK to Department lookup";
        column "OwnerId" "uniqueidentifier" "FK to Contact - record owner";
        column "TypeId" "uniqueidentifier" "FK to ContactType lookup";
        column "CreatedOn" "datetime" "Record creation timestamp";
        column "ModifiedOn" "datetime" "Last modification timestamp"]);
      ("relationships", PList [
        PDict [("entity", PStr "Account"); ("type", PStr "many-to-one"); ("column", PStr "AccountId")];
        PDict [("entity", PStr "Activity"); ("type", PStr "one-to-many"); ("detail", PBool true)];
        PDict [("entity", PStr "Opportunity"); ("type", PStr "one-to-many"); ("via", PStr "OpportunityContact")];
        PDict [("entity", PStr "Lead"); ("type", PStr "one-to-one"); ("column", PStr "QualifiedContactId")]])]);
   ("Account", PDict
     [("description", PStr "Core entity storing company/organization information");
      ("table_name", PStr "Account");
      ("key_columns", PList [
        column "Id" "uniqueidentifier" "Primary key";
        column "Name" "nvarchar(250)" "Company name";
        column "TypeId" "uniqueidentifier" "FK to AccountType lookup";
        column "IndustryId" "uniqueidentifier" "FK to AccountIndustry lookup";
        column "OwnerId" "uniqueidentifier" "FK to Contact - account owner";
        column "PrimaryContactId" "uniqueidentifier" "FK to Contact - primary contact";
        column "Phone" "nvarchar(250)" "Main phone number";
        column "Web" "nvarchar(250)" "Website URL";
        column "AnnualRevenue" "decimal" "Annual revenue amount";
        column "EmployeesNumber" "int" "Number of employees";
        column "CreatedOn" "datetime" "Record creation timestamp";
        column "ModifiedOn" "datetime" "Last modification timestamp"]);
      ("relationships", PList [
        PDict [("entity", PStr "Contact"); ("type", PStr "one-to-many"); ("column", PStr "AccountId")];
        PDict [("entity", PStr "Opportunity"); ("type", PStr "one-to-many"); ("column", PStr "AccountId")];
        PDict [("entity", PStr "Activity"); ("type", PStr "one-to-many"); ("detail", PBool true)];
        PDict [("entity", PStr "Case"); ("type", PStr "one-to-many"); ("column", PStr "AccountId")]])]);
   ("Opportunity", PDict
     [("description", PStr "Sales opportunity/deal tracking entity");
      ("table_name", PStr "Opportunity");
      ("key_columns", PList [
        column "Id" "uniqueidentifier" "Primary key";
        column "Title" "nvarchar(250)" "Opportunity name/title";
        column "AccountId" "uniqueidentifier" "FK to Account";
        column "StageId" "uniqueidentifier" "FK to OpportunityStage lookup";
        column "Amount" "decimal" "Deal value/amount";
        column "Probability" "int" "Win probability percentage";
        column "OwnerId" "uniqueidentifier" "FK to Contact - opportunity owner";
        column "CloseDate" "datetime" "Expected close date";
        column "DueDate" "datetime" "Due date";
        column "LeadTypeId" "uniqueidentifier" "FK to LeadType - source type";
        column "IsPrimary" "bit" "Primary opportunity flag";
        column "CreatedOn" "datetime" "Record creation timestamp";
        column "ModifiedOn" "datetime" "Last modification timestamp"]);
      ("relationships", PList [
        PDict [("entity", PStr "Account"); ("type", PStr "many-to-one"); ("column", PStr "AccountId")];
        PDict [("entity", PStr "Contact"); ("type", PStr "many-to-many"); ("via", PStr "OpportunityContact")];
        PDict [("entity", PStr "OpportunityStage"); ("type", PStr "many-to-one"); ("column", PStr "StageId")];
        PDict [("entity", PStr "Product"); ("type", PStr "many-to-many"); ("via", PStr "OpportunityProductInterest")];
        PDict [("entity", PStr "Activity"); ("type", PStr "one-to-many"); ("detail", PBool true)]])]);
   ("Lead", PDict
     [("description", PStr "Sales lead entity - potential customers before qualification");
      ("table_name", PStr "Lead");
      ("key_columns", PList [
        column "Id" "uniqueidentifier" "Primary key";
        column "LeadName" "nvarchar(250)" "Lead name/title";
        column "Contact" "nvarchar(250)" "Contact person name";
        column "Account" "nvarchar(250)" "Company name (text)";
        column "Email" "nvarchar(250)" "Email address";
        column "MobilePhone" "nvarchar(250)" "Mobile phone";
        column "QualifyStatusId" "uniqueidentifier" "FK to QualifyStatus lookup";
        column "LeadSourceId" "uniqueidentifier" "FK to LeadSource lookup";
        column "LeadTypeId" "uniqueidentifier" "FK to LeadType lookup";
        column "OwnerId" "uniqueidentifier" "FK to Contact - lead owner";
        column "QualifiedContactId" "uniqueidentifier" "FK to Contact - converted contact";
        column "QualifiedAccountId" "uniqueidentifier" "FK to Account - converted account";
        column "Budget" "decimal" "Estimated budget";
        column "CreatedOn" "datetime" "Record creation timestamp"]);
      ("relationships", PList [
        PDict [("entity", PStr "Contact"); ("type", PStr "one-to-one"); ("column", PStr "QualifiedContactId")];
        PDict [("entity", PStr "Account"); ("type", PStr "one-to-one"); ("column", PStr "QualifiedAccountId")];
        PDict [("entity", PStr "Activity"); ("type", PStr "one-to-many"); ("detail", PBool true)]])]);
   ("Activity", PDict
     [("description", PStr "Activities including calls, emails, tasks, meetings");
      ("table_name", PStr "Activity");
      ("key_columns", PList [
        column "Id" "uniqueidentifier" "Primary key";
        column "Title" "nvarchar(500)" "Activity subject/title";
        column "TypeId" "uniqueidentifier" "FK to ActivityType lookup";
        column "StatusId" "uniqueidentifier" "FK to ActivityStatus lookup";
        column "PriorityId" "uniqueidentifier" "FK to ActivityPriority lookup";
        column "OwnerId" "uniqueidentifier" "FK to Contact - activity owner";
        column "ContactId" "uniqueidentifier" "FK to Contact - related contact";
        column "AccountId" "uniqueidentifier" "FK to Account - related account";
        column "OpportunityId" "uniqueidentifier" "FK to Opportunity";
        column "StartDate" "datetime" "Activity start date/time";
        column "DueDate" "datetime" "Activity due date/time";
        column "ResultId" "uniqueidentifier" "FK to ActivityResult lookup";
        column "CreatedOn" "datetime" "Record creation timestamp"]);
      ("relationships", PList [
        PDict [("entity", PStr "Contact"); ("type", PStr "many-to-one"); ("column", PStr "ContactId")];
        PDict [("entity", PStr "Account"); ("type", PStr "many-to-one"); ("column", PStr "AccountId")];
        PDict [("entity", PStr "Opportunity"); ("type", PStr "many-to-one"); ("column", PStr "OpportunityId")];
        PDict [("entity", PStr "ActivityParticipant"); ("type", PStr "one-to-many"); ("detail", PBool true)]])]);
   ("Case", PDict
     [("description", PStr "Customer service case/ticket entity");
      ("table_name", PStr "Case");
      ("key_columns", PList [
        column "Id" "uniqueidentifier" "Primary key";
        column "Number" "nvarchar(250)" "Case number";
        column "Subject" "nvarchar(500)" "Case subject";
        column "StatusId" "uniqueidentifier" "FK to CaseStatus lookup";
        column "PriorityId" "uniqueidentifier" "FK to CasePriority lookup";
        column "CategoryId" "uniqueidentifier" "FK to CaseCategory lookup";
        column "ContactId" "uniqueidentifier" "FK to Contact - reporting contact";
        column "AccountId" "uniqueidentifier" "FK to Account - associated account";
        column "OwnerId" "uniqueidentifier" "FK to Contact - case owner";
        column "GroupId" "uniqueidentifier" "FK to SysAdminUnit - assigned group";
        column "RegisteredOn" "datetime" "Registration timestamp";
        column "SolutionDate" "datetime" "Solution/resolution date";
        column "SatisfactionLevelId" "uniqueidentifier" "FK to SatisfactionLevel lookup";
        column "CreatedOn" "datetime" "Record creation timestamp"]);
      ("relationships", PList [
        PDict [("entity", PStr "Contact"); ("type", PStr "many-to-one"); ("column", PStr "ContactId")];
        PDict [("entity", PStr "Account"); ("type", PStr "many-to-one"); ("column", PStr "AccountId")];
        PDict [("entity", PStr "Activity"); ("type", PStr "one-to-many"); ("detail", PBool true)]])]);
   ("Product", PDict
     [("description", PStr "Product catalog entity");
      ("table_name", PStr "Product");
      ("key_columns", PList [
        column "Id" "uniqueidentifier" "Primary key";
        column "Name" "nvarchar(250)" "Product name";
        column "Code" "nvarchar(50)" "Product code/SKU";
        column "TypeId" "uniqueidentifier" "FK to ProductType lookup";
        column "CategoryId" "uniqueidentifier" "FK to ProductCategory lookup";
        column "Price" "decimal" "Unit price";
        column "IsActive" "bit" "Active flag";
        column "Description" "nvarchar(max)" "Product description";
        column "CreatedOn" "datetime" "Record creation timestamp"]);
      ("relationships", PList [
        PDict [("entity", PStr "Opportunity"); ("type", PStr "many-to-many"); ("via", PStr "OpportunityProductInterest")];
        PDict [("entity", PStr "Order"); ("type", PStr "one-to-many"); ("via", PStr "OrderProduct")]])]);
   ("Order", PDict
     [("description", PStr "Sales order entity");
      ("table_name", PStr "Order");
      ("key_columns", PList [
        column "Id" "uniqueidentifier" "Primary key";
        column "Number" "nvarchar(250)" "Order number";
        column "AccountId" "uniqueidentifier" "FK to Account - customer";
        column "ContactId" "uniqueidentifier" "FK to Contact - order contact";
        column "OpportunityId" "uniqueidentifier" "FK to Opportunity - source opportunity";
        column "StatusId" "uniqueidentifier" "FK to OrderStatus lookup";
        column "Amount" "decimal" "Order total amount";
        column "OwnerId" "uniqueidentifier" "FK to Contact - order owner";
        column "Date" "datetime" "Order date";
        column "CreatedOn" "datetime" "Record creation timestamp"]);
      ("relationships", PList [
        PDict [("entity", PStr "Account"); ("type", PStr "many-to-one"); ("column", PStr "AccountId")];
        PDict [("entity", PStr "Contact"); ("type", PStr "many-to-one"); ("column", PStr "ContactId")];
        PDict [("entity", PStr "Opportunity"); ("type", PStr "many-to-one"); ("column", PStr "OpportunityId")];
        PDict [("entity", PStr "OrderProduct"); ("type", PStr "one-to-many"); ("detail", PBool true)]])]);
   ("SysAdminUnit", PDict
     [("description", PStr "System users and groups (security model)");
      ("table_name", PStr "SysAdminUnit");
      ("key_columns", PList [
        column "Id" "uniqueidentifier" "Primary key";
        column "Name" "nvarchar(250)" "User/group name";
        column "ContactId" "uniqueidentifier" "FK to Contact - linked contact";
        column "SysAdminUnitTypeId" "uniqueidentifier" "FK - user type (user, role, org)";
        column "ParentRoleId" "uniqueidentifier" "FK to parent role/group";
        column "Active" "bit" "Active flag";
        column "LoggedIn" "bit" "Currently logged in flag"]);
      ("relationships", PList [
        PDict [("entity", PStr "Contact"); ("type", PStr "one-to-one"); ("column", PStr "ContactId")];
        PDict [("entity", PStr "SysAdminUnit"); ("type", PStr "self-referencing"); ("column", PStr "ParentRoleId")]])])].

Definition CRM_KPI_LIBRARY : list (string * pyval) :=
  [
   ("sales", PDict [
      ("pipeline_value", PDict
        [("name", PStr "Pipeline Value");
         ("description", PStr "Total value of open opportunities in the sales pipeline");
         ("formula", PStr "SUM(Opportunity.Amount) WHERE Opportunity.Stage.IsFinal = 0");
         ("unit", PStr "currency");
         ("frequency", PStr "daily");
         ("entities", PList [PStr "Opportunity"; PStr "OpportunityStage"])]);
      ("win_rate", PDict
        [("name", PStr "Win Rate");
         ("description", PStr "Percentage of opportunities closed as won");
         ("formula", PStr "(COUNT(Won Opportunities) / COUNT(All Closed Opportunities)) * 100");
         ("unit", PStr "percentage");
         ("frequency", PStr "monthly");
         ("entities", PList [PStr "Opportunity"; PStr "OpportunityStage"])]);
      ("average_deal_size", PDict
        [("name", PStr "Average Deal Size");
         ("description", PStr "Average value of closed-won opportunities");
         ("formula", PStr "AVG(Opportunity.Amount) WHERE Stage.Name = 'Closed won'");
         ("unit", PStr "currency");
         ("frequency", PStr "monthly");
         ("entities", PList [PStr "Opportunity"])]);
      ("sales_cycle_length", PDict
        [("name", PStr "Sales Cycle Length");
         ("description", PStr "Average days from opportunity creation to close");
         ("formula", PStr "AVG(DATEDIFF(day, Opportunity.CreatedOn, Opportunity.CloseDate))");
         ("unit", PStr "days");
         ("frequency", PStr "monthly");
         ("entities", PList [PStr "Opportunity"])]);
      ("lead_conversion_rate", PDict
        [("name", PStr "Lead Conversion Rate");
         ("description", PStr "Percentage of leads converted to opportunities");
         ("formula", PStr "(COUNT(Converted Leads) / COUNT(All Leads)) * 100");
         ("unit", PStr "percentage");
         ("frequency", PStr "monthly");
         ("entities", PList [PStr "Lead"])]);
      ("revenue_by_rep", PDict
        [("name", PStr "Revenue by Sales Rep");
         ("description", PStr "Total closed revenue per sales representative");
         ("formula", PStr "SUM(Opportunity.Amount) GROUP BY OwnerId WHERE Stage = 'Closed won'");
         ("unit", PStr "currency");
         ("frequency", PStr "monthly");
         ("entities", PList [PStr "Opportunity"; PStr "Contact"])]);
      ("quota_attainment", PDict
        [("name", PStr "Quota Attainment");
         ("description", PStr "Percentage of sales quota achieved");
         ("formula", PStr "(Actual Revenue / Target Quota) * 100");
         ("unit", PStr "percentage");
         ("frequency", PStr "monthly");
         ("entities", PList [PStr "Opportunity"; PStr "SalesTarget"])]);
      ("opportunity_velocity", PDict
        [("name", PStr "Opportunity Velocity");
         ("description", PStr "Rate at which opportunities move through pipeline");
         ("formula", PStr "(# Opportunities * Win Rate * Avg Deal) / Sales Cycle");
         ("unit", PStr "currency/day");
         ("frequency", PStr "monthly");
         ("entities", PList [PStr "Opportunity"])])]);
   ("marketing", PDict [
      ("lead_volume", PDict
        [("name", PStr "Lead Volume");
         ("description", PStr "Number of new leads created in period");
         ("formula", PStr "COUNT(Lead) WHERE CreatedOn IN period");
         ("unit", PStr "count");
         ("frequency", PStr "weekly");
         ("entities", PList [PStr "Lead"])]);
      ("lead_source_effectiveness", PDict
        [("name", PStr "Lead Source Effectiveness");
         ("description", PStr "Leads and conversions by source");
         ("formula", PStr "COUNT(Lead) GROUP BY LeadSourceId");
         ("unit", PStr "count");
         ("frequency", PStr "monthly");
         ("entities", PList [PStr "Lead"; PStr "LeadSource"])]);
      ("marketing_qualified_leads", PDict
        [("name", PStr "Marketing Qualified Leads (MQL)");
         ("description", PStr "Leads meeting marketing qualification criteria");
         ("formula", PStr "COUNT(Lead) WHERE QualifyStatus = 'Marketing Qualified'");
         ("unit", PStr "count");
         ("frequency", PStr "weekly");
         ("entities", PList [PStr "Lead"; PStr "QualifyStatus"])]);
      ("cost_per_lead", PDict
        [("name", PStr "Cost Per Lead");
         ("description", PStr "Marketing spend divided by leads generated");
         ("formula", PStr "Marketing Spend / COUNT(Leads)");
         ("unit", PStr "currency");
         ("frequency", PStr "monthly");
         ("entities", PList [PStr "Lead"; PStr "Campaign"])]);
      ("campaign_roi", PDict
        [("name", PStr "Campaign ROI");
         ("description", PStr "Return on investment for marketing campaigns");
         ("formula", PStr "((Revenue - Cost) / Cost) * 100");
         ("unit", PStr "percentage");
         ("frequency", PStr "per_campaign");
         ("entities", PList [PStr "Campaign"; PStr "Opportunity"])])]);
   ("customer_service", PDict [
      ("case_volume", PDict
        [("name", PStr "Case Volume");
         ("description", PStr "Total number of support cases");
         ("formula", PStr "COUNT(Case)");
         ("unit", PStr "count");
         ("frequency", PStr "daily");
         ("entities", PList [PStr "Case"])]);
      ("average_resolution_time", PDict
        [("name", PStr "Average Resolution Time");
         ("description", PStr "Average time to resolve cases");
         ("formula", PStr "AVG(DATEDIFF(hour, Case.RegisteredOn, Case.SolutionDate))");
         ("unit", PStr "hours");
         ("frequency", PStr "weekly");
         ("entities", PList [PStr "Case"])]);
      ("first_response_time", PDict
        [("name", PStr "First Response Time");
         ("description", PStr "Average time to first response on cases");
         ("formula", PStr "AVG(DATEDIFF(minute, Case.RegisteredOn, FirstActivity.StartDate))");
         ("unit", PStr "minutes");
         ("frequency", PStr "daily");
         ("entities", PList [PStr "Case"; PStr "Activity"])]);
      ("customer_satisfaction", PDict
        [("name", PStr "Customer Satisfaction (CSAT)");
         ("description", PStr "Average satisfaction score from case surveys");
         ("formula", PStr "AVG(Case.SatisfactionLevel.Score)");
         ("unit", PStr "score");
         ("frequency", PStr "weekly");
         ("entities", PList [PStr "Case"; PStr "SatisfactionLevel"])]);
      ("sla_compliance", PDict
        [("name", PStr "SLA Compliance Rate");
         ("description", PStr "Percentage of cases resolved within SLA");
         ("formula", PStr "(COUNT(Cases within SLA) / COUNT(All Cases)) * 100");
         ("unit", PStr "percentage");
         ("frequency", PStr "weekly");
         ("entities", PList [PStr "Case"; PStr "ServicePact"])]);
      ("case_backlog", PDict
        [("name", PStr "Case Backlog");
         ("description", PStr "Number of open unresolved cases");
         ("formula", PStr "COUNT(Case) WHERE Status.IsFinal = 0");
         ("unit", PStr "count");
         ("frequency", PStr "daily");
         ("entities", PList [PStr "Case"; PStr "CaseStatus"])]);
      ("escalation_rate", PDict
        [("name", PStr "Escalation Rate");
         ("description", PStr "Percentage of cases that required escalation");
         ("formula", PStr "(COUNT(Escalated Cases) / COUNT(All Cases)) * 100");
         ("unit", PStr "percentage");
         ("frequency", PStr "weekly");
         ("entities", PList [PStr "Case"])])]);
   ("customer_health", PDict [
      ("customer_lifetime_value", PDict
        [("name", PStr "Customer Lifetime Value (CLV)");
         ("description", PStr "Total revenue expected from a customer relationship");
         ("formula", PStr "AVG Revenue per Period * Customer Lifespan");
         ("unit", PStr "currency");
         ("frequency", PStr "quarterly");
         ("entities", PList [PStr "Account"; PStr "Order"; PStr "Opportunity"])]);
      ("churn_rate", PDict
        [("name", PStr "Churn Rate");
         ("description", PStr "Percentage of customers lost in period");
         ("formula", PStr "(Lost Customers / Total Customers at Start) * 100");
         ("unit", PStr "percentage");
         ("frequency", PStr "monthly");
         ("entities", PList [PStr "Account"])]);
      ("net_promoter_score", PDict
        [("name", PStr "Net Promoter Score (NPS)");
         ("description", PStr "Customer loyalty and satisfaction metric");
         ("formula", PStr "% Promoters - % Detractors");
         ("unit", PStr "score");
         ("frequency", PStr "quarterly");
         ("entities", PList [PStr "Contact"; PStr "Survey"])]);
      ("customer_engagement_score", PDict
        [("name", PStr "Customer Engagement Score");
         ("description", PStr "Composite score of customer interaction levels");
         ("formula", PStr "Weighted sum of activities, responses, purchases");
         ("unit", PStr "score");
         ("frequency", PStr "monthly");
         ("entities", PList [PStr "Account"; PStr "Activity"; PStr "Opportunity"])]);
      ("revenue_retention", PDict
        [("name", PStr "Revenue Retention Rate");
         ("description", PStr "Percentage of revenue retained from existing customers");
         ("formula", PStr "((End Revenue - New Revenue) / Start Revenue) * 100");
         ("unit", PStr "percentage");
         ("frequency", PStr "monthly");
         ("entities", PList [PStr "Account"; PStr "Order"])])]);
   ("activity_metrics", PDict [
      ("activities_per_rep", PDict
        [("name", PStr "Activities per Rep");
         ("description", PStr "Number of activities logged per sales rep");
         ("formula", PStr "COUNT(Activity) GROUP BY OwnerId");
         ("unit", PStr "count");
         ("frequency", PStr "weekly");
         ("entities", PList [PStr "Activity"; PStr "Contact"])]);
      ("calls_made", PDict
        [("name", PStr "Calls Made");
         ("description", PStr "Number of call activities completed");
         ("formula", PStr "COUNT(Activity) WHERE Type = 'Call'");
         ("unit", PStr "count");
         ("frequency", PStr "daily");
         ("entities", PList [PStr "Activity"; PStr "ActivityType"])]);
      ("emails_sent", PDict
        [("name", PStr "Emails Sent");
         ("description", PStr "Number of email activities");
         ("formula", PStr "COUNT(Activity) WHERE Type = 'Email'");
         ("unit", PStr "count");
         ("frequency", PStr "daily");
         ("entities", PList [PStr "Activity"; PStr "ActivityType"])]);
      ("meetings_held", PDict
        [("name", PStr "Meetings Held");
         ("description", PStr "Number of meeting activities completed");
         ("formula", PStr "COUNT(Activity) WHERE Type = 'Meeting' AND Status = 'Completed'");
         ("unit", PStr "count");
         ("frequency", PStr "weekly");
         ("entities", PList [PStr "Activity"; PStr "ActivityType"; PStr "ActivityStatus"])])])].

(** ** The tools, reading the module tables

    [schema_kb] and [kpi_lib] are the dictionaries bound to the module
    names [CREATIO_SCHEMA_KNOWLEDGE] and [CRM_KPI_LIBRARY] when a tool
    runs. *)

Section Tools.

Variable schema_kb : list (string * pyval).
Variable kpi_lib : list (string * pyval).

(** ** schema_tools.py *)

(** The loop [for key in CREATIO_SCHEMA_KNOWLEDGE: if key.lower() ==
    name.lower(): ...; break], shared by the schema and documentation
    tools. *)
Definition find_entity (name : string) : option string :=
  find (fun key => String.eqb (str_lower key) (str_lower name))
       (keys schema_kb).

(** The dictionary built by [SchemaExplorerTool._run] before [str(...)]. *)
Definition SchemaExplorerTool_result (entity_name : string) (include_relationships : bool)
  : Py pyval :=
  let entity_key := str_strip entity_name in
  let matched_entity := find_entity entity_key in
  if negb (truthy matched_entity) then
    let available := keys schema_kb in
    Ok (PDict
          [("success", PBool false);
           ("error", PStr ("Entity '" ++ entity_name ++ "' not found in schema knowledge base"));
           ("available_entities", PStrs available);
           ("suggestion", PStr ("Try one of: " ++ str_join ", " available))])
  else
    let matched := opt_text matched_entity in
    entity_info <- lookup schema_kb matched ;;
    table_name <- getitem entity_info "table_name" ;;
    description <- getitem entity_info "description" ;;
    columns <- getitem entity_info "key_columns" ;;
    cols <- getitem entity_info "key_columns" ;;
    column_count <- py_len cols ;;
    let result :=
      [("success", PBool true);
       ("entity", PStr matched);
       ("table_name", table_name);
       ("description", description);
       ("columns", columns);
       ("column_count", column_count)] in
    if include_relationships then
      rels <- dict_get entity_info "relationships" (PList []) ;;
      let result := dict_set result "relationships" rels in
      rels' <- dict_get entity_info "relationships" (PList []) ;;
      relationship_count <- py_len rels' ;;
      Ok (PDict (dict_set result "relationship_count" relationship_count))
    else Ok (PDict result).

Definition SchemaExplorerTool_run (entity_name : string) (include_relationships : bool)
  : Py string :=
  r <- SchemaExplorerTool_result entity_name include_relationships ;; Ok (py_str r).

(** The inner loop of the relationship paths: the first three secondary
    relationships of [related_entity] that do not lead back to the source. *)
Definition secondary_paths (source_key related_entity : string) (rel : pyval)
    (paths : list pyval) (sec_rel : pyval) : Py (list pyval) :=
  sec_entity <- getitem sec_rel "entity" ;;
  if negb (py_eq_str sec_entity source_key) then
    sec_entity' <- getitem sec_rel "entity" ;;
    via <- getitem rel "type" ;;
    sec_type <- getitem sec_rel "type" ;;
    Ok (paths +++
        [PDict [("path", PStr (source_key ++ " -> " ++ related_entity ++ " -> " ++ py_str sec_entity'));
                ("via_relationship", via);
                ("secondary_relationship", sec_type)]])
  else Ok paths.

Definition relationship_paths (source_key : string) (paths : list pyval) (rel : pyval)
  : Py (list pyval) :=
  related_entity <- get_str rel "entity" ;;
  if list_in related_entity (keys schema_kb) then
    info <- lookup schema_kb related_entity ;;
    secondary <- dict_get info "relationships" (PList []) ;;
    secondary_rels <- as_list secondary ;;
    foldM (secondary_paths source_key related_entity rel) (firstn 3 secondary_rels) paths
  else Ok paths.

Definition EntityRelationshipTool_result (source_entity : string)
    (target_entity : option string) (relationship_depth : Z) : Py pyval :=
  let source_key := find_entity source_entity in
  if negb (truthy source_key) then
    Ok (PDict
          [("success", PBool false);
           ("error", PStr ("Source entity '" ++ source_entity ++ "' not found"));
           ("available_entities", PStrs (keys schema_kb))])
  else
    let source_key := opt_text source_key in
    source_info <- lookup schema_kb source_key ;;
    rels <- dict_get source_info "relationships" (PList []) ;;
    relationships <- as_list rels ;;
    relationships <-
      (if truthy target_entity then
         let target_key := find_entity (opt_text target_entity) in
         if truthy target_key then
           filterM (fun r => e <- get_str r "entity" ;;
                             Ok (String.eqb (str_lower e) (str_lower (opt_text target_key))))
                   relationships
         else Ok relationships
       else Ok relationships) ;;
    paths <-
      (if (relationship_depth >? 1)%Z then
         foldM (relationship_paths source_key) relationships []
       else Ok []) ;;
    Ok (PDict
          [("success", PBool true);
           ("source_entity", PStr source_key);
           ("direct_relationships", PList relationships);
           ("relationship_paths", PList paths)]).

Definition EntityRelationshipTool_run (source_entity : string)
    (target_entity : option string) (relationship_depth : Z) : Py string :=
  r <- EntityRelationshipTool_result source_entity target_entity relationship_depth ;;
  Ok (py_str r).

Definition system_columns : list string :=
  ["CreatedOn"; "ModifiedOn"; "CreatedById"; "ModifiedById"; "ProcessListeners"].

(** The five lists of [categorized], in the order of the dictionary. *)
Record Categorized : Type := mkCategorized {
  primary_key : list pyval;
  foreign_keys : list pyval;
  lookup_references : list pyval;
  data_columns : list pyval;
  datetime_columns : list pyval
}.

Definition no_columns : Categorized := mkCategorized [] [] [] [] [].

(** One turn of the loop [for col in columns] of [ColumnAnalyzerTool._run]. *)
Definition categorize_column (cat : Categorized) (col : pyval) : Py Categorized :=
  name <- get_str col "name" ;;
  if String.eqb name "Id" then
    Ok (mkCategorized (primary_key cat +++ [col]) (foreign_keys cat) (lookup_references cat)
                      (data_columns cat) (datetime_columns cat))
  else
    is_ref <- (if str_endswith "Id" name
               then t <- getitem col "type" ;; Ok (py_eq_str t "uniqueidentifier")
               else Ok false) ;;
    if is_ref then
      description <- get_str col "description" ;;
      if str_in "FK" description then
        Ok (mkCategorized (primary_key cat) (foreign_keys cat +++ [col]) (lookup_references cat)
                          (data_columns cat) (datetime_columns cat))
      else
        Ok (mkCategorized (primary_key cat) (foreign_keys cat) (lookup_references cat +++ [col])
                          (data_columns cat) (datetime_columns cat))
    else
      type <- get_str col "type" ;;
      if str_in "datetime" type then
        Ok (mkCategorized (primary_key cat) (foreign_keys cat) (lookup_references cat)
                          (data_columns cat) (datetime_columns cat +++ [col]))
      else
        Ok (mkCategorized (primary_key cat) (foreign_keys cat) (lookup_references cat)
                          (data_columns cat +++ [col]) (datetime_columns cat)).

Definition categorize (columns : list pyval) : Py Categorized :=
  foldM categorize_column columns no_columns.

(** The column list of [ColumnAnalyzerTool._run] after its two filters. *)
Definition analyzed_columns (entity_key : string) (column_filter : option string)
    (include_system_columns : bool) : Py (list pyval) :=
  info <- lookup schema_kb entity_key ;;
  columns <- get_list info "key_columns" ;;
  columns <-
    (if negb include_system_columns then
       filterM (fun c => n <- get_str c "name" ;; Ok (negb (list_in n system_columns))) columns
     else Ok columns) ;;
  if truthy column_filter then
    filterM (fun c => n <- get_str c "name" ;;
                      Ok (str_in (str_lower (opt_text column_filter)) (str_lower n)))
            columns
  else Ok columns.

Definition ColumnAnalyzerTool_result (entity_name : string) (column_filter : option string)
    (include_system_columns : bool) : Py pyval :=
  let entity_key := find_entity entity_name in
  if negb (truthy entity_key) then
    Ok (PDict
          [("success", PBool false);
           ("error", PStr ("Entity '" ++ entity_name ++ "' not found"))])
  else
    let entity_key := opt_text entity_key in
    columns <- analyzed_columns entity_key column_filter include_system_columns ;;
    cat <- categorize columns ;;
    Ok (PDict
          [("success", PBool true);
           ("entity", PStr entity_key);
           ("total_columns", PLen columns);
           ("columns", PList columns);
           ("categorized",
            PDict [("primary_key", PList (primary_key cat));
                   ("foreign_keys", PList (foreign_keys cat));
                   ("lookup_references", PList (lookup_references cat));
                   ("data_columns", PList (data_columns cat));
                   ("datetime_columns", PList (datetime_columns cat))]);
           ("analysis",
            PDict [("has_primary_key", PBool (0 <? length (primary_key cat))%nat);
                   ("foreign_key_count", PLen (foreign_keys cat));
                   ("is_highly_relational", PBool (3 <? length (foreign_keys cat))%nat)])]).

Definition ColumnAnalyzerTool_run (entity_name : string) (column_filter : option string)
    (include_system_columns : bool) : Py string :=
  r <- ColumnAnalyzerTool_result entity_name column_filter include_system_columns ;;
  Ok (py_str r).

(** The three match lists of [SchemaSearchTool._run]. *)
Record Matches : Type := mkMatches {
  m_entities : list pyval;
  m_columns : list pyval;
  m_relationships : list pyval
}.

Definition search_column (term entity_name : string) (acc : list pyval) (col : pyval)
  : Py (list pyval) :=
  name <- get_str col "name" ;;
  hit <- or_else (str_in term (str_lower name))
                 (d <- get_str col "description" ;; Ok (str_in term (str_lower d))) ;;
  if hit then
    n <- getitem col "name" ;;
    t <- getitem col "type" ;;
    d <- getitem col "description" ;;
    Ok (acc +++ [PDict [("entity", PStr entity_name); ("column", n); ("type", t);
                       ("description", d)]])
  else Ok acc.

Definition search_relationship (term entity_name : string) (acc : list pyval) (rel : pyval)
  : Py (list pyval) :=
  e <- get_str rel "entity" ;;
  hit <- or_else (str_in term (str_lower e))
                 (t <- get_str rel "type" ;; Ok (str_in term (str_lower t))) ;;
  if hit then
    e' <- getitem rel "entity" ;;
    t <- getitem rel "type" ;;
    Ok (acc +++ [PDict [("from_entity", PStr entity_name); ("to_entity", e'); ("type", t)]])
  else Ok acc.

(** One turn of [for entity_name, entity_info in CREATIO_SCHEMA_KNOWLEDGE.items()]. *)
Definition search_entity (term search_scope : string) (m : Matches)
    (item : string * pyval) : Py Matches :=
  let (entity_name, entity_info) := item in
  ents <-
    (if list_in search_scope ["all"; "entities"] then
       hit <- or_else (str_in term (str_lower entity_name))
                      (d <- get_str entity_info "description" ;;
                       Ok (str_in term (str_lower d))) ;;
       if hit then
         d <- getitem entity_info "description" ;;
         t <- getitem entity_info "table_name" ;;
         Ok (m_entities m +++
             [PDict [("entity", PStr entity_name); ("description", d); ("table", t)]])
       else Ok (m_entities m)
     else Ok (m_entities m)) ;;
  cols <-
    (if list_in search_scope ["all"; "columns"] then
       key_columns <- get_list entity_info "key_columns" ;;
       foldM (search_column term entity_name) key_columns (m_columns m)
     else Ok (m_columns m)) ;;
  rels <-
    (if list_in search_scope ["all"; "relationships"] then
       r <- dict_get entity_info "relationships" (PList []) ;;
       relationships <- as_list r ;;
       foldM (search_relationship term entity_name) relationships (m_relationships m)
     else Ok (m_relationships m)) ;;
  Ok (mkMatches ents cols rels).

Definition SchemaSearchTool_result (search_term search_scope : string) : Py pyval :=
  let term := str_lower search_term in
  m <- foldM (search_entity term search_scope) schema_kb (mkMatches [] [] []) ;;
  Ok (PDict
        [("success", PBool true);
         ("search_term", PStr search_term);
         ("scope", PStr search_scope);
         ("matches",
          PDict [("entities", PList (m_entities m));
                 ("columns", PList (m_columns m));
                 ("relationships", PList (m_relationships m))]);
         ("summary",
          PDict [("total_matches",
                  PInt (Z.of_nat (length (m_entities m)) + Z.of_nat (length (m_columns m))
                        + Z.of_nat (length (m_relationships m))));
                 ("entities_found", PLen (m_entities m));
                 ("columns_found", PLen (m_columns m));
                 ("relationships_found", PLen (m_relationships m))])]).

Definition SchemaSearchTool_run (search_term search_scope : string) : Py string :=
  r <- SchemaSearchTool_result search_term search_scope ;; Ok (py_str r).

(** ** metrics_tools.py *)

(** One turn of [for kpi_id, kpi_info in kpis.items()] in
    [MetricDefinitionTool._run]. *)
Definition suggest_kpi (metric_lower category : string) (acc : list pyval)
    (item : string * pyval) : Py (list pyval) :=
  let (kpi_id, kpi_info) := item in
  name <- get_str kpi_info "name" ;;
  hit <- or_else (str_in metric_lower (str_lower name))
                 (d <- get_str kpi_info "description" ;;
                  Ok (str_in metric_lower (str_lower d))) ;;
  if hit then
    n <- getitem kpi_info "name" ;;
    d <- getitem kpi_info "description" ;;
    Ok (acc +++ [PDict [("id", PStr (category ++ "." ++ kpi_id)); ("name", n);
                       ("description", d)]])
  else Ok acc.

Definition suggest_kpis (metric_lower : string) (acc : list pyval)
    (item : string * pyval) : Py (list pyval) :=
  let (category, kpis) := item in
  kpi_items <- items kpis ;;
  foldM (suggest_kpi metric_lower category) kpi_items acc.

Definition MetricDefinitionTool_suggest_formula (metric_name : string)
    (entity : option string) : string :=
  let name_lower := str_lower metric_name in
  if str_in "rate" name_lower || str_in "percentage" name_lower then
    "(COUNT(matching_records) / COUNT(total_records)) * 100"
  else if str_in "average" name_lower || str_in "avg" name_lower then "AVG(column_name)"
  else if str_in "total" name_lower || str_in "sum" name_lower then "SUM(column_name)"
  else if str_in "count" name_lower || str_in "number" name_lower then "COUNT(records)"
  else if str_in "time" name_lower || str_in "duration" name_lower then
    "AVG(DATEDIFF(unit, start_date, end_date))"
  else "Define based on specific requirements".

Definition set_requirements (d : list (string * pyval)) (primary : string)
    (columns related : list string) : list (string * pyval) :=
  dict_set (dict_set (dict_set d "primary_entity" (PStr primary))
                     "required_columns" (PStrs columns))
           "related_entities" (PStrs related).

Definition MetricDefinitionTool_identify_data_requirements (metric_name : string)
    (entity : option string) : pyval :=
  let name_lower := str_lower metric_name in
  let requirements :=
    [("primary_entity", PStr (if truthy entity then opt_text entity else "To be determined"));
     ("required_columns", PList []);
     ("related_entities", PList []);
     ("filters_needed", PList [])] in
  if str_in "opportunity" name_lower || str_in "deal" name_lower
     || str_in "pipeline" name_lower then
    PDict (set_requirements requirements "Opportunity"
             ["Amount"; "StageId"; "CloseDate"; "OwnerId"] ["OpportunityStage"; "Account"])
  else if str_in "lead" name_lower then
    PDict (set_requirements requirements "Lead"
             ["QualifyStatusId"; "LeadSourceId"; "CreatedOn"] ["QualifyStatus"; "LeadSource"])
  else if str_in "case" name_lower || str_in "ticket" name_lower
          || str_in "support" name_lower then
    PDict (set_requirements requirements "Case"
             ["StatusId"; "RegisteredOn"; "SolutionDate"] ["CaseStatus"; "SatisfactionLevel"])
  else if str_in "activity" name_lower || str_in "call" name_lower
          || str_in "meeting" name_lower then
    PDict (set_requirements requirements "Activity"
             ["TypeId"; "StatusId"; "StartDate"; "OwnerId"] ["ActivityType"; "ActivityStatus"])
  else PDict requirements.

Definition MetricDefinitionTool_suggest_frequency (metric_name : string) : string :=
  let name_lower := str_lower metric_name in
  if str_in "daily" name_lower || str_in "today" name_lower then "daily"
  else if str_in "weekly" name_lower then "weekly"
  else if str_in "monthly" name_lower then "monthly"
  else if str_in "quarterly" name_lower then "quarterly"
  else if str_in "year" name_lower || str_in "annual" name_lower then "yearly"
  else if str_in "rate" name_lower || str_in "percentage" name_lower then "monthly"
  else "weekly".

Definition MetricDefinitionTool_suggest_visualization (metric_name : string) : string :=
  let name_lower := str_lower metric_name in
  if str_in "trend" name_lower || str_in "over time" name_lower then "line_chart"
  else if str_in "by" name_lower || str_in "breakdown" name_lower then "bar_chart"
  else if str_in "distribution" name_lower then "pie_chart"
  else if str_in "rate" name_lower || str_in "percentage" name_lower then "gauge"
  else if str_in "comparison" name_lower then "bar_chart"
  else "single_value_card".

Definition MetricDefinitionTool_result (metric_name business_context : string)
    (target_entity : option string) : Py pyval :=
  let metric_lower := str_lower metric_name in
  suggested_kpis <- foldM (suggest_kpis metric_lower) kpi_lib [] ;;
  Ok (PDict
        [("success", PBool true);
         ("metric_request", PStr metric_name);
         ("business_context", PStr business_context);
         ("similar_existing_kpis", PList (firstn 5 suggested_kpis));
         ("custom_definition",
          PDict [("name", PStr metric_name);
                 ("description", PStr ("Custom metric for: " ++ business_context));
                 ("suggested_formula",
                  PStr (MetricDefinitionTool_suggest_formula metric_name target_entity));
                 ("data_requirements",
                  MetricDefinitionTool_identify_data_requirements metric_name target_entity);
                 ("calculation_frequency",
                  PStr (MetricDefinitionTool_suggest_frequency metric_name));
                 ("visualization_type",
                  PStr (MetricDefinitionTool_suggest_visualization metric_name))]);
         ("implementation_steps",
          PStrs ["1. Validate data availability in Creatio schema";
                 "2. Create SQL query for data extraction";
                 "3. Set up calculation schedule (if recurring)";
                 "4. Add to dashboard or reporting system";
                 "5. Define thresholds and alerts if needed"])]).

Definition MetricDefinitionTool_run (metric_name business_context : string)
    (target_entity : option string) : Py string :=
  r <- MetricDefinitionTool_result metric_name business_context target_entity ;;
  Ok (py_str r).

(** The dictionary [filters] of [MetricCalculatorTool._get_date_filter]. *)
Definition date_filters : list (string * string) :=
  [("today", "CAST(CreatedOn AS DATE) = CAST(GETDATE() AS DATE)");
   ("last_week", "CreatedOn >= DATEADD(WEEK, -1, GETDATE())");
   ("last_month", "CreatedOn >= DATEADD(MONTH, -1, GETDATE())");
   ("last_quarter", "CreatedOn >= DATEADD(QUARTER, -1, GETDATE())");
   ("ytd", "YEAR(CreatedOn) = YEAR(GETDATE())");
   ("last_year", "CreatedOn >= DATEADD(YEAR, -1, GETDATE())")].

(** [filters.get(time_period, filters["last_month"])] *)
Definition MetricCalculatorTool_get_date_filter (time_period : string) : Py string :=
  match assoc "last_month" date_filters with
  | None => Raise (KeyError "last_month")
  | Some default =>
      Ok (match assoc time_period date_filters with
          | Some f => f
          | None => default
          end)
  end.

(** The branch [unit == "percentage" and "rate" in name]: a template, or
    nothing when the function goes on to its later tests. *)
Definition rate_query (kpi : pyval) (date_filter : string) : Py (option string) :=
  unit <- getitem kpi "unit" ;;
  is_rate <- (if py_eq_str unit "percentage"
              then name <- get_str kpi "name" ;; Ok (str_in "rate" (str_lower name))
              else Ok false) ;;
  if is_rate then
    name <- get_str kpi "name" ;;
    if str_in "win" (str_lower name) then
      Ok (Some (NL ++ "SELECT " ++ NL
                ++ "    CAST(SUM(CASE WHEN s.Name = 'Closed won' THEN 1 ELSE 0 END) AS FLOAT) /"
                ++ NL ++ "    NULLIF(COUNT(*), 0) * 100 AS WinRate" ++ NL
                ++ "FROM [Opportunity] o" ++ NL
                ++ "JOIN [OpportunityStage] s ON o.StageId = s.Id" ++ NL
                ++ "WHERE s.IsFinal = 1" ++ NL ++ "    AND " ++ date_filter ++ NL))
    else
      name' <- get_str kpi "name" ;;
      if str_in "conversion" (str_lower name') then
        Ok (Some (NL ++ "SELECT " ++ NL
                  ++ "    CAST(SUM(CASE WHEN QualifiedContactId IS NOT NULL THEN 1 ELSE 0 END) AS FLOAT) /"
                  ++ NL ++ "    NULLIF(COUNT(*), 0) * 100 AS ConversionRate" ++ NL
                  ++ "FROM [Lead]" ++ NL ++ "WHERE " ++ date_filter ++ NL))
      else Ok None
  else Ok None.

(** The branch [unit == "currency"]. *)
Definition currency_query (kpi : pyval) (date_filter : string) : Py (option string) :=
  unit <- getitem kpi "unit" ;;
  if py_eq_str unit "currency" then
    name <- get_str kpi "name" ;;
    if str_in "pipeline" (str_lower name) then
      Ok (Some (NL ++ "SELECT SUM(o.Amount) AS PipelineValue" ++ NL
                ++ "FROM [Opportunity] o" ++ NL
                ++ "JOIN [OpportunityStage] s ON o.StageId = s.Id" ++ NL
                ++ "WHERE s.IsFinal = 0" ++ NL))
    else
      name' <- get_str kpi "name" ;;
      if str_in "average" (str_lower name') then
        Ok (Some (NL ++ "SELECT AVG(o.Amount) AS AverageDealSize" ++ NL
                  ++ "FROM [Opportunity] o" ++ NL
                  ++ "JOIN [OpportunityStage] s ON o.StageId = s.Id" ++ NL
                  ++ "WHERE s.Name = 'Closed won'" ++ NL ++ "    AND " ++ date_filter ++ NL))
      else Ok None
  else Ok None.

Definition MetricCalculatorTool_generate_calculation_query (kpi : pyval)
    (time_period : string) (group_by : option string) : Py string :=
  entities <- get_list kpi "entities" ;;
  primary_entity <- match entities with
                    | e :: _ => Ok e
                    | [] => Raise IndexError
                    end ;;
  date_filter <- MetricCalculatorTool_get_date_filter time_period ;;
  rate <- rate_query kpi date_filter ;;
  match rate with
  | Some q => Ok q
  | None =>
      currency <- currency_query kpi date_filter ;;
      match currency with
      | Some q => Ok q
      | None =>
          unit <- getitem kpi "unit" ;;
          is_span <- or_else (py_eq_str unit "days")
                             (unit' <- getitem kpi "unit" ;; Ok (py_eq_str unit' "hours")) ;;
          if is_span then
            u <- get_str kpi "unit" ;;
            name <- get_str kpi "name" ;;
            Ok (NL ++ "SELECT AVG(DATEDIFF(" ++ str_drop_last 1 u
                ++ ", CreatedOn, CloseDate)) AS " ++ str_replace " " "" name ++ NL
                ++ "FROM [" ++ py_str primary_entity ++ "]" ++ NL
                ++ "WHERE " ++ date_filter ++ NL)
          else
            name <- get_str kpi "name" ;;
            Ok (NL ++ "SELECT COUNT(*) AS " ++ str_replace " " "" name ++ NL
                ++ "FROM [" ++ py_str primary_entity ++ "]" ++ NL
                ++ "WHERE " ++ date_filter ++ NL)
      end
  end.

Definition MetricCalculatorTool_result (metric_id time_period : string)
    (group_by : option string) : Py pyval :=
  let parts := str_split "." metric_id in
  match parts with
  | [category; metric_name] =>
      if negb (list_in category (keys kpi_lib)) then
        Ok (PDict
              [("success", PBool false);
               ("error", PStr ("Unknown category: " ++ category));
               ("available_categories", PStrs (keys kpi_lib))])
      else
        metrics <- lookup kpi_lib category ;;
        ms <- as_dict metrics ;;
        if negb (list_in metric_name (keys ms)) then
          metrics' <- lookup kpi_lib category ;;
          ms' <- as_dict metrics' ;;
          Ok (PDict
                [("success", PBool false);
                 ("error", PStr ("Unknown metric: " ++ metric_name));
                 ("available_metrics", PStrs (keys ms'))])
        else
          metrics' <- lookup kpi_lib category ;;
          kpi <- getitem metrics' metric_name ;;
          sql_query <- MetricCalculatorTool_generate_calculation_query kpi time_period group_by ;;
          date_filter <- MetricCalculatorTool_get_date_filter time_period ;;
          name <- getitem kpi "name" ;;
          description <- getitem kpi "description" ;;
          unit <- getitem kpi "unit" ;;
          formula <- getitem kpi "formula" ;;
          entities <- getitem kpi "entities" ;;
          frequency <- getitem kpi "frequency" ;;
          Ok (PDict
                [("success", PBool true);
                 ("metric",
                  PDict [("id", PStr metric_id); ("name", name);
                         ("description", description); ("unit", unit)]);
                 ("calculation",
                  PDict [("formula", formula);
                         ("sql_query", PStr sql_query);
                         ("time_period", PStr time_period);
                         ("date_filter", PStr date_filter);
                         ("group_by", POpt group_by)]);
                 ("entities_required", entities);
                 ("notes",
                  PList [PStr ("Recommended calculation frequency: " ++ py_str frequency);
                         PStr "Ensure appropriate indexes exist for date columns";
                         PStr "Consider caching results for dashboard performance"])])
  | _ =>
      Ok (PDict
            [("success", PBool false);
             ("error",
              PStr "Invalid metric_id format. Use 'category.metric_name' (e.g., 'sales.win_rate')");
             ("available_categories", PStrs (keys kpi_lib))])
  end.

Definition MetricCalculatorTool_run (metric_id time_period : string)
    (group_by : option string) : Py string :=
  r <- MetricCalculatorTool_result metric_id time_period group_by ;; Ok (py_str r).

(** One turn of [for kpi_id, kpi_info in CRM_KPI_LIBRARY[cat].items()] in
    [KPILibraryTool._run]. *)
Definition library_kpi (cat : string) (search_term : option string) (acc : list pyval)
    (item : string * pyval) : Py (list pyval) :=
  let (kpi_id, kpi_info) := item in
  skip <-
    (if truthy search_term then
       let term_lower := str_lower (opt_text search_term) in
       name <- get_str kpi_info "name" ;;
       if negb (str_in term_lower (str_lower name)) then
         d <- get_str kpi_info "description" ;;
         Ok (negb (str_in term_lower (str_lower d)))
       else Ok false
     else Ok false) ;;
  if skip then Ok acc
  else
    name <- getitem kpi_info "name" ;;
    description <- getitem kpi_info "description" ;;
    unit <- getitem kpi_info "unit" ;;
    frequency <- getitem kpi_info "frequency" ;;
    Ok (acc +++ [PDict [("id", PStr (cat ++ "." ++ kpi_id));
                       ("category", PStr cat);
                       ("name", name);
                       ("description", description);
                       ("unit", unit);
                       ("frequency", frequency)]]).

(** One turn of [for cat in categories_to_search]. *)
Definition library_category (search_term : option string) (acc : list pyval) (cat : string)
  : Py (list pyval) :=
  if negb (list_in cat (keys kpi_lib)) then Ok acc
  else
    kpis <- lookup kpi_lib cat ;;
    kpi_items <- items kpis ;;
    foldM (library_kpi cat search_term) kpi_items acc.

Definition KPILibraryTool_result (category search_term : option string) : Py pyval :=
  let categories_to_search :=
    if truthy category then [opt_text category] else keys kpi_lib in
  kpis <- foldM (library_category search_term) categories_to_search [] ;;
  Ok (PDict
        [("success", PBool true);
         ("filter", PDict [("category", POpt category); ("search_term", POpt search_term)]);
         ("kpis", PList kpis);
         ("summary",
          PDict [("total_kpis_found", PLen kpis);
                 ("categories_searched", PStrs categories_to_search);
                 ("available_categories", PStrs (keys kpi_lib))])]).

Definition KPILibraryTool_run (category search_term : option string) : Py string :=
  r <- KPILibraryTool_result category search_term ;; Ok (py_str r).

(** [CRM_KPI_LIBRARY.get(category, {}).get(metric, {})] *)
Definition kpi_info_of (category metric : string) : Py pyval :=
  metrics <- dict_get (PDict kpi_lib) category (PDict []) ;;
  dict_get metrics metric (PDict []).

(** [v in l] for a value and a list of texts *)
Definition py_in_strs (v : pyval) (l : list string) : bool :=
  existsb (py_eq_str v) l.

(** Truth value of a dictionary or list value: empty is false. *)
Definition py_truthy (v : pyval) : bool :=
  match v with
  | PNone => false
  | PBool b => b
  | PInt z => negb (z =? 0)%Z
  | PStr s => negb (String.eqb s "")
  | PList l => negb (Nat.eqb (length l) 0)
  | PDict d => negb (Nat.eqb (length d) 0)
  end.

(** One turn of [for i, kpi_id in enumerate(kpis)] in
    [DashboardDesignerTool._generate_widget_layout]; the state is the next
    index and the widgets so far. *)
Definition widget_step (st : nat * list pyval) (kpi_id : string) : Py (nat * list pyval) :=
  let (i, widgets) := st in
  match str_split "." kpi_id with
  | [category; metric] =>
      kpi_info <- kpi_info_of category metric ;;
      if negb (py_truthy kpi_info) then Ok (S i, widgets)
      else
        unit <- dict_get kpi_info "unit" PNone ;;
        let widget_type :=
          if py_eq_str unit "percentage" then "gauge"
          else if py_eq_str unit "currency" then "scorecard"
          else if py_eq_str unit "count" then
                 (if Nat.eqb (i mod 2) 0 then "bar_chart" else "scorecard")
          else "trend_line" in
        kpi_name <- dict_get kpi_info "name" (PStr metric) ;;
        Ok (S i,
            (widgets +++
             [PDict [("position", PInt (Z.of_nat i + 1));
                     ("kpi_id", PStr kpi_id);
                     ("kpi_name", kpi_name);
                     ("widget_type", PStr widget_type);
                     ("size", PStr (if list_in widget_type ["bar_chart"; "trend_line"]
                                    then "medium" else "small"));
                     ("show_trend",
                      PBool (py_in_strs unit ["percentage"; "currency"; "count"]))]]))
  | _ => Ok (S i, widgets)
  end.

Definition DashboardDesignerTool_generate_widget_layout (kpis : list string) (config : pyval)
  : Py (list pyval) :=
  st <- foldM widget_step kpis (O, []) ;; Ok (snd st).

Definition layout_config : list (string * pyval) :=
  [("executive",
    PDict [("style", PStr "high-level summary");
           ("max_widgets", PInt 6);
           ("widget_types", PStrs ["scorecard"; "trend_line"; "gauge"]);
           ("refresh_frequency", PStr "daily")]);
   ("manager",
    PDict [("style", PStr "operational overview");
           ("max_widgets", PInt 10);
           ("widget_types", PStrs ["scorecard"; "bar_chart"; "table"; "trend_line"]);
           ("refresh_frequency", PStr "hourly")]);
   ("analyst",
    PDict [("style", PStr "detailed analysis");
           ("max_widgets", PInt 15);
           ("widget_types", PStrs ["table"; "pivot"; "scatter"; "heatmap"; "drill-down"]);
           ("refresh_frequency", PStr "real-time")]);
   ("rep",
    PDict [("style", PStr "personal performance");
           ("max_widgets", PInt 8);
           ("widget_types",
            PStrs ["scorecard"; "progress_bar"; "activity_feed"; "leaderboard"]);
           ("refresh_frequency", PStr "real-time")])].

(** The list of recommended KPI ids chosen from the dashboard purpose. *)
Definition recommended_kpis_for (purpose_lower : string) : list string :=
  let r0 : list string := [] in
  let r1 :=
    if str_in "sales" purpose_lower || str_in "revenue" purpose_lower then
      (r0 +++ ["sales.pipeline_value"; "sales.win_rate"; "sales.average_deal_size";
              "sales.sales_cycle_length"; "sales.revenue_by_rep"])
    else r0 in
  let r2 :=
    if str_in "marketing" purpose_lower || str_in "lead" purpose_lower then
      (r1 +++ ["marketing.lead_volume"; "marketing.lead_conversion_rate";
              "marketing.lead_source_effectiveness";
              "marketing.marketing_qualified_leads"])
    else r1 in
  let r3 :=
    if str_in "service" purpose_lower || str_in "support" purpose_lower
       || str_in "case" purpose_lower then
      (r2 +++ ["customer_service.case_volume"; "customer_service.average_resolution_time";
              "customer_service.customer_satisfaction";
              "customer_service.sla_compliance"])
    else r2 in
  if str_in "executive" purpose_lower || str_in "overview" purpose_lower then
    ["sales.pipeline_value"; "sales.win_rate"; "marketing.lead_conversion_rate";
     "customer_service.customer_satisfaction"; "customer_health.revenue_retention"]
  else r3.

(** The entities that one KPI id adds to the comprehension of
    [entities_needed]: the iterable is evaluated before the test
    ['.' in kpi_id]. *)
Definition entities_of_kpi (kpi_id : string) : Py (list string) :=
  let parts := str_split "." kpi_id in
  info <- kpi_info_of (hd "" parts) (last parts "") ;;
  ents <- dict_get info "entities" (PList []) ;;
  l <- as_list ents ;;
  names <- mapM as_str l ;;
  Ok (if str_in "." kpi_id then names else []).

(** [set_iter] is the order in which the interpreter iterates over the set
    built from a list of texts; it depends on the string hashing of the
    running process and is an input of the model. *)
Definition DashboardDesignerTool_result (set_iter : list string -> list string)
    (dashboard_purpose audience key_questions : string) : Py pyval :=
  let purpose_lower := str_lower dashboard_purpose in
  let recommended_kpis := recommended_kpis_for purpose_lower in
  manager <- lookup layout_config "manager" ;;
  audience_config <- dict_get (PDict layout_config) (str_lower audience) manager ;;
  style <- getitem audience_config "style" ;;
  max_widgets <- getitem audience_config "max_widgets" ;;
  widget_types <- getitem audience_config "widget_types" ;;
  refresh_frequency <- getitem audience_config "refresh_frequency" ;;
  widgets <- DashboardDesignerTool_generate_widget_layout
               (firstn 6 recommended_kpis) audience_config ;;
  entities <- mapM entities_of_kpi (firstn 8 recommended_kpis) ;;
  Ok (PDict
        [("success", PBool true);
         ("dashboard_purpose", PStr dashboard_purpose);
         ("target_audience", PStr audience);
         ("key_questions", PStr key_questions);
         ("design",
          PDict [("layout_style", style);
                 ("recommended_widget_count", max_widgets);
                 ("widget_types", widget_types);
                 ("refresh_frequency", refresh_frequency)]);
         ("recommended_kpis", PStrs (firstn 8 recommended_kpis));
         ("widget_recommendations", PList widgets);
         ("implementation_notes",
          PStrs ["Use Creatio's built-in dashboard designer for native integration";
                 "Consider external BI tools (Power BI, Tableau) for advanced analytics";
                 "Implement caching for complex calculations";
                 "Set up scheduled data refresh for consistency"]);
         ("data_requirements",
          PDict [("entities_needed", PStrs (set_iter (concat entities)));
                 ("estimated_query_complexity",
                  PStr (if (5 <? length recommended_kpis)%nat then "medium" else "low"))])]).

Definition DashboardDesignerTool_run (set_iter : list string -> list string)
    (dashboard_purpose audience key_questions : string) : Py string :=
  r <- DashboardDesignerTool_result set_iter dashboard_purpose audience key_questions ;;
  Ok (py_str r).

(** ** query_tools.py

    The module uses a backslash inside an f-string expression, which the
    interpreter accepts from Python 3.12 on; the model follows that
    reading. *)

(** [[val for key, val in agg_funcs.items() if key in agg_lower]] *)
Definition agg_columns (primary agg_lower : string) : list string :=
  let agg_funcs :=
    [("count", "COUNT(" ++ primary ++ ".Id) AS RecordCount");
     ("sum", "SUM(" ++ primary ++ ".Amount) AS TotalAmount");
     ("avg", "AVG(" ++ primary ++ ".Amount) AS AvgAmount")] in
  map snd (filter (fun kv => str_in (fst kv) agg_lower) agg_funcs).

Definition default_cols : list (string * list string) :=
  [("Contact", ["c.Id"; "c.Name"; "c.Email"; "c.Phone"; "c.AccountId"]);
   ("Account", ["a.Id"; "a.Name"; "a.Phone"; "a.Web"; "a.IndustryId"]);
   ("Opportunity", ["o.Id"; "o.Title"; "o.Amount"; "o.StageId"; "o.CloseDate"]);
   ("Lead", ["l.Id"; "l.LeadName"; "l.Email"; "l.QualifyStatusId"]);
   ("Activity", ["act.Id"; "act.Title"; "act.TypeId"; "act.StartDate"]);
   ("Case", ["cs.Id"; "cs.Number"; "cs.Subject"; "cs.StatusId"])].

(** The fallback [[f"{primary[0].lower()}.Id", f"{primary[0].lower()}.Name"]]
    is an argument of [default_cols.get], so it is evaluated, and
    [primary[0]] can raise, whether or not [primary] is a key. *)
Definition default_columns (primary : string) : Py (list string) :=
  p <- str_first primary ;;
  p' <- str_first primary ;;
  let fallback := [str_lower p ++ ".Id"; str_lower p' ++ ".Name"] in
  Ok (match assoc primary default_cols with
      | Some cols => cols
      | None => fallback
      end).

Definition SQLQueryBuilderTool_build_select (primary : string) (entities : list string)
    (aggregations : option string) : Py string :=
  let agg_cols :=
    if truthy aggregations
    then agg_columns primary (str_lower (opt_text aggregations))
    else [] in
  match agg_cols with
  | _ :: _ => Ok ("SELECT" ++ NL ++ "    " ++ str_join ", " agg_cols)
  | [] =>
      cols <- default_columns primary ;;
      Ok ("SELECT" ++ NL ++ "    " ++ str_join ("," ++ NL ++ "    ") cols)
  end.

Definition aliases : list (string * string) :=
  [("Contact", "c"); ("Account", "a"); ("Opportunity", "o"); ("Lead", "l");
   ("Activity", "act"); ("Case", "cs"); ("Product", "p"); ("Order", "ord")].

(** [aliases.get(name, name[0].lower())], the fallback evaluated first. *)
Definition alias_of (name : string) : Py string :=
  p <- str_first name ;;
  Ok (match assoc name aliases with
      | Some a => a
      | None => str_lower p
      end).

Definition join_templates : list ((string * string) * string) :=
  [(("Contact", "Account"), "LEFT JOIN [Account] a ON c.AccountId = a.Id");
   (("Account", "Contact"), "LEFT JOIN [Contact] c ON c.AccountId = a.Id");
   (("Opportunity", "Account"), "LEFT JOIN [Account] a ON o.AccountId = a.Id");
   (("Activity", "Contact"), "LEFT JOIN [Contact] c ON act.ContactId = c.Id");
   (("Activity", "Account"), "LEFT JOIN [Account] a ON act.AccountId = a.Id");
   (("Case", "Contact"), "LEFT JOIN [Contact] c ON cs.ContactId = c.Id");
   (("Case", "Account"), "LEFT JOIN [Account] a ON cs.AccountId = a.Id");
   (("Lead", "Contact"), "LEFT JOIN [Contact] c ON l.QualifiedContactId = c.Id")].

Definition join_template (a b : string) : option string :=
  option_map snd
    (find (fun kv => String.eqb (fst (fst kv)) a && String.eqb (snd (fst kv)) b)
          join_templates).

(** One turn of [for entity in entities[1:]] in [_build_from]. *)
Definition add_join (primary : string) (from_clause : string) (entity : string)
  : Py string :=
  match join_template primary entity with
  | Some t => Ok (from_clause ++ NL ++ t)
  | None =>
      match join_template entity primary with
      | Some t => Ok (from_clause ++ NL ++ t)
      | None =>
          alias <- alias_of entity ;;
          Ok (from_clause ++ NL ++ "-- Add JOIN for [" ++ entity
              ++ "] based on your relationship")
      end
  end.

Definition SQLQueryBuilderTool_build_from (entities : list string) : Py string :=
  primary <- match entities with
             | e :: _ => Ok e
             | [] => Raise IndexError
             end ;;
  alias <- alias_of primary ;;
  foldM (add_join primary) (tl entities) ("FROM [" ++ primary ++ "] " ++ alias).

Definition SQLQueryBuilderTool_build_where (filters : string) : string :=
  let filter_lower := str_lower filters in
  let conditions :=
    ((if str_in "this month" filter_lower
      then ["CreatedOn >= DATEADD(MONTH, DATEDIFF(MONTH, 0, GETDATE()), 0)"] else [])
     +++ (if str_in "this quarter" filter_lower
         then ["CreatedOn >= DATEADD(QUARTER, DATEDIFF(QUARTER, 0, GETDATE()), 0)"] else [])
     +++ (if str_in "this year" filter_lower
         then ["YEAR(CreatedOn) = YEAR(GETDATE())"] else [])
     +++ (if str_in "active" filter_lower then ["IsActive = 1"] else [])
     +++ (if str_in "closed" filter_lower
         then ["StatusId IN (SELECT Id FROM [OpportunityStatus] WHERE IsFinal = 1)"] else [])
     +++ (if str_in "won" filter_lower
         then ["StageId = (SELECT Id FROM [OpportunityStage] WHERE Name = 'Closed won')"]
         else [])) in
  match conditions with
  | _ :: _ => "WHERE" ++ NL ++ "    " ++ str_join (NL ++ "    AND ") conditions
  | [] => "WHERE -- Add conditions based on: " ++ filters
  end.

Definition SQLQueryBuilderTool_build_group (grouping : string) : string :=
  "GROUP BY " ++ grouping.

Definition SQLQueryBuilderTool_build_order (ordering : string) : string :=
  if str_in "newest" (str_lower ordering) || str_in "recent" (str_lower ordering)
  then "ORDER BY CreatedOn DESC"
  else if str_in "oldest" (str_lower ordering) then "ORDER BY CreatedOn ASC"
  else if str_in "amount" (str_lower ordering) then "ORDER BY Amount DESC"
  else "ORDER BY " ++ ordering.

Definition SQLQueryBuilderTool_explain_query (primary : string) (entities : list string)
    (filters aggregations : option string) : string :=
  let e0 := "This query retrieves data from " ++ primary in
  let e1 := if (1 <? length entities)%nat
            then e0 ++ " joined with " ++ str_join ", " (tl entities) else e0 in
  let e2 := if truthy filters then e1 ++ " filtered by: " ++ opt_text filters else e1 in
  if truthy aggregations then e2 ++ " with aggregations: " ++ opt_text aggregations else e2.

Definition is_some {A : Type} (o : option A) : bool :=
  match o with
  | Some _ => true
  | None => false
  end.

Definition nonempty (s : string) : list string :=
  match s with
  | EmptyString => []
  | _ => [s]
  end.

Definition SQLQueryBuilderTool_result (objective entities : string)
    (filters aggregations grouping ordering : option string) : Py pyval :=
  let entity_list := map str_strip (str_split "," entities) in
  primary_entity <- match entity_list with
                    | e :: _ => Ok e
                    | [] => Raise IndexError
                    end ;;
  select_clause <- SQLQueryBuilderTool_build_select primary_entity entity_list aggregations ;;
  from_clause <- SQLQueryBuilderTool_build_from entity_list ;;
  let where_clause :=
    if truthy filters then SQLQueryBuilderTool_build_where (opt_text filters) else "" in
  let group_clause :=
    if truthy grouping then SQLQueryBuilderTool_build_group (opt_text grouping) else "" in
  let order_clause :=
    if truthy ordering then SQLQueryBuilderTool_build_order (opt_text ordering) else "" in
  let query_parts :=
    ([select_clause; from_clause] +++ nonempty where_clause +++ nonempty group_clause
     +++ nonempty order_clause) in
  let query := str_join NL query_parts ++ ";" in
  Ok (PDict
        [("success", PBool true);
         ("objective", PStr objective);
         ("query", PStr query);
         ("entities_used", PStrs entity_list);
         ("query_type", PStr "SELECT");
         ("has_aggregation", PBool (is_some aggregations));
         ("has_grouping", PBool (is_some grouping));
         ("explanation",
          PStr (SQLQueryBuilderTool_explain_query primary_entity entity_list filters
                  aggregations));
         ("performance_notes",
          PStrs ["Consider adding indexes on filter columns";
                 "Use date range filters to limit result set";
                 "Add TOP clause for testing with large datasets"])]).

Definition SQLQueryBuilderTool_run (objective entities : string)
    (filters aggregations grouping ordering : option string) : Py string :=
  r <- SQLQueryBuilderTool_result objective entities filters aggregations grouping ordering ;;
  Ok (py_str r).

Definition ODataQueryBuilderTool_convert_to_odata_filter (natural_filter entity : string)
  : string :=
  let filter_lower := str_lower natural_filter in
  let conditions :=
    ((if str_in "today" filter_lower
      then ["CreatedOn ge cast(now(), Edm.DateTimeOffset)"] else [])
     +++ (if str_in "this month" filter_lower
         then ["month(CreatedOn) eq month(now()) and year(CreatedOn) eq year(now())"]
         else [])
     +++ (if str_in "active" filter_lower then ["IsActive eq true"] else [])
     +++ (if str_in "open" filter_lower then
           if String.eqb (str_lower entity) "opportunity" then ["Stage/IsFinal eq false"]
           else if String.eqb (str_lower entity) "case" then ["Status/IsFinal eq false"]
           else []
         else [])) in
  match conditions with
  | _ :: _ => str_join " and " conditions
  | [] => "/* Add filter for: " ++ natural_filter ++ " */"
  end.

Definition ODataQueryBuilderTool_generate_curl (url : string) : string :=
  "curl -X GET " ++ DQ ++ "{CREATIO_URL}" ++ url ++ DQ ++ " " ++ BSL ++ NL
  ++ "  -H " ++ DQ ++ "Accept: application/json" ++ DQ ++ " " ++ BSL ++ NL
  ++ "  -H " ++ DQ ++ "Content-Type: application/json" ++ DQ ++ " " ++ BSL ++ NL
  ++ "  -H " ++ DQ ++ "BPMCSRF: {csrf_token}" ++ DQ ++ " " ++ BSL ++ NL
  ++ "  --cookie " ++ DQ ++ "BPMCSRF={csrf_token};.ASPXAUTH={auth_cookie}" ++ DQ.

Definition ODataQueryBuilderTool_result (entity : string)
    (select_fields filter_expression expand_relations : option string) (top : Z) : pyval :=
  let base_url := "/0/odata/" ++ entity ++ "Collection" in
  let query_params :=
    ((if truthy select_fields then
        let fields := map str_strip (str_split "," (opt_text select_fields)) in
        ["$select=" ++ str_join "," fields]
      else [])
     +++ (if truthy filter_expression then
           ["$filter=" ++ ODataQueryBuilderTool_convert_to_odata_filter
                            (opt_text filter_expression) entity]
         else [])
     +++ (if truthy expand_relations then
           let relations := map str_strip (str_split "," (opt_text expand_relations)) in
           ["$expand=" ++ str_join "," relations]
         else [])
     +++ ["$top=" ++ str_of_Z top]) in
  let full_url :=
    match query_params with
    | _ :: _ => base_url ++ "?" ++ str_join "&" query_params
    | [] => base_url
    end in
  PDict
    [("success", PBool true);
     ("entity", PStr entity);
     ("odata_url", PStr full_url);
     ("query_parts",
      PDict [("base", PStr base_url);
             ("select", POpt select_fields);
             ("filter", POpt filter_expression);
             ("expand", POpt expand_relations);
             ("top", PInt top)]);
     ("curl_example", PStr (ODataQueryBuilderTool_generate_curl full_url));
     ("usage_notes",
      PStrs ["Add authentication headers (BPMCSRF token)";
             "Use $skip for pagination";
             "Add $count=true to get total count"])].

Definition ODataQueryBuilderTool_run (entity : string)
    (select_fields filter_expression expand_relations : option string) (top : Z)
  : Py string :=
  Ok (py_str (ODataQueryBuilderTool_result entity select_fields filter_expression
                expand_relations top)).

Definition issue (severity text remedy : string) : pyval :=
  PDict [("severity", PStr severity); ("issue", PStr text); ("fix", PStr remedy)].

(** The issues and recommendations that [QueryOptimizerTool._run] collects. *)
Definition optimizer_findings (query_lower query_type : string)
  : list pyval * list string :=
  let typed :=
    if String.eqb query_type "sql" then
      let star := str_in "select *" query_lower in
      let no_where := negb (str_in "where" query_lower)
                      && negb (str_in "group by" query_lower) in
      let no_limit := negb (str_in "top" query_lower) && negb (str_in "limit" query_lower) in
      (((if star then [issue "high" "Using SELECT * returns unnecessary columns"
                         "Specify only needed columns"] else [])
        +++ (if no_where then [issue "high"
                                "Query has no WHERE clause - will scan entire table"
                                "Add appropriate filter conditions"] else [])
        +++ (if no_limit then [issue "medium" "No row limit specified"
                                "Add TOP or LIMIT clause for testing"] else [])
        +++ map (fun func => issue "medium"
                              ("Function " ++ str_upper func
                               ++ " on column prevents index usage")
                              "Use range comparison instead of function extraction")
               (filter (fun func => str_in func query_lower)
                       ["year("; "month("; "day("; "datepart("])),
       ((if star then ["Replace SELECT * with specific columns"] else [])
        +++ (if no_limit then ["Add TOP 1000 during development"] else [])
        +++ (if str_in "createdon" query_lower
               && negb (str_in "between" query_lower) && negb (str_in ">=" query_lower)
            then ["Consider adding date range filter on CreatedOn for better index usage"]
            else [])
        +++ (if str_in "join" query_lower
            then ["Ensure join columns have appropriate indexes";
                  "Consider the order of joins - put most restrictive first"]
            else [])))
    else if String.eqb query_type "odata" then
      ((if negb (str_in "$select" query_lower)
        then [issue "medium" "No $select - returning all columns"
                "Add $select with only needed fields"] else []),
       ((if negb (str_in "$top" query_lower) then ["Add $top for pagination"] else [])
        +++ (if str_in "$expand" query_lower && str_in "$select" query_lower
            then ["Consider using $select within $expand to limit expanded data"]
            else [])))
    else ([], []) in
  (fst typed,
   (snd typed
    +++ (if str_in "accountid" query_lower
        then ["Ensure index exists on AccountId column"] else [])
    +++ (if str_in "createdon" query_lower
        then ["Ensure index exists on CreatedOn column"] else [])
    +++ (if str_in "ownerid" query_lower
        then ["Ensure index exists on OwnerId column"] else []))).

Definition is_high (i : pyval) : bool :=
  match i with
  | PDict d => match assoc "severity" d with
               | Some v => py_eq_str v "high"
               | None => false
               end
  | _ => false
  end.

Definition QueryOptimizerTool_result (query query_type optimization_goal : string) : pyval :=
  let query_lower := str_lower query in
  let (issues_found, recommendations) := optimizer_findings query_lower query_type in
  PDict
    [("success", PBool true);
     ("original_query", PStr query);
     ("query_type", PStr query_type);
     ("optimization_goal", PStr optimization_goal);
     ("issues_found", PList issues_found);
     ("recommendations", PStrs recommendations);
     ("optimized_query", PStr query);
     ("optimization_summary",
      PDict [("issues_count", PLen issues_found);
             ("recommendations_count", PLen recommendations);
             ("critical_issues", PLen (filter is_high issues_found))])].

Definition QueryOptimizerTool_run (query query_type optimization_goal : string) : Py string :=
  Ok (py_str (QueryOptimizerTool_result query query_type optimization_goal)).

Definition known_entities : list string :=
  ["contact"; "account"; "opportunity"; "lead"; "activity";
   "case"; "product"; "order"; "sysadminunit"; "syslookup"].

Definition common_typos : list (string * string) :=
  [("slect", "SELECT"); ("frmo", "FROM"); ("wehre", "WHERE");
   ("gruop", "GROUP"); ("ordre", "ORDER")].

(** The errors of the SQL branch of [QueryValidatorTool._run], in the order
    in which they are appended. *)
Definition sql_errors (query query_lower : string) : list string :=
  (map (fun keyword => "Missing required keyword: " ++ str_upper keyword)
       (filter (fun keyword => negb (str_in keyword query_lower)) ["select"])
   +++ (if negb (Nat.eqb (str_count "[" query) (str_count "]" query))
       then ["Unbalanced square brackets"] else [])
   +++ (if negb (Nat.eqb (str_count "(" query) (str_count ")" query))
       then ["Unbalanced parentheses"] else [])
   +++ map (fun tc => "Possible typo: '" ++ fst tc ++ "' should be '" ++ snd tc ++ "'")
          (filter (fun tc => str_in (fst tc) query_lower) common_typos)).

Definition sql_warnings (query_lower : string) : list string :=
  ((if str_in "delete" query_lower || str_in "drop" query_lower
       || str_in "truncate" query_lower
    then ["Query contains destructive operation - use with caution!"] else [])
   +++ (if str_in "update" query_lower && negb (str_in "where" query_lower)
       then ["UPDATE without WHERE will affect all rows!"] else [])).

Definition odata_warnings (query query_lower : string) : list string :=
  ((if negb (str_in "/odata/" query) && negb (str_in "Collection" query)
    then ["OData URL should include /odata/ path and Collection suffix"] else [])
   +++ map (fun param => param ++ " should be followed by = and value")
          (filter (fun param =>
                     str_in param query_lower
                     && negb (str_in (param ++ "=") query_lower)
                     && negb (str_in (param ++ " =") query_lower))
                  ["$select"; "$filter"; "$expand"; "$orderby"; "$top"; "$skip"])).

Definition QueryValidatorTool_result (query query_type : string) : pyval :=
  let query_lower := str_lower query in
  let entities_referenced :=
    map str_capitalize
        (filter (fun entity => str_in entity query_lower
                               || str_in ("[" ++ entity ++ "]") query_lower)
                known_entities) in
  let errors := if String.eqb query_type "sql" then sql_errors query query_lower else [] in
  let warnings :=
    if String.eqb query_type "sql" then sql_warnings query_lower
    else if String.eqb query_type "odata" then odata_warnings query query_lower
    else [] in
  let is_valid := match errors with [] => true | _ :: _ => false end in
  PDict
    [("success", PBool true);
     ("query", PStr query);
     ("query_type", PStr query_type);
     ("is_valid", PBool is_valid);
     ("errors", PStrs errors);
     ("warnings", PStrs warnings);
     ("entities_referenced", PStrs entities_referenced);
     ("columns_referenced", PList []);
     ("validation_summary",
      PDict [("is_valid", PBool is_valid);
             ("error_count", PLen errors);
             ("warning_count", PLen warnings);
             ("entities_found", PLen entities_referenced)])].

Definition QueryValidatorTool_run (query query_type : string) : Py string :=
  Ok (py_str (QueryValidatorTool_result query query_type)).

(** ** documentation_tools.py *)

(** The validated entity list shared by [SchemaDocGeneratorTool._run] and
    [ERDGeneratorTool._run]: every requested name that matches a key, in
    the order requested, duplicates kept. *)
Definition parse_entities (entities : string) : list string :=
  let entity_list :=
    if String.eqb (str_lower entities) "all" then keys schema_kb
    else map str_strip (str_split "," entities) in
  flat_map (fun entity => match find_entity entity with
                          | Some key => [key]
                          | None => []
                          end) entity_list.

Definition no_valid_entities : pyval :=
  PDict [("success", PBool false);
         ("error", PStr "No valid entities found");
         ("available_entities", PStrs (keys schema_kb))].

Definition markdown_column (doc : string) (col : pyval) : Py string :=
  n <- getitem col "name" ;;
  t <- getitem col "type" ;;
  d <- getitem col "description" ;;
  Ok (doc ++ "| " ++ py_str n ++ " | " ++ py_str t ++ " | " ++ py_str d ++ " |" ++ NL).

Definition markdown_relationship (doc : string) (rel : pyval) : Py string :=
  rel_type <- getitem rel "type" ;;
  target <- getitem rel "entity" ;;
  inner <- dict_get rel "via" (PStr "") ;;
  via <- dict_get rel "column" inner ;;
  let doc := doc ++ "- **" ++ py_str target ++ "** (" ++ py_str rel_type ++ ")" in
  let doc := if py_truthy via then doc ++ " via `" ++ py_str via ++ "`" else doc in
  Ok (doc ++ NL).

(** One turn of [for entity in entities] in [_generate_markdown]. *)
Definition markdown_entity (include_rels include_examples : bool) (doc : string)
    (entity : string) : Py string :=
  info <- lookup schema_kb entity ;;
  let doc := doc ++ "## " ++ entity ++ NL ++ NL in
  description <- getitem info "description" ;;
  let doc := doc ++ "**Description:** " ++ py_str description ++ NL ++ NL in
  table_name <- getitem info "table_name" ;;
  let doc := doc ++ "**Table Name:** `" ++ py_str table_name ++ "`" ++ NL ++ NL in
  let doc := doc ++ "### Columns" ++ NL ++ NL in
  let doc := doc ++ "| Column | Type | Description |" ++ NL in
  let doc := doc ++ "|--------|------|-------------|" ++ NL in
  key_columns <- get_list info "key_columns" ;;
  doc <- foldM markdown_column key_columns doc ;;
  let doc := doc ++ NL in
  has_rels <- (if include_rels
               then r <- dict_get info "relationships" PNone ;; Ok (py_truthy r)
               else Ok false) ;;
  doc <- (if has_rels then
            let doc := doc ++ "### Relationships" ++ NL ++ NL in
            relationships <- get_list info "relationships" ;;
            doc <- foldM markdown_relationship relationships doc ;;
            Ok (doc ++ NL)
          else Ok doc) ;;
  doc <- (if include_examples then
            let doc := doc ++ "### Example Queries" ++ NL ++ NL in
            let doc := doc ++ "```sql" ++ NL in
            let doc := doc ++ "-- Get all " ++ entity ++ " records" ++ NL in
            t <- getitem info "table_name" ;;
            let doc := doc ++ "SELECT TOP 100 * FROM [" ++ py_str t ++ "]" ++ NL ++ NL in
            let doc := doc ++ "-- Get " ++ entity ++ " with specific columns" ++ NL in
            key_columns <- get_list info "key_columns" ;;
            cols <- mapM (fun c => get_str c "name") (firstn 5 key_columns) ;;
            t' <- getitem info "table_name" ;;
            let doc := doc ++ "SELECT " ++ str_join ", " cols ++ " FROM [" ++ py_str t'
                       ++ "]" ++ NL in
            Ok (doc ++ "```" ++ NL ++ NL)
          else Ok doc) ;;
  Ok (doc ++ "---" ++ NL ++ NL).

Definition SchemaDocGeneratorTool_generate_markdown (entities : list string)
    (include_rels include_examples : bool) : Py string :=
  let doc := "# Creatio CRM Schema Documentation" ++ NL ++ NL in
  let doc := doc ++ "*Documentation for " ++ str_of_nat (length entities) ++ " entities*"
             ++ NL ++ NL in
  let doc := doc ++ "---" ++ NL ++ NL in
  foldM (markdown_entity include_rels include_examples) entities doc.

(** One turn of [for entity in entities] in [_generate_json]. *)
Definition json_entity (include_rels : bool) (docs : list (string * pyval))
    (entity : string) : Py (list (string * pyval)) :=
  info <- lookup schema_kb entity ;;
  table_name <- getitem info "table_name" ;;
  description <- getitem info "description" ;;
  columns <- getitem info "key_columns" ;;
  let entity_doc :=
    [("name", PStr entity); ("table_name", table_name); ("description", description);
     ("columns", columns)] in
  entity_doc <- (if include_rels then
                   rels <- dict_get info "relationships" (PList []) ;;
                   Ok (dict_set entity_doc "relationships" rels)
                 else Ok entity_doc) ;;
  Ok (dict_set docs entity (PDict entity_doc)).

Definition SchemaDocGeneratorTool_generate_json (entities : list string)
    (include_rels : bool) : Py pyval :=
  docs <- foldM (json_entity include_rels) entities [] ;;
  Ok (PDict [("entities", PDict docs)]).

(** [sum(len(CREATIO_SCHEMA_KNOWLEDGE[e][field]) ...)] over the entities;
    [optional] tells whether the field is read with [.get(field, [])]. *)
Definition total_length (field : string) (optional : bool) (entities : list string) : Py Z :=
  foldM (fun acc e =>
           info <- lookup schema_kb e ;;
           v <- (if optional then dict_get info field (PList []) else getitem info field) ;;
           n <- py_len v ;;
           match n with
           | PInt z => Ok (acc + z)%Z
           | _ => Raise TypeError
           end) entities 0%Z.

Definition SchemaDocGeneratorTool_result (entities format : string)
    (include_relationships include_examples : bool) : Py pyval :=
  let valid_entities := parse_entities entities in
  match valid_entities with
  | [] => Ok no_valid_entities
  | _ :: _ =>
      doc <- (if String.eqb (str_lower format) "markdown" then
                d <- SchemaDocGeneratorTool_generate_markdown valid_entities
                       include_relationships include_examples ;;
                Ok (PStr d)
              else if String.eqb (str_lower format) "json" then
                SchemaDocGeneratorTool_generate_json valid_entities include_relationships
              else
                d <- SchemaDocGeneratorTool_generate_markdown valid_entities
                       include_relationships include_examples ;;
                Ok (PStr d)) ;;
      total_columns <- total_length "key_columns" false valid_entities ;;
      total_relationships <- total_length "relationships" true valid_entities ;;
      Ok (PDict
            [("success", PBool true);
             ("entities_documented", PStrs valid_entities);
             ("format", PStr format);
             ("documentation", doc);
             ("metadata",
              PDict [("entity_count", PLen valid_entities);
                     ("total_columns", PInt total_columns);
                     ("total_relationships", PInt total_relationships)])])
  end.

Definition SchemaDocGeneratorTool_run (entities format : string)
    (include_relationships include_examples : bool) : Py string :=
  r <- SchemaDocGeneratorTool_result entities format include_relationships include_examples ;;
  Ok (py_str r).

Definition DataDictionaryTool_get_business_rules (name type : string) : list string :=
  if String.eqb name "Id" then ["Auto-generated GUID primary key"]
  else if String.eqb name "Name" then ["Required field for record identification"]
  else if String.eqb name "Email" then
    ["Must be valid email format"; "Should be unique for Contact records"]
  else if str_in "Phone" name then ["Phone number format validation recommended"]
  else if String.eqb name "OwnerId" then
    ["Must reference active system user"; "Used for record ownership and security"]
  else if str_in "Date" name then
    ["Date validation - cannot be historical for future-dated fields"]
  else if String.eqb name "Amount" || String.eqb type "decimal" then
    ["Non-negative value constraint recommended"]
  else [].

Definition DataDictionaryTool_get_sample_values (name type : string)
    (include_lookups : bool) : list string :=
  if String.eqb type "uniqueidentifier" then ["00000000-0000-0000-0000-000000000001"]
  else if str_startswith "nvarchar" type then
    if str_in "Email" name then ["john.doe@example.com"; "jane.smith@company.org"]
    else if str_in "Phone" name then ["+1-555-123-4567"; "(555) 987-6543"]
    else if str_in "Name" name then ["Acme Corporation"; "John Doe"]
    else ["Sample text value"]
  else if String.eqb type "datetime" then ["2026-01-15T10:30:00Z"]
  else if String.eqb type "decimal" then ["10000.00"; "25000.50"]
  else if String.eqb type "int" then ["100"; "500"]
  else if String.eqb type "bit" then ["1 (true)"; "0 (false)"]
  else [].

Definition reference (table : string) : pyval :=
  PDict [("table", PStr table); ("column", PStr "Id")].

Definition DataDictionaryTool_identify_reference (col_name : string) : pyval :=
  let references :=
    [("AccountId", reference "Account");
     ("ContactId", reference "Contact");
     ("OwnerId", reference "Contact");
     ("OpportunityId", reference "Opportunity");
     ("LeadId", reference "Lead");
     ("ActivityId", reference "Activity");
     ("TypeId", reference (str_replace "Id" "" col_name ++ "Type"));
     ("StatusId", reference (str_replace "Id" "" col_name ++ "Status"));
     ("CategoryId", reference (str_replace "Id" "" col_name ++ "Category"));
     ("StageId", reference "OpportunityStage");
     ("PriorityId", reference "Priority")] in
  match assoc col_name references with
  | Some r => r
  | None => reference "Unknown"
  end.

(** The detail of one column, with its foreign-key flag. *)
Definition column_detail (include_lookup_values : bool) (col : pyval)
  : Py (bool * string * pyval) :=
  name <- get_str col "name" ;;
  type <- get_str col "type" ;;
  description <- getitem col "description" ;;
  let is_foreign_key := str_endswith "Id" name && negb (String.eqb name "Id") in
  let col_detail :=
    [("column_name", PStr name);
     ("data_type", PStr type);
     ("description", description);
     ("nullable", PBool (negb (String.eqb name "Id")));
     ("is_primary_key", PBool (String.eqb name "Id"));
     ("is_foreign_key", PBool is_foreign_key);
     ("business_rules", PStrs (DataDictionaryTool_get_business_rules name type));
     ("sample_values",
      PStrs (DataDictionaryTool_get_sample_values name type include_lookup_values))] in
  Ok (is_foreign_key, name,
      PDict (if is_foreign_key
             then dict_set col_detail "references" (DataDictionaryTool_identify_reference name)
             else col_detail)).

Definition DataDictionaryTool_recommend_indexes (columns : list (bool * string * pyval))
  : list string :=
  map (fun c => "IX_" ++ snd (fst c)) (filter (fun c => fst (fst c)) columns)
  +++ ["IX_CreatedOn (for date range queries)";
       "IX_OwnerId_CreatedOn (for user activity queries)"].

Definition DataDictionaryTool_result (entity : string) (include_lookup_values : bool)
  : Py pyval :=
  let entity_key := find_entity entity in
  if negb (truthy entity_key) then
    Ok (PDict
          [("success", PBool false);
           ("error", PStr ("Entity '" ++ entity ++ "' not found"));
           ("available_entities", PStrs (keys schema_kb))])
  else
    let entity_key := opt_text entity_key in
    info <- lookup schema_kb entity_key ;;
    key_columns <- get_list info "key_columns" ;;
    details <- mapM (column_detail include_lookup_values) key_columns ;;
    let columns_detail := map snd details in
    table_name <- getitem info "table_name" ;;
    description <- getitem info "description" ;;
    Ok (PDict
          [("success", PBool true);
           ("entity", PStr entity_key);
           ("table_name", table_name);
           ("description", description);
           ("data_dictionary",
            PDict [("columns", PList columns_detail);
                   ("column_count", PLen columns_detail);
                   ("primary_key", PStr "Id");
                   ("foreign_key_count", PLen (filter (fun c => fst (fst c)) details));
                   ("indexes_recommended",
                    PStrs (DataDictionaryTool_recommend_indexes details))]);
           ("audit_columns",
            PDict [("CreatedOn", PStr "Record creation timestamp");
                   ("ModifiedOn", PStr "Last modification timestamp");
                   ("CreatedById", PStr "User who created the record");
                   ("ModifiedById", PStr "User who last modified the record")]);
           ("notes",
            PStrs ["All timestamps are stored in UTC";
                   "GUID columns use uniqueidentifier type";
                   "Lookup references point to Id columns in related tables"])]).

Definition DataDictionaryTool_run (entity : string) (include_lookup_values : bool)
  : Py string :=
  r <- DataDictionaryTool_result entity include_lookup_values ;; Ok (py_str r).

(** [tuple(sorted([a, b]))] *)
Definition rel_key (a b : string) : string * string :=
  if String.ltb b a then (b, a) else (a, b).

Definition pair_eqb (p q : string * string) : bool :=
  String.eqb (fst p) (fst q) && String.eqb (snd p) (snd q).

(** [key in added_rels] *)
Definition key_in (k : string * string) (added : list (string * string)) : bool :=
  existsb (pair_eqb k) added.

(** The line drawn for a relationship of a given type; no line for a type
    outside the four that the generators know. *)
Definition mermaid_line (entity target rel_type : string) : list string :=
  if String.eqb rel_type "one-to-many" then
    ["    " ++ entity ++ " ||--o{ " ++ target ++ " : has"]
  else if String.eqb rel_type "many-to-one" then
    ["    " ++ entity ++ " }o--|| " ++ target ++ " : belongs_to"]
  else if String.eqb rel_type "many-to-many" then
    ["    " ++ entity ++ " }o--o{ " ++ target ++ " : relates"]
  else if String.eqb rel_type "one-to-one" then
    ["    " ++ entity ++ " ||--|| " ++ target ++ " : is"]
  else [].

Definition plantuml_line (entity target rel_type : string) : list string :=
  if String.eqb rel_type "one-to-many" then [entity ++ " ||--o{ " ++ target]
  else if String.eqb rel_type "many-to-one" then [entity ++ " }o--|| " ++ target]
  else if String.eqb rel_type "many-to-many" then [entity ++ " }o--o{ " ++ target]
  else if String.eqb rel_type "one-to-one" then [entity ++ " ||--|| " ++ target]
  else [].

(** The state of the relationship loops: the set [added_rels] and the
    lines appended so far. *)
Definition RelState : Type := (list (string * string) * list string)%type.

(** One turn of [for rel in info.get("relationships", [])]; [line] is the
    format of the generator. *)
Definition relationship_step (line : string -> string -> string -> list string)
    (entities : list string) (entity : string) (st : RelState) (rel : pyval)
  : Py RelState :=
  let (added_rels, lines) := st in
  target <- get_str rel "entity" ;;
  if negb (list_in target entities) then Ok st
  else
    let key := rel_key entity target in
    if key_in key added_rels then Ok st
    else
      rel_type <- get_str rel "type" ;;
      Ok (key :: added_rels, lines +++ line entity target rel_type).

(** One turn of the second [for entity in entities]. *)
Definition relationships_of (line : string -> string -> string -> list string)
    (entities : list string) (st : RelState) (entity : string) : Py RelState :=
  info <- lookup schema_kb entity ;;
  rels <- dict_get info "relationships" (PList []) ;;
  relationships <- as_list rels ;;
  foldM (relationship_step line entities entity) relationships st.

(** The relationship lines of a diagram, after the lines [lines]. *)
Definition relationship_lines (line : string -> string -> string -> list string)
    (entities : list string) (lines : list string) : Py (list string) :=
  st <- foldM (relationships_of line entities) entities ([], lines) ;;
  Ok (snd st).

Definition mermaid_column (lines : list string) (col : pyval) : Py (list string) :=
  type <- get_str col "type" ;;
  let col_type := str_replace "," "" (str_replace ")" "" (str_replace "(" "_" type)) in
  name <- get_str col "name" ;;
  let pk := if String.eqb name "Id" then "PK" else "" in
  let fk := if str_endswith "Id" name && negb (String.eqb name "Id") then "FK" else "" in
  let marker := if String.eqb pk "" then fk else pk in
  Ok (lines +++ ["        " ++ col_type ++ " " ++ name ++ " " ++ marker]).

Definition mermaid_entity (show_columns : bool) (lines : list string) (entity : string)
  : Py (list string) :=
  info <- lookup schema_kb entity ;;
  if show_columns then
    let lines := lines +++ ["    " ++ entity ++ " {"] in
    key_columns <- get_list info "key_columns" ;;
    lines <- foldM mermaid_column (firstn 8 key_columns) lines ;;
    Ok (lines +++ ["    }"])
  else Ok (lines +++ ["    " ++ entity]).

(** The lines of the Mermaid diagram before ["\n".join(lines)]. *)
Definition mermaid_lines (entities : list string) (show_columns : bool)
  : Py (list string) :=
  lines <- foldM (mermaid_entity show_columns) entities ["erDiagram"] ;;
  relationship_lines mermaid_line entities lines.

Definition ERDGeneratorTool_generate_mermaid (entities : list string) (show_columns : bool)
  : Py string :=
  lines <- mermaid_lines entities show_columns ;; Ok (str_join NL lines).

Definition plantuml_column (lines : list string) (col : pyval) : Py (list string) :=
  name <- get_str col "name" ;;
  let fk := if str_endswith "Id" name then " <<FK>>" else "" in
  type <- getitem col "type" ;;
  Ok (lines +++ ["    " ++ name ++ " : " ++ py_str type ++ fk]).

Definition plantuml_entity (show_columns : bool) (lines : list string) (entity : string)
  : Py (list string) :=
  info <- lookup schema_kb entity ;;
  if show_columns then
    let lines := lines +++ ["entity " ++ entity ++ " {"] in
    let lines := lines +++ ["    * Id : uniqueidentifier <<PK>>"] in
    key_columns <- get_list info "key_columns" ;;
    lines <- foldM plantuml_column (firstn 5 (skipn 1 key_columns)) lines ;;
    Ok (lines +++ ["}"])
  else Ok (lines +++ ["entity " ++ entity]).

(** The lines of the PlantUML diagram up to the relationship lines; the
    generator then appends [""] and ["@enduml"]. *)
Definition plantuml_lines (entities : list string) (show_columns : bool)
  : Py (list string) :=
  lines <- foldM (plantuml_entity show_columns) entities
             ["@startuml"; "skinparam linetype ortho"; ""] ;;
  relationship_lines plantuml_line entities (lines +++ [""]).

Definition ERDGeneratorTool_generate_plantuml (entities : list string) (show_columns : bool)
  : Py string :=
  lines <- plantuml_lines entities show_columns ;;
  Ok (str_join NL (lines +++ [""; "@enduml"])).

Definition ERDGeneratorTool_guess_reference_table (col_name : string) : string :=
  let base_name := str_drop_last 2 col_name in
  let mappings :=
    [("Owner", "Contact"); ("Account", "Account"); ("Contact", "Contact");
     ("Opportunity", "Opportunity"); ("Lead", "Lead"); ("Stage", "OpportunityStage");
     ("Status", "Status"); ("Type", "Type"); ("Priority", "Priority");
     ("Category", "Category")] in
  match assoc base_name mappings with
  | Some t => t
  | None => base_name
  end.

Definition dbml_column (lines : list string) (col : pyval) : Py (list string) :=
  name <- get_str col "name" ;;
  type <- getitem col "type" ;;
  let col_line := "    " ++ name ++ " " ++ py_str type in
  let col_line :=
    if String.eqb name "Id" then col_line ++ " [pk]"
    else if str_endswith "Id" name then
      col_line ++ " [ref: > " ++ ERDGeneratorTool_guess_reference_table name ++ ".Id]"
    else col_line in
  description <- getitem col "description" ;;
  Ok (lines +++ [col_line ++ " // " ++ py_str description]).

Definition dbml_entity (lines : list string) (entity : string) : Py (list string) :=
  info <- lookup schema_kb entity ;;
  table_name <- getitem info "table_name" ;;
  let lines := lines +++ ["Table " ++ py_str table_name ++ " {"] in
  key_columns <- get_list info "key_columns" ;;
  lines <- foldM dbml_column key_columns lines ;;
  Ok (lines +++ ["}"; ""]).

Definition ERDGeneratorTool_generate_dbml (entities : list string) : Py string :=
  lines <- foldM dbml_entity entities ["// Creatio CRM Schema - DBML Format"; ""] ;;
  Ok (str_join NL lines).

Definition usage_instructions : list (string * string) :=
  [("mermaid",
    "To render this Mermaid diagram:" ++ NL
    ++ "1. Use Mermaid Live Editor: https://mermaid.live" ++ NL
    ++ "2. Paste in GitHub/GitLab markdown with ```mermaid code block" ++ NL
    ++ "3. Use VS Code with Mermaid extension");
   ("plantuml",
    "To render this PlantUML diagram:" ++ NL
    ++ "1. Use PlantUML Online: http://www.plantuml.com/plantuml" ++ NL
    ++ "2. Use VS Code with PlantUML extension" ++ NL
    ++ "3. Install PlantUML locally with Java runtime");
   ("dbml",
    "To render this DBML diagram:" ++ NL
    ++ "1. Use dbdiagram.io: https://dbdiagram.io" ++ NL
    ++ "2. Use DBML CLI tool for programmatic rendering" ++ NL
    ++ "3. Export to various formats including SQL")].

Definition ERDGeneratorTool_get_usage_instructions (format : string) : string :=
  match assoc (str_lower format) usage_instructions with
  | Some i => i
  | None => "Use appropriate visualization tool for the format"
  end.

Definition ERDGeneratorTool_result (entities format : string) (show_columns : bool)
  : Py pyval :=
  let valid_entities := parse_entities entities in
  match valid_entities with
  | [] => Ok no_valid_entities
  | _ :: _ =>
      diagram <-
        (if String.eqb (str_lower format) "mermaid" then
           ERDGeneratorTool_generate_mermaid valid_entities show_columns
         else if String.eqb (str_lower format) "plantuml" then
           ERDGeneratorTool_generate_plantuml valid_entities show_columns
         else if String.eqb (str_lower format) "dbml" then
           ERDGeneratorTool_generate_dbml valid_entities
         else ERDGeneratorTool_generate_mermaid valid_entities show_columns) ;;
      Ok (PDict
            [("success", PBool true);
             ("entities_included", PStrs valid_entities);
             ("format", PStr format);
             ("diagram", PStr diagram);
             ("usage_instructions", PStr (ERDGeneratorTool_get_usage_instructions format))])
  end.

Definition ERDGeneratorTool_run (entities format : string) (show_columns : bool)
  : Py string :=
  r <- ERDGeneratorTool_result entities format show_columns ;; Ok (py_str r).

End Tools.

(** ** devlifecycle_crew/tools/ticket_tools.py *)

(** [uuid.uuid4()]: 128 random bits, then the variant and version bits of
    RFC 4122 are forced.  [r] is the integer read from the system's random
    source. *)
Definition uuid4_int (r : Z) : Z :=
  let i := Z.land r (Z.ones 128) in
  let i := Z.land i (Z.lnot (Z.shiftl 49152 48)) in
  let i := Z.lor i (Z.shiftl 32768 48) in
  let i := Z.land i (Z.lnot (Z.shiftl 61440 64)) in
  Z.lor i (Z.shiftl 4 76).

(** The [n] lowest hexadecimal digits of [z], most significant first. *)
Fixpoint hex_digits (n : nat) (z : Z) : string :=
  match n with
  | O => EmptyString
  | S k => hex_digits k (Z.shiftr z 4) ++ hex_digit (Z.to_nat (Z.land z 15))
  end.

(** [uuid.uuid4().hex] *)
Definition uuid4_hex (r : Z) : string := hex_digits 32 (uuid4_int r).

Definition ticket_id_of (r : Z) : string :=
  "TICKET-" ++ str_upper (str_take 8 (uuid4_hex r)).









(** ** creatio_crm_crew: settings, crew and question routing *)

(** config/settings.py: the object that [get_settings()] loads from the
    environment. *)
Record Settings : Type := mkSettings {
  openai_api_key : option string;
  openai_model : string;
  temperature : Q;
  anthropic_api_key : option string;
  settings_verbose : bool;
  max_rpm : Z;
  creatio_url : option string;
  creatio_username : option string;
  creatio_password : option string;
  creatio_oauth_token : option string;
  creatio_db_host : option string;
  creatio_db_port : Z;
  creatio_db_name : option string;
  creatio_db_user : option string;
  creatio_db_password : option string;
  schema_cache_ttl : Z;
  output_dir : string;
  log_level : string
}.

(** The values of [Settings] when the environment sets nothing. *)
Definition default_settings : Settings :=
  mkSettings None "gpt-4o" (7 # 10) None true 10 None None None None None 5432 None None None
             3600 "./creatio_analysis_output" "INFO".

(** The tool classes of [creatio_crm_crew/tools]; an instance has no
    fields of its own. *)
Inductive Tool : Type :=
| SchemaExplorerTool | EntityRelationshipTool | ColumnAnalyzerTool | SchemaSearchTool
| SQLQueryBuilderTool | ODataQueryBuilderTool | QueryOptimizerTool | QueryValidatorTool
| MetricDefinitionTool | MetricCalculatorTool | KPILibraryTool | DashboardDesignerTool
| SchemaDocGeneratorTool | DataDictionaryTool | ERDGeneratorTool.

Definition Tool_eqb (a b : Tool) : bool :=
  match a, b with
  | SchemaExplorerTool, SchemaExplorerTool
  | EntityRelationshipTool, EntityRelationshipTool
  | ColumnAnalyzerTool, ColumnAnalyzerTool
  | SchemaSearchTool, SchemaSearchTool
  | SQLQueryBuilderTool, SQLQueryBuilderTool
  | ODataQueryBuilderTool, ODataQueryBuilderTool
  | QueryOptimizerTool, QueryOptimizerTool
  | QueryValidatorTool, QueryValidatorTool
  | MetricDefinitionTool, MetricDefinitionTool
  | MetricCalculatorTool, MetricCalculatorTool
  | KPILibraryTool, KPILibraryTool
  | DashboardDesignerTool, DashboardDesignerTool
  | SchemaDocGeneratorTool, SchemaDocGeneratorTool
  | DataDictionaryTool, DataDictionaryTool
  | ERDGeneratorTool, ERDGeneratorTool => true
  | _, _ => false
  end.

(** A call of a tool's [_run] with its arguments. *)
Inductive ToolCall : Type :=
| RunSchemaExplorer (entity_name : string) (include_relationships : bool)
| RunEntityRelationship (source_entity : string) (target_entity : option string)
                        (relationship_depth : Z)
| RunColumnAnalyzer (entity_name : string) (column_filter : option string)
                    (include_system_columns : bool)
| RunSchemaSearch (search_term search_scope : string)
| RunSQLQueryBuilder (objective entities : string)
                     (filters aggregations grouping ordering : option string)
| RunODataQueryBuilder (entity : string)
                       (select_fields filter_expression expand_relations : option string)
                       (top : Z)
| RunQueryOptimizer (query query_type optimization_goal : string)
| RunQueryValidator (query query_type : string)
| RunMetricDefinition (metric_name business_context : string) (target_entity : option string)
| RunMetricCalculator (metric_id time_period : string) (group_by : option string)
| RunKPILibrary (category search_term : option string)
| RunDashboardDesigner (dashboard_purpose audience key_questions : string)
| RunSchemaDocGenerator (entities format : string)
                        (include_relationships include_examples : bool)
| RunDataDictionary (entity : string) (include_lookup_values : bool)
| RunERDGenerator (entities format : string) (show_columns : bool).

Definition tool_of (c : ToolCall) : Tool :=
  match c with
  | RunSchemaExplorer _ _ => SchemaExplorerTool
  | RunEntityRelationship _ _ _ => EntityRelationshipTool
  | RunColumnAnalyzer _ _ _ => ColumnAnalyzerTool
  | RunSchemaSearch _ _ => SchemaSearchTool
  | RunSQLQueryBuilder _ _ _ _ _ _ => SQLQueryBuilderTool
  | RunODataQueryBuilder _ _ _ _ _ => ODataQueryBuilderTool
  | RunQueryOptimizer _ _ _ => QueryOptimizerTool
  | RunQueryValidator _ _ => QueryValidatorTool
  | RunMetricDefinition _ _ _ => MetricDefinitionTool
  | RunMetricCalculator _ _ _ => MetricCalculatorTool
  | RunKPILibrary _ _ => KPILibraryTool
  | RunDashboardDesigner _ _ _ => DashboardDesignerTool
  | RunSchemaDocGenerator _ _ _ _ => SchemaDocGeneratorTool
  | RunDataDictionary _ _ => DataDictionaryTool
  | RunERDGenerator _ _ _ => ERDGeneratorTool
  end.

(** The two module-level dictionaries, as the interpreter holds them. *)
Record Tables : Type := mkTables {
  schema_knowledge : list (string * pyval);
  kpi_library : list (string * pyval)
}.

(** The tables as the modules define them at import. *)
Definition module_tables : Tables := mkTables CREATIO_SCHEMA_KNOWLEDGE CRM_KPI_LIBRARY.

(** What a call returns; [set_iter] is the set order of the running
    interpreter (see [DashboardDesignerTool_result]). *)
Definition run_tool (t : Tables) (set_iter : list string -> list string) (c : ToolCall)
  : Py string :=
  let kb := schema_knowledge t in
  let lib := kpi_library t in
  match c with
  | RunSchemaExplorer e r => SchemaExplorerTool_run kb e r
  | RunEntityRelationship s x d => EntityRelationshipTool_run kb s x d
  | RunColumnAnalyzer e f i => ColumnAnalyzerTool_run kb e f i
  | RunSchemaSearch x s => SchemaSearchTool_run kb x s
  | RunSQLQueryBuilder o e f a g r => SQLQueryBuilderTool_run o e f a g r
  | RunODataQueryBuilder e s f x n => ODataQueryBuilderTool_run e s f x n
  | RunQueryOptimizer q x g => QueryOptimizerTool_run q x g
  | RunQueryValidator q x => QueryValidatorTool_run q x
  | RunMetricDefinition m b x => MetricDefinitionTool_run lib m b x
  | RunMetricCalculator m x g => MetricCalculatorTool_run lib m x g
  | RunKPILibrary c s => KPILibraryTool_run lib c s
  | RunDashboardDesigner p a k => DashboardDesignerTool_run lib set_iter p a k
  | RunSchemaDocGenerator e f r x => SchemaDocGeneratorTool_run kb e f r x
  | RunDataDictionary e l => DataDictionaryTool_run kb e l
  | RunERDGenerator e f s => ERDGeneratorTool_run kb e f s
  end.

(** A tool call as a step on the interpreter state: the text returned
    and the tables afterwards.  No tool assigns to, or calls a mutating
    method on, an object reachable from the two tables, so the step hands
    them on as they are. *)
Definition tool_step (t : Tables) (set_iter : list string -> list string) (c : ToolCall)
  : Py string * Tables :=
  (run_tool t set_iter c, t).

(** The tables after a sequence of tool calls. *)
Fixpoint tables_after (t : Tables) (set_iter : list string -> list string)
    (calls : list ToolCall) : Tables :=
  match calls with
  | [] => t
  | c :: rest => tables_after (snd (tool_step t set_iter c)) set_iter rest
  end.

(** An agent as the crew configures it: its tools, and the verbosity that
    the agent factory reads from the settings. *)
Record Agent : Type := mkAgent {
  agent_role : string;
  agent_tools : list Tool;
  agent_verbose : bool
}.

Record CreatioCRMCrew : Type := mkCrew {
  settings : Settings;
  verbose : bool;
  schema_tools : list Tool;
  query_tools : list Tool;
  metrics_tools : list Tool;
  documentation_tools : list Tool;
  all_tools : list Tool;
  schema_analyst : Agent;
  data_architect : Agent;
  metrics_expert : Agent;
  query_builder : Agent
}.

(** [CreatioCRMCrew.__init__], with the settings that [get_settings()]
    returns. *)
Definition CreatioCRMCrew_init (loaded : Settings) (verbose : bool) : CreatioCRMCrew :=
  let schema := [SchemaExplorerTool; EntityRelationshipTool; ColumnAnalyzerTool;
                 SchemaSearchTool] in
  let query := [SQLQueryBuilderTool; ODataQueryBuilderTool; QueryOptimizerTool;
                QueryValidatorTool] in
  let metrics := [MetricDefinitionTool; MetricCalculatorTool; KPILibraryTool;
                  DashboardDesignerTool] in
  let documentation := [SchemaDocGeneratorTool; DataDictionaryTool; ERDGeneratorTool] in
  mkCrew loaded verbose schema query metrics documentation
         (schema +++ query +++ metrics +++ documentation)
         (mkAgent "Creatio CRM Schema Analyst" (schema +++ documentation)
                  (settings_verbose loaded))
         (mkAgent "Creatio CRM Data Architect" (schema +++ query +++ documentation)
                  (settings_verbose loaded))
         (mkAgent "Creatio CRM Metrics & Analytics Expert" (metrics +++ query)
                  (settings_verbose loaded))
         (mkAgent "Creatio CRM Query Builder Specialist" (query +++ schema)
                  (settings_verbose loaded)).

(** A tool call made through a crew: the call runs when the crew holds an
    instance of the tool. *)
Definition crew_run (crew : CreatioCRMCrew) (t : Tables)
    (set_iter : list string -> list string) (c : ToolCall) : option (Py string) :=
  if existsb (Tool_eqb (tool_of c)) (all_tools crew) then Some (run_tool t set_iter c)
  else None.

(** The task factories that [ask_question] chooses among. *)
Inductive TaskKind : Type :=
| answer_schema_question
| build_query_from_question
| answer_metrics_question.

Inductive AgentName : Type :=
| schema_analyst_agent
| query_builder_agent
| metrics_expert_agent.

Definition schema_words : list string :=
  ["schema"; "table"; "column"; "entity"; "relationship"; "structure"].
Definition query_words : list string :=
  ["query"; "sql"; "odata"; "select"; "join"; "extract"].
Definition metrics_words : list string :=
  ["kpi"; "metric"; "measure"; "dashboard"; "report"; "analytics"].

(** The choice of [CreatioCRMCrew.ask_question]: the task factory and the
    agent that the one-agent crew is built from. *)
Definition ask_question_route (question : string) : TaskKind * AgentName :=
  let question_lower := str_lower question in
  if any_in schema_words question_lower then (answer_schema_question, schema_analyst_agent)
  else if any_in query_words question_lower then
    (build_query_from_question, query_builder_agent)
  else if any_in metrics_words question_lower then
    (answer_metrics_question, metrics_expert_agent)
  else (answer_schema_question, schema_analyst_agent).

Definition agent_of (crew : CreatioCRMCrew) (a : AgentName) : Agent :=
  match a with
  | schema_analyst_agent => schema_analyst crew
  | query_builder_agent => query_builder crew
  | metrics_expert_agent => metrics_expert crew
  end.

(** [CreatioCRMCrew.ask_question]; [kickoff] stands for the external
    engine run on the one agent and the one task. *)
Definition CreatioCRMCrew_ask_question (crew : CreatioCRMCrew)
    (kickoff : Agent -> TaskKind -> string -> bool -> string) (question : string) : string :=
  let (task, agent) := ask_question_route question in
  kickoff (agent_of crew agent) task question (verbose crew).





(** ** Vocabulary of the statements *)



(** [v[k]] when [v] is a dictionary that has the key. *)
Definition field (k : string) (v : pyval) : option pyval :=
  match v with
  | PDict d => assoc k d
  | _ => None
  end.

(** [v[k1][k2]...] *)
Fixpoint path (ks : list string) (v : pyval) : option pyval :=
  match ks with
  | [] => Some v
  | k :: r => match field k v with
              | Some x => path r x
              | None => None
              end
  end.

(** The tool returned a dictionary whose ['success'] is [b]. *)
Definition returns_with_success (b : bool) (r : Py pyval) (d : pyval) : Prop :=
  r = Ok d /\ field "success" d = Some (PBool b).

(** [kpi] is the record stored under [category] and [metric]. *)
Definition stored_kpi (lib : list (string * pyval)) (category metric : string) (kpi : pyval)
  : Prop :=
  exists metrics, assoc category lib = Some (PDict metrics) /\ assoc metric metrics = Some kpi.



(** The identifiers [category.metric] of the records of a KPI library. *)
Definition kpi_ids (lib : list (string * pyval)) : list string :=
  flat_map (fun entry =>
              match snd entry with
              | PDict metrics => map (fun m => fst entry ++ "." ++ fst m) metrics
              | _ => []
              end) lib.


(** The keys that a KPI record is to have. *)
Definition kpi_fields : list string :=
  ["name"; "description"; "formula"; "unit"; "frequency"; "entities"].

Definition has_fields (fields : list string) (v : pyval) : Prop :=
  forall f, In f fields -> exists x, field f v = Some x.

(** Keys are unique at every level and every metric record has the six
    fields. *)
Definition tables_invariant (t : Tables) : Prop :=
  NoDup (keys (schema_knowledge t))
  /\ NoDup (keys (kpi_library t))
  /\ forall category v,
       In (category, v) (kpi_library t) ->
       exists metrics,
         v = PDict metrics
         /\ NoDup (keys metrics)
         /\ forall metric kpi, In (metric, kpi) metrics -> has_fields kpi_fields kpi.




(** A relationship drawn in a diagram. *)
Record Edge : Type := mkEdge {
  edge_source : string;
  edge_target : string;
  edge_type : string
}.

(** Two edges join the same unordered pair of entities. *)
Definition same_pair (a b : Edge) : Prop :=
  (edge_source a = edge_source b /\ edge_target a = edge_target b)
  \/ (edge_source a = edge_target b /\ edge_target a = edge_source b).

Definition edge_key (e : Edge) : string * string :=
  rel_key (edge_source e) (edge_target e).

(** The lines that a generator writes for a list of edges. *)
Definition edge_lines (line : string -> string -> string -> list string)
    (edges : list Edge) : list string :=
  flat_map (fun e => line (edge_source e) (edge_target e) (edge_type e)) edges.

(** [r] is a relationship record: it has a text under [entity] and under
    [type]. *)
Definition is_relationship (r : pyval) : Prop :=
  exists entity type, get_str r "entity" = Ok entity /\ get_str r "type" = Ok type.

(** What the relationship loop keeps true of its state [(added, lines)]:
    the lines after [head] are those of a list of edges whose keys are
    all in [added], pairwise different, and whose ends are requested
    entities. *)
Definition rel_invariant (line : string -> string -> string -> list string)
    (entities : list string) (head : list string) (st : RelState) : Prop :=
  exists edges,
    snd st = head +++ edge_lines line edges
    /\ (forall e, In e edges -> In (edge_key e) (fst st))
    /\ NoDup (map edge_key edges)
    /\ Forall (fun e => In (edge_source e) entities /\ In (edge_target e) entities) edges.

(** What C9 says of a diagram whose lines are [lines]: after the lines
    [head] of the entities come the lines of edges that join pairwise
    different unordered pairs of requested entities, at most one line an
    edge. *)
Definition one_line_per_pair (line : string -> string -> string -> list string)
    (entities head lines : list string) : Prop :=
  exists edges,
    lines = head +++ edge_lines line edges
    /\ ForallOrdPairs (fun a b => ~ same_pair a b) edges
    /\ Forall (fun e => In (edge_source e) entities /\ In (edge_target e) entities) edges
    /\ Forall (fun e => length (line (edge_source e) (edge_target e) (edge_type e)) <= 1)
              edges.

(** ** Vocabulary of the further properties *)

(** The list held under [k], when [d] has a list there. *)
Definition field_list (k : string) (d : pyval) : option (list pyval) :=
  match field k d with
  | Some (PList l) => Some l
  | _ => None
  end.

(** No stored name equals [name] when letter case is ignored. *)
Definition no_entity_matches (kb : list (string * pyval)) (name : string) : Prop :=
  forall key, In key (keys kb) -> str_lower key <> str_lower name.

(** The text held under [k], or the empty text. *)
Definition text_field (k : string) (v : pyval) : string :=
  match field k v with
  | Some (PStr s) => s
  | _ => ""
  end.

(** The lowercased [term] occurs in the name or in the description of a
    table entry. *)
Definition entity_hit (term : string) (entry : string * pyval) : bool :=
  str_in (str_lower term) (str_lower (fst entry))
  || str_in (str_lower term) (str_lower (text_field "description" (snd entry))).

(** The record that the schema search shows for a table entry. *)
Definition entity_match (entry : string * pyval) : pyval :=
  PDict [("entity", PStr (fst entry));
         ("description", PStr (text_field "description" (snd entry)));
         ("table", PStr (text_field "table_name" (snd entry)))].

(** A table entry with a text under [description] and [table_name]. *)
Definition is_entity_info (info : pyval) : Prop :=
  exists description table,
    getitem info "description" = Ok (PStr description)
    /\ getitem info "table_name" = Ok (PStr table).

(** The value held under [k], or [None]. *)
Definition value_field (k : string) (v : pyval) : pyval :=
  match field k v with
  | Some x => x
  | None => PNone
  end.

(** The records of the categories [cats] of a KPI library, each with its
    category and metric name, in the order of the library. *)
Definition kpis_of (lib : list (string * pyval)) (cats : list string)
  : list (string * string * pyval) :=
  flat_map (fun cat =>
              match assoc cat lib with
              | Some (PDict metrics) => map (fun m => (cat, fst m, snd m)) metrics
              | _ => []
              end) cats.

(** All the records of a KPI library. *)
Definition all_kpis (lib : list (string * pyval)) : list (string * string * pyval) :=
  flat_map (fun entry =>
              match snd entry with
              | PDict metrics => map (fun m => (fst entry, fst m, snd m)) metrics
              | _ => []
              end) lib.

(** The lowercased [term] occurs in the name or in the description of a
    KPI record. *)
Definition kpi_hit (term : string) (k : string * string * pyval) : bool :=
  str_in (str_lower term) (str_lower (text_field "name" (snd k)))
  || str_in (str_lower term) (str_lower (text_field "description" (snd k))).

(** A search term that is absent or empty keeps every record. *)
Definition library_hit (search : option string) (k : string * string * pyval) : bool :=
  if truthy search then kpi_hit (opt_text search) k else true.

(** The identifier [category.metric] of a record. *)
Definition kpi_id_of (k : string * string * pyval) : string :=
  fst (fst k) ++ "." ++ snd (fst k).

(** The record that the metric definition tool shows for a similar KPI. *)
Definition kpi_suggestion (k : string * string * pyval) : pyval :=
  PDict [("id", PStr (kpi_id_of k));
         ("name", value_field "name" (snd k));
         ("description", value_field "description" (snd k))].

(** The record that the KPI library tool shows for a KPI. *)
Definition library_record (k : string * string * pyval) : pyval :=
  PDict [("id", PStr (kpi_id_of k));
         ("category", PStr (fst (fst k)));
         ("name", value_field "name" (snd k));
         ("description", value_field "description" (snd k));
         ("unit", value_field "unit" (snd k));
         ("frequency", value_field "frequency" (snd k))].

(** A KPI record with a text under [name] and [description] and a value
    under [unit] and [frequency]. *)
Definition is_kpi_info (info : pyval) : Prop :=
  exists d name description unit frequency,
    info = PDict d
    /\ assoc "name" d = Some (PStr name)
    /\ assoc "description" d = Some (PStr description)
    /\ assoc "unit" d = Some unit
    /\ assoc "frequency" d = Some frequency.

(** A category of a KPI library: a dictionary of KPI records. *)
Definition is_kpi_category (v : pyval) : Prop :=
  exists metrics, v = PDict metrics /\ Forall (fun m => is_kpi_info (snd m)) metrics.

(** The text that the metric calculator generates for a pipeline KPI. *)
Definition pipeline_sql : string :=
  NL ++ "SELECT SUM(o.Amount) AS PipelineValue" ++ NL
  ++ "FROM [Opportunity] o" ++ NL
  ++ "JOIN [OpportunityStage] s ON o.StageId = s.Id" ++ NL
  ++ "WHERE s.IsFinal = 0" ++ NL.

(** The calculator accepts [id] for every time period and grouping. *)
Definition calculator_accepts (lib : list (string * pyval)) (id : string) : Prop :=
  forall time_period group_by,
  exists r,
    returns_with_success true (MetricCalculatorTool_result lib id time_period group_by) r
    /\ path ["metric"; "id"] r = Some (PStr id).

(** [w] is a widget for a stored KPI. *)
Definition widget_of_stored_kpi (lib : list (string * pyval)) (w : pyval) : Prop :=
  exists id, field "kpi_id" w = Some (PStr id) /\ In id (kpi_ids lib).

(** The design that the dashboard designer gives a manager. *)
Definition manager_design : pyval :=
  PDict [("layout_style", PStr "operational overview");
         ("recommended_widget_count", PInt 10);
         ("widget_types", PStrs ["scorecard"; "bar_chart"; "table"; "trend_line"]);
         ("refresh_frequency", PStr "hourly")].

(** [w] is a widget for one of [kpis] that is stored in the library. *)
Definition widget_for (lib : list (string * pyval)) (kpis : list string) (w : pyval) : Prop :=
  exists id, field "kpi_id" w = Some (PStr id) /\ In id kpis /\ In id (kpi_ids lib).

(** The purpose asks for marketing or lead figures, or for an overview. *)
Definition wants_lead_conversion (dashboard_purpose : string) : bool :=
  let p := str_lower dashboard_purpose in
  (str_in "marketing" p || str_in "lead" p)
  || (str_in "executive" p || str_in "overview" p).
(** ** Sanity checks of the string operations *)

Example str_lower_ex : str_lower "SysAdminUnit" = "sysadminunit".
Proof. reflexivity. Qed.

Example str_split_ex : map str_strip (str_split "," "Contact, Account,") = ["Contact"; "Account"; ""].
Proof. reflexivity. Qed.

Example str_split_empty : str_split "," "" = [""].
Proof. reflexivity. Qed.

Example str_replace_ex : str_replace "Id" "" "StatusIdId" = "Status".
Proof. reflexivity. Qed.

Example str_of_Z_ex : (str_of_Z 100, str_of_Z (-5), str_of_Z 0) = ("100", "-5", "0").
Proof. reflexivity. Qed.

Example str_in_ex : str_in "FK" "FK to Account" = true /\ str_in "" "" = true /\ str_in "a" "" = false.
Proof. repeat split. Qed.

(** * Properties *)

(** ** Texts *)





(** ** Question routing *)



Example ask_question_metrics :
  ask_question_route "Show me the revenue Dashboard"
  = (answer_metrics_question, metrics_expert_agent).
Proof. reflexivity. Qed.

Example ask_question_default :
  ask_question_route "Hello there" = (answer_schema_question, schema_analyst_agent).
Proof. reflexivity. Qed.

(** ** Lookups by key *)

Lemma assoc_In {A : Type} (k : string) (d : list (string * A)) (v : A) :
  assoc k d = Some v -> In (k, v) d.
Proof.
  induction d as [|[k' v'] d IH]; simpl; [discriminate|].
  destruct (String.eqb_spec k k') as [->|_].
  - intros [= ->]. now left.
  - intros H. right. now apply IH.
Qed.


Ltac each_entity H :=
  simpl in H; repeat destruct H as [<- | H]; [ .. | contradiction].





(** ** Unknown keys *)

(** The schema and documentation tools list the stored entity names when
    the name they are given matches none. *)
Lemma unknown_entity_lists_the_keys (name : string) :
  find_entity CREATIO_SCHEMA_KNOWLEDGE name = None ->
  find_entity CREATIO_SCHEMA_KNOWLEDGE (str_strip name) = None ->
  let listed := Some (PStrs (keys CREATIO_SCHEMA_KNOWLEDGE)) in
  (exists d, returns_with_success false
               (SchemaExplorerTool_result CREATIO_SCHEMA_KNOWLEDGE name true) d
             /\ field "available_entities" d = listed)
  /\ (exists d, returns_with_success false
                  (EntityRelationshipTool_result CREATIO_SCHEMA_KNOWLEDGE name None 2) d
                /\ field "available_entities" d = listed)
  /\ (exists d, returns_with_success false
                  (DataDictionaryTool_result CREATIO_SCHEMA_KNOWLEDGE name false) d
                /\ field "available_entities" d = listed).
Proof.
  intros H Hs listed. unfold returns_with_success.
  repeat split; eexists;
    unfold SchemaExplorerTool_result, EntityRelationshipTool_result,
      DataDictionaryTool_result; cbv zeta; rewrite ?H, ?Hs; cbn [truthy negb];
    repeat split; reflexivity.
Qed.

(** The metric calculator lists the categories for an unknown category
    and the metrics of the category for an unknown metric. *)
Lemma unknown_metric_lists_the_keys :
  (exists d, returns_with_success false
               (MetricCalculatorTool_result CRM_KPI_LIBRARY "finance.win_rate"
                  "last_month" None) d
             /\ field "available_categories" d = Some (PStrs (keys CRM_KPI_LIBRARY)))
  /\ (exists d, returns_with_success false
                  (MetricCalculatorTool_result CRM_KPI_LIBRARY "marketing.win_rate"
                     "last_month" None) d
                /\ field "available_metrics" d
                   = Some (PStrs ["lead_volume"; "lead_source_effectiveness";
                                  "marketing_qualified_leads"; "cost_per_lead";
                                  "campaign_roi"])).
Proof.
  split; eexists; (split; [split; [vm_compute; reflexivity | reflexivity] | reflexivity]).
Qed.

(** C2: for an entity name that matches no stored entity,
    [ColumnAnalyzerTool._run] returns a result with only ['success'] and
    ['error']: the list of valid entity names, which
    [SchemaExplorerTool._run] returns on the same input, is missing. *)
Theorem column_analyzer_unknown_entity_lists_no_keys :
  ColumnAnalyzerTool_result CREATIO_SCHEMA_KNOWLEDGE "Invoice" None false
  = Ok (PDict [("success", PBool false); ("error", PStr "Entity 'Invoice' not found")])
  /\ ColumnAnalyzerTool_run CREATIO_SCHEMA_KNOWLEDGE "Invoice" None false
     = Ok ("{'success': False, 'error': " ++ DQ ++ "Entity 'Invoice' not found" ++ DQ ++ "}")
  /\ exists d, returns_with_success false
                 (SchemaExplorerTool_result CREATIO_SCHEMA_KNOWLEDGE "Invoice" true) d
               /\ field "available_entities" d
                  = Some (PStrs ["Contact"; "Account"; "Opportunity"; "Lead"; "Activity";
                                 "Case"; "Product"; "Order"; "SysAdminUnit"]).
Proof.
  split; [reflexivity|]. split; [reflexivity|].
  eexists. split; [split; [vm_compute; reflexivity | reflexivity] | reflexivity].
Qed.

(** Whatever the name, filter and flag, an unmatched name gives the
    two-field result. *)
Lemma column_analyzer_unknown_entity (name : string) (column_filter : option string)
    (include_system_columns : bool) :
  find_entity CREATIO_SCHEMA_KNOWLEDGE name = None ->
  ColumnAnalyzerTool_result CREATIO_SCHEMA_KNOWLEDGE name column_filter
    include_system_columns
  = Ok (PDict [("success", PBool false);
               ("error", PStr ("Entity '" ++ name ++ "' not found"))]).
Proof.
  intros H. unfold ColumnAnalyzerTool_result. cbv zeta. now rewrite H.
Qed.

(** ** Exceptions *)

Lemma alias_of_raises (name : string) :
  raises (alias_of name) = String.eqb name "".
Proof. destruct name; reflexivity. Qed.

(** C4: [SQLQueryBuilderTool._run] raises [IndexError] when the first
    entity of the list is empty: for the empty text, for a list that
    starts with a comma, and also for a list that ends with one.  A name
    that is in none of the tables is answered. *)
Theorem sql_query_builder_raises_on_empty_entity :
  SQLQueryBuilderTool_run "List contacts" "" None None None None = Raise IndexError
  /\ SQLQueryBuilderTool_run "List contacts" ",Contact" None None None None
     = Raise IndexError
  /\ SQLQueryBuilderTool_run "List contacts" " , Contact" None (Some "count") None None
     = Raise IndexError
  /\ SQLQueryBuilderTool_run "List contacts" "Contact," None None None None
     = Raise IndexError
  /\ raises (SQLQueryBuilderTool_run "List invoices" "Invoice" None None None None) = false.
Proof. repeat split; reflexivity. Qed.

Lemma str_split_cons (sep : ascii) (s : string) :
  exists first rest, str_split sep s = first :: rest.
Proof.
  induction s as [|c s [first [rest IH]]]; simpl; [now eexists; eexists|].
  destruct (Ascii.eqb c sep); [now eexists; eexists|].
  rewrite IH. now eexists; eexists.
Qed.

Lemma join_template_empty (p : string) :
  join_template p "" = None /\ join_template "" p = None.
Proof.
  unfold join_template, join_templates. simpl. now rewrite !andb_false_r.
Qed.

Lemma add_join_raises (primary from_clause entity : string) :
  raises (add_join primary from_clause entity) = String.eqb entity "".
Proof.
  unfold add_join. destruct entity as [|c entity].
  - destruct (join_template_empty primary) as [-> ->]. reflexivity.
  - destruct (join_template primary _); [reflexivity|].
    destruct (join_template _ primary); reflexivity.
Qed.

Lemma add_joins_raise (primary : string) (entities : list string) (from_clause : string) :
  raises (foldM (add_join primary) entities from_clause)
  = existsb (fun e => String.eqb e "") entities.
Proof.
  revert from_clause; induction entities as [|e entities IH]; intros from_clause; simpl;
    [reflexivity|].
  pose proof (add_join_raises primary from_clause e) as H.
  destruct (add_join primary from_clause e) as [f|]; simpl in H; rewrite <- H; cbn [bind].
  - apply IH.
  - reflexivity.
Qed.

(** [SQLQueryBuilderTool._run] raises exactly when one of the names of
    the comma-separated list is empty once stripped. *)
Lemma sql_query_builder_raises_iff (objective entities : string)
    (filters aggregations grouping ordering : option string) :
  raises (SQLQueryBuilderTool_run objective entities filters aggregations grouping ordering)
  = existsb (fun e => String.eqb e "") (map str_strip (str_split "," entities)).
Proof.
  unfold SQLQueryBuilderTool_run, SQLQueryBuilderTool_result. cbv zeta.
  destruct (str_split_cons "," entities) as [first [rest ->]]. cbn [map bind existsb].
  unfold SQLQueryBuilderTool_build_from. cbn [bind tl].
  destruct (str_strip first) as [|c p] eqn:E.
  - cbn [String.eqb orb alias_of str_first bind].
    destruct (SQLQueryBuilderTool_build_select "" _ aggregations); reflexivity.
  - assert (Hs : exists q, SQLQueryBuilderTool_build_select (String c p)
                             (String c p :: map str_strip rest) aggregations = Ok q).
    { unfold SQLQueryBuilderTool_build_select.
      destruct (if truthy aggregations then _ else _); now eexists. }
    destruct Hs as [q ->]. cbn [bind alias_of str_first].
    change (String.eqb (String c p) "") with false. cbn [orb].
    rewrite <- (add_joins_raise (String c p) (map str_strip rest)
                  ("FROM [" ++ String c p ++ "] "
                   ++ match assoc (String c p) aliases with
                      | Some a => a
                      | None => str_lower (String c "")
                      end)).
    destruct (foldM _ _ _); reflexivity.
Qed.

(** ** Ticket identifiers *)






















Example ticket_ids :
  ticket_id_of 0 = "TICKET-00000000"
  /\ ticket_id_of (2 ^ 127) = "TICKET-80000000"
  /\ ticket_id_of (2 ^ 128 - 1) = ticket_id_of (2 ^ 128 - 2 ^ 96).
Proof. repeat split. Qed.

(** ** Time periods of the metric calculator *)

Lemma assoc_absent {A : Type} (k : string) (d : list (string * A)) :
  ~ In k (keys d) -> assoc k d = None.
Proof.
  induction d as [|[k' v] d IH]; simpl; [reflexivity|].
  intros H. destruct (String.eqb_spec k k') as [->|_].
  - contradiction H. now left.
  - apply IH. intros Hin. apply H. now right.
Qed.




Ltac each_id H :=
  simpl in H; repeat destruct H as [<- | H]; [ .. | contradiction].



Example unknown_time_period_sql :
  exists d,
    MetricCalculatorTool_result CRM_KPI_LIBRARY "sales.average_deal_size" "next_decade" None
    = Ok d
    /\ path ["calculation"; "sql_query"] d
       = Some (PStr (NL ++ "SELECT AVG(o.Amount) AS AverageDealSize" ++ NL
                     ++ "FROM [Opportunity] o" ++ NL
                     ++ "JOIN [OpportunityStage] s ON o.StageId = s.Id" ++ NL
                     ++ "WHERE s.Name = 'Closed won'" ++ NL
                     ++ "    AND CreatedOn >= DATEADD(MONTH, -1, GETDATE())" ++ NL)).
Proof. eexists. split; [vm_compute; reflexivity | reflexivity]. Qed.

(** ** The tables *)

Ltac solve_nodup :=
  repeat (apply NoDup_cons; [simpl; intuition discriminate|]); apply NoDup_nil.

Lemma module_tables_invariant : tables_invariant module_tables.
Proof.
  unfold tables_invariant. split; [|split].
  - simpl. solve_nodup.
  - simpl. solve_nodup.
  - intros category v H. simpl in H.
    repeat destruct H as [H | H]; try contradiction;
      injection H as <- <-; eexists; (split; [reflexivity|]); (split; [simpl; solve_nodup|]);
      intros metric kpi Hm; simpl in Hm;
      repeat destruct Hm as [Hm | Hm]; try contradiction;
      injection Hm as <- <-; intros f Hf; simpl in Hf;
      repeat destruct Hf as [<- | Hf]; try contradiction; eexists; reflexivity.
Qed.

Lemma tool_step_keeps_tables (t : Tables) (set_iter : list string -> list string)
    (c : ToolCall) :
  snd (tool_step t set_iter c) = t.
Proof. reflexivity. Qed.

Lemma tables_after_calls (t : Tables) (set_iter : list string -> list string)
    (calls : list ToolCall) :
  tables_after t set_iter calls = t.
Proof.
  induction calls as [|c calls IH]; simpl; [reflexivity|].
  now rewrite IH.
Qed.

(** C6: in both tables the keys are unique, every metric record has the
    fields [name], [description], [formula], [unit], [frequency] and
    [entities], and after any sequence of tool calls the tables are the
    ones of the modules, so the invariant still holds. *)
Theorem tables_invariant_kept (set_iter : list string -> list string)
    (calls : list ToolCall) :
  tables_invariant module_tables
  /\ tables_after module_tables set_iter calls = module_tables
  /\ tables_invariant (tables_after module_tables set_iter calls).
Proof.
  rewrite tables_after_calls.
  repeat split; try apply module_tables_invariant.
Qed.

Example every_kpi_has_a_formula :
  forall metric_id, In metric_id (kpi_ids CRM_KPI_LIBRARY) ->
  match str_split "." metric_id with
  | [category; metric] =>
      exists kpi formula,
        stored_kpi CRM_KPI_LIBRARY category metric kpi
        /\ field "formula" kpi = Some (PStr formula)
  | _ => False
  end.
Proof.
  intros metric_id H. each_id H; simpl; eexists; eexists;
    (split; [eexists; split; reflexivity | reflexivity]).
Qed.

(** ** Settings *)

(** C7: the text returned by a tool call made through a crew does not
    depend on the settings the crew was built with (nor on its verbosity):
    crews built from any two settings hold the same tool instances, and a
    call returns what the tool returns on the tables. *)
Theorem settings_do_not_reach_tools (s1 s2 : Settings) (v1 v2 : bool) (t : Tables)
    (set_iter : list string -> list string) (c : ToolCall) :
  crew_run (CreatioCRMCrew_init s1 v1) t set_iter c
  = crew_run (CreatioCRMCrew_init s2 v2) t set_iter c
  /\ crew_run (CreatioCRMCrew_init s1 v1) t set_iter c = Some (run_tool t set_iter c)
  /\ all_tools (CreatioCRMCrew_init s1 v1) = all_tools (CreatioCRMCrew_init s2 v2).
Proof. destruct c; repeat split. Qed.

(** The settings do reach the agents: their verbosity is read from the
    settings. *)
Example settings_reach_agents (s : Settings) (v : bool) :
  agent_verbose (schema_analyst (CreatioCRMCrew_init s v)) = settings_verbose s.
Proof. reflexivity. Qed.

(** ** Column categories *)













Example column_categories_contact :
  exists d,
    ColumnAnalyzerTool_result CREATIO_SCHEMA_KNOWLEDGE "contact" (Some "ID") true = Ok d
    /\ path ["categorized"; "primary_key"] d
       = Some (PList [column "Id" "uniqueidentifier" "Primary key"])
    /\ path ["categorized"; "data_columns"] d = Some (PList [])
    /\ field "total_columns" d = Some (PInt 5).
Proof. eexists. split; [vm_compute; reflexivity | repeat split]. Qed.

(** ** Relationship lines of the diagrams *)

Lemma rel_key_sym (a b : string) : rel_key a b = rel_key b a.
Proof.
  unfold rel_key, String.ltb.
  rewrite (String.compare_antisym a b).
  destruct (String.compare b a) eqn:E; simpl; try reflexivity.
  apply String.compare_eq_iff in E. now subst.
Qed.

Lemma same_pair_key (a b : Edge) : same_pair a b -> edge_key a = edge_key b.
Proof.
  unfold edge_key. intros [[-> ->] | [-> ->]]; [reflexivity | apply rel_key_sym].
Qed.

Lemma pair_eqb_spec (p q : string * string) : pair_eqb p q = true <-> p = q.
Proof.
  destruct p as [a b], q as [c d]. unfold pair_eqb. simpl.
  rewrite andb_true_iff, !String.eqb_eq. split; [intros [-> ->] | intros [= -> ->]]; auto.
Qed.

Lemma key_in_spec (k : string * string) (added : list (string * string)) :
  key_in k added = true <-> In k added.
Proof.
  unfold key_in. rewrite existsb_exists. split.
  - intros [x [Hx H]]. apply pair_eqb_spec in H. now subst.
  - intros H. exists k. split; [assumption | now apply pair_eqb_spec].
Qed.

Lemma list_in_spec (x : string) (l : list string) : list_in x l = true <-> In x l.
Proof.
  unfold list_in. rewrite existsb_exists. split.
  - intros [y [Hy H]]. apply String.eqb_eq in H. now subst.
  - intros H. exists x. split; [assumption | apply String.eqb_refl].
Qed.

Lemma edge_lines_app (line : string -> string -> string -> list string)
    (a b : list Edge) :
  edge_lines line (a +++ b) = edge_lines line a +++ edge_lines line b.
Proof. unfold edge_lines. apply flat_map_app. Qed.

(** Keys that differ give edges on different unordered pairs. *)
Lemma distinct_keys_distinct_pairs (edges : list Edge) :
  NoDup (map edge_key edges) -> ForallOrdPairs (fun a b => ~ same_pair a b) edges.
Proof.
  induction edges as [|a edges IH]; simpl; intros H; [constructor|].
  inversion H as [|k ks Hnot Hnd]; subst. constructor; [|now apply IH].
  apply Forall_forall. intros b Hb Hs. apply Hnot.
  rewrite (same_pair_key a b Hs). now apply in_map.
Qed.

(** One turn of the relationship loop returns, and keeps the invariant. *)
Lemma relationship_step_keeps (line : string -> string -> string -> list string)
    (entities head : list string) (entity : string) (st : RelState) (rel : pyval) :
  In entity entities ->
  is_relationship rel ->
  rel_invariant line entities head st ->
  exists st', relationship_step line entities entity st rel = Ok st'
              /\ rel_invariant line entities head st'.
Proof.
  intros He [target [type [Ht Hy]]] Hinv.
  unfold relationship_step. destruct st as [added lines]. rewrite Ht. cbn [bind].
  destruct (list_in target entities) eqn:Hin; cbn [negb]; [|now eexists].
  destruct (key_in (rel_key entity target) added) eqn:Hk; [now eexists|].
  rewrite Hy. cbn [bind]. eexists. split; [reflexivity|].
  destruct Hinv as [edges [Hl [Hadded [Hnd Hends]]]]. simpl in Hl, Hadded.
  exists (edges +++ [mkEdge entity target type]). simpl. repeat split.
  - rewrite Hl, edge_lines_app, <- app_assoc. simpl. now rewrite app_nil_r.
  - intros e Hin_e. apply in_app_or in Hin_e as [Hin_e | [<- | []]].
    + right. now apply Hadded.
    + now left.
  - rewrite map_app. simpl.
    apply (Permutation_NoDup (Permutation_cons_append _ _)).
    constructor; [|assumption].
    intros Hmem. apply in_map_iff in Hmem as [e [Hke Hin_e]].
    apply Hadded in Hin_e. rewrite Hke in Hin_e.
    change (edge_key (mkEdge entity target type)) with (rel_key entity target) in Hin_e.
    apply key_in_spec in Hin_e. congruence.
  - apply Forall_app. split; [assumption|].
    constructor; [|constructor]. simpl. split; [assumption | now apply list_in_spec].
Qed.

Lemma relationships_keep (line : string -> string -> string -> list string)
    (entities head : list string) (entity : string) (rels : list pyval) (st : RelState) :
  In entity entities ->
  Forall is_relationship rels ->
  rel_invariant line entities head st ->
  exists st', foldM (relationship_step line entities entity) rels st = Ok st'
              /\ rel_invariant line entities head st'.
Proof.
  intros He Hr; revert st; induction Hr as [|rel rels Hrel _ IH]; intros st Hinv; simpl.
  - now exists st.
  - destruct (relationship_step_keeps line entities head entity st rel He Hrel Hinv)
      as [st1 [-> Hinv1]].
    cbn [bind]. now apply IH.
Qed.

(** Every stored entity has a list of relationship records. *)
Lemma stored_relationships (key : string) :
  In key (keys CREATIO_SCHEMA_KNOWLEDGE) ->
  exists info rels,
    lookup CREATIO_SCHEMA_KNOWLEDGE key = Ok info
    /\ dict_get info "relationships" (PList []) = Ok (PList rels)
    /\ Forall is_relationship rels.
Proof.
  intros H. each_entity H;
    (eexists; eexists; split; [reflexivity|]; split; [reflexivity|]);
    repeat (apply Forall_cons; [eexists; eexists; split; reflexivity|]); apply Forall_nil.
Qed.

Lemma relationships_of_keeps (line : string -> string -> string -> list string)
    (entities head : list string) (entity : string) (st : RelState) :
  In entity entities ->
  In entity (keys CREATIO_SCHEMA_KNOWLEDGE) ->
  rel_invariant line entities head st ->
  exists st', relationships_of CREATIO_SCHEMA_KNOWLEDGE line entities st entity = Ok st'
              /\ rel_invariant line entities head st'.
Proof.
  intros He Hk Hinv. unfold relationships_of.
  destruct (stored_relationships entity Hk) as [info [rels [Hl [Hd Hr]]]].
  rewrite Hl. cbn [bind]. rewrite Hd. cbn [bind as_list]. now apply relationships_keep.
Qed.

Lemma relationship_lines_ok (line : string -> string -> string -> list string)
    (entities head : list string) :
  (forall e, In e entities -> In e (keys CREATIO_SCHEMA_KNOWLEDGE)) ->
  (forall a b t, length (line a b t) <= 1) ->
  exists lines,
    relationship_lines CREATIO_SCHEMA_KNOWLEDGE line entities head = Ok lines
    /\ one_line_per_pair line entities head lines.
Proof.
  intros Hk Hline. unfold relationship_lines.
  assert (H : forall es st,
             incl es entities -> rel_invariant line entities head st ->
             exists st',
               foldM (relationships_of CREATIO_SCHEMA_KNOWLEDGE line entities) es st = Ok st'
               /\ rel_invariant line entities head st').
  { induction es as [|entity es IH]; intros st Hi Hinv; simpl; [now exists st|].
    assert (He : In entity entities) by (apply Hi; now left).
    destruct (relationships_of_keeps line entities head entity st He (Hk _ He) Hinv)
      as [st1 [-> Hinv1]].
    cbn [bind]. apply IH; [|assumption]. intros x Hx. apply Hi. now right. }
  destruct (H entities ([], head) (incl_refl _)) as [st [-> [edges [Hl [_ [Hnd Hends]]]]]].
  { exists []. simpl. rewrite app_nil_r. repeat split; try constructor. intros e []. }
  cbn [bind]. eexists. split; [reflexivity|].
  exists edges. repeat split; try assumption.
  - now apply distinct_keys_distinct_pairs.
  - apply Forall_forall. intros e _. apply Hline.
Qed.

Lemma mermaid_line_short (a b t : string) : length (mermaid_line a b t) <= 1.
Proof. unfold mermaid_line. repeat destruct (String.eqb t _); simpl; lia. Qed.

Lemma plantuml_line_short (a b t : string) : length (plantuml_line a b t) <= 1.
Proof. unfold plantuml_line. repeat destruct (String.eqb t _); simpl; lia. Qed.

Lemma foldM_total {A S : Type} (f : S -> A -> Py S) (P : A -> Prop) (l : list A) :
  (forall s a, P a -> exists s', f s a = Ok s') ->
  Forall P l -> forall s, exists s', foldM f l s = Ok s'.
Proof.
  intros Hf Hl; induction Hl as [|a l Ha _ IH]; intros s; simpl; [now exists s|].
  destruct (Hf s a Ha) as [s1 ->]. cbn [bind]. apply IH.
Qed.

(** The entity blocks of both diagrams are written for every stored
    entity. *)
Lemma entity_lines_total (show_columns : bool) (lines : list string) (entity : string) :
  In entity (keys CREATIO_SCHEMA_KNOWLEDGE) ->
  (exists l, mermaid_entity CREATIO_SCHEMA_KNOWLEDGE show_columns lines entity = Ok l)
  /\ (exists l, plantuml_entity CREATIO_SCHEMA_KNOWLEDGE show_columns lines entity = Ok l).
Proof.
  intros H. each_entity H; destruct show_columns; split; eexists; vm_compute; reflexivity.
Qed.

(** C9: for a list of stored entities both generators return a diagram
    in which, after the entity blocks, every relationship line belongs to
    an edge between two requested entities, no two edges join the same
    unordered pair, and an edge has at most one line. *)
Theorem erd_one_relationship_line_per_pair (entities : list string) (show_columns : bool) :
  (forall e, In e entities -> In e (keys CREATIO_SCHEMA_KNOWLEDGE)) ->
  (exists head lines,
      foldM (mermaid_entity CREATIO_SCHEMA_KNOWLEDGE show_columns) entities ["erDiagram"]
      = Ok head
      /\ ERDGeneratorTool_generate_mermaid CREATIO_SCHEMA_KNOWLEDGE entities show_columns
         = Ok (str_join NL lines)
      /\ one_line_per_pair mermaid_line entities head lines)
  /\ (exists head lines,
         foldM (plantuml_entity CREATIO_SCHEMA_KNOWLEDGE show_columns) entities
           ["@startuml"; "skinparam linetype ortho"; ""]
         = Ok head
         /\ ERDGeneratorTool_generate_plantuml CREATIO_SCHEMA_KNOWLEDGE entities show_columns
            = Ok (str_join NL (lines +++ [""; "@enduml"]))
         /\ one_line_per_pair plantuml_line entities (head +++ [""]) lines).
Proof.
  intros Hk.
  assert (Hs : Forall (fun e => In e (keys CREATIO_SCHEMA_KNOWLEDGE)) entities)
    by now apply Forall_forall.
  split.
  - destruct (foldM_total (mermaid_entity CREATIO_SCHEMA_KNOWLEDGE show_columns) _ entities
                (fun s a Ha => proj1 (entity_lines_total show_columns s a Ha)) Hs
                ["erDiagram"]) as [head Hh].
    destruct (relationship_lines_ok mermaid_line entities head Hk mermaid_line_short)
      as [lines [Hl Hp]].
    exists head, lines. split; [assumption|]. split; [|assumption].
    unfold ERDGeneratorTool_generate_mermaid, mermaid_lines.
    rewrite Hh. cbn [bind]. now rewrite Hl.
  - destruct (foldM_total (plantuml_entity CREATIO_SCHEMA_KNOWLEDGE show_columns) _ entities
                (fun s a Ha => proj2 (entity_lines_total show_columns s a Ha)) Hs
                ["@startuml"; "skinparam linetype ortho"; ""]) as [head Hh].
    destruct (relationship_lines_ok plantuml_line entities (head +++ [""]) Hk
                plantuml_line_short) as [lines [Hl Hp]].
    exists head, lines. split; [assumption|]. split; [|assumption].
    unfold ERDGeneratorTool_generate_plantuml, plantuml_lines.
    rewrite Hh. cbn [bind]. now rewrite Hl.
Qed.

Lemma erd_one_relationship_line_per_pair_witness :
  (exists head lines,
      foldM (mermaid_entity CREATIO_SCHEMA_KNOWLEDGE false)
        ["Contact"; "Account"; "Lead"; "Contact"] ["erDiagram"]
      = Ok head
      /\ ERDGeneratorTool_generate_mermaid CREATIO_SCHEMA_KNOWLEDGE
           ["Contact"; "Account"; "Lead"; "Contact"] false
         = Ok (str_join NL lines)
      /\ one_line_per_pair mermaid_line ["Contact"; "Account"; "Lead"; "Contact"] head lines)
  /\ (exists head lines,
         foldM (plantuml_entity CREATIO_SCHEMA_KNOWLEDGE false)
           ["Contact"; "Account"; "Lead"; "Contact"]
           ["@startuml"; "skinparam linetype ortho"; ""]
         = Ok head
         /\ ERDGeneratorTool_generate_plantuml CREATIO_SCHEMA_KNOWLEDGE
              ["Contact"; "Account"; "Lead"; "Contact"] false
            = Ok (str_join NL (lines +++ [""; "@enduml"]))
         /\ one_line_per_pair plantuml_line ["Contact"; "Account"; "Lead"; "Contact"]
              (head +++ [""]) lines).
Proof.
  apply (erd_one_relationship_line_per_pair ["Contact"; "Account"; "Lead"; "Contact"] false).
  intros e H. simpl in H. simpl. tauto.
Defined.

(** The entity list that [ERDGeneratorTool._run] hands to the generators
    holds stored names only. *)
Lemma parse_entities_stored (entities e : string) :
  In e (parse_entities CREATIO_SCHEMA_KNOWLEDGE entities) ->
  In e (keys CREATIO_SCHEMA_KNOWLEDGE).
Proof.
  unfold parse_entities. intros H. apply in_flat_map in H as [x [_ H]].
  destruct (find_entity CREATIO_SCHEMA_KNOWLEDGE x) as [key|] eqn:E; [|contradiction].
  destruct H as [<- | []]. now apply find_some in E as [E _].
Qed.

Example erd_contact_account_lead :
  ERDGeneratorTool_generate_mermaid CREATIO_SCHEMA_KNOWLEDGE
    ["Contact"; "Account"; "Lead"; "Contact"] false
  = Ok ("erDiagram" ++ NL ++ "    Contact" ++ NL ++ "    Account" ++ NL ++ "    Lead" ++ NL
        ++ "    Contact" ++ NL
        ++ "    Contact }o--|| Account : belongs_to" ++ NL
        ++ "    Contact ||--|| Lead : is" ++ NL
        ++ "    Lead ||--|| Account : is").
Proof. reflexivity. Qed.

(** * Further properties of the tools *)

(** ** schema_tools.py *)

Lemma find_entity_none (kb : list (string * pyval)) (name : string) :
  find_entity kb name = None <-> no_entity_matches kb name.
Proof.
  unfold find_entity, no_entity_matches. split.
  - intros H key Hk E.
    pose proof (find_none _ _ H key Hk) as Hf. simpl in Hf.
    rewrite E, String.eqb_refl in Hf. discriminate.
  - intros H. destruct (find _ (keys kb)) as [key|] eqn:E; [|reflexivity].
    apply find_some in E as [Hk E]. apply String.eqb_eq in E. now contradiction (H key Hk).
Qed.

Lemma find_entity_some (kb : list (string * pyval)) (name key : string) :
  find_entity kb name = Some key -> In key (keys kb) /\ str_lower key = str_lower name.
Proof.
  unfold find_entity. intros H. apply find_some in H as [Hk E].
  split; [assumption | now apply String.eqb_eq].
Qed.

(** A target entity that matches no stored name is ignored: the relationship
    analysis is the one made without a target, and no error is reported. *)
Theorem relationship_unknown_target_ignored (kb : list (string * pyval))
    (source target : string) (depth : Z) :
  no_entity_matches kb target ->
  EntityRelationshipTool_result kb source (Some target) depth
  = EntityRelationshipTool_result kb source None depth.
Proof.
  intros H. apply find_entity_none in H. unfold EntityRelationshipTool_result. cbv zeta.
  destruct (negb (truthy (find_entity kb source))); [reflexivity|].
  destruct (lookup kb _) as [info|]; [|reflexivity]. cbn [bind].
  destruct (dict_get info "relationships" (PList [])) as [rels|]; [|reflexivity]. cbn [bind].
  destruct (as_list rels) as [relationships|]; [|reflexivity]. cbn [bind].
  destruct target as [|c target]; [reflexivity|].
  cbn [truthy opt_text]. now rewrite H.
Qed.

Lemma relationship_unknown_target_ignored_witness :
  EntityRelationshipTool_result CREATIO_SCHEMA_KNOWLEDGE "Contact" (Some "Invoice") 2
  = EntityRelationshipTool_result CREATIO_SCHEMA_KNOWLEDGE "Contact" None 2.
Proof.
  apply (relationship_unknown_target_ignored CREATIO_SCHEMA_KNOWLEDGE "Contact" "Invoice" 2).
  apply find_entity_none. reflexivity.
Defined.

Lemma secondary_paths_length (source related : string) (rel : pyval)
    (secondary paths paths' : list pyval) :
  foldM (secondary_paths source related rel) secondary paths = Ok paths' ->
  length paths' <= length paths + length secondary.
Proof.
  revert paths; induction secondary as [|s secondary IH]; intros paths; simpl.
  - intros [= <-]. lia.
  - destruct (secondary_paths source related rel paths s) as [p1|] eqn:E; [|discriminate].
    cbn [bind]. intros H. apply IH in H.
    assert (length p1 <= S (length paths)); [|lia].
    unfold secondary_paths in E.
    destruct (getitem s "entity") as [se|]; [|discriminate]. cbn [bind] in E.
    destruct (negb (py_eq_str se source)); [|injection E as <-; lia].
    cbn [bind] in E.
    destruct (getitem rel "type"); [|discriminate]. cbn [bind] in E.
    destruct (getitem s "type"); [|discriminate]. cbn [bind] in E.
    injection E as <-. rewrite length_app. simpl. lia.
Qed.

Lemma relationship_paths_length (kb : list (string * pyval)) (source : string)
    (relationships paths paths' : list pyval) :
  foldM (relationship_paths kb source) relationships paths = Ok paths' ->
  length paths' <= length paths + 3 * length relationships.
Proof.
  revert paths; induction relationships as [|r relationships IH]; intros paths; simpl.
  - intros [= <-]. lia.
  - destruct (relationship_paths kb source paths r) as [p1|] eqn:E; [|discriminate].
    cbn [bind]. intros H. apply IH in H.
    assert (length p1 <= length paths + 3); [|lia].
    unfold relationship_paths in E.
    destruct (get_str r "entity") as [related|]; [|discriminate]. cbn [bind] in E.
    destruct (list_in related (keys kb)); [|injection E as <-; lia].
    destruct (lookup kb related) as [info|]; [|discriminate]. cbn [bind] in E.
    destruct (dict_get info "relationships" (PList [])) as [sec|]; [|discriminate].
    cbn [bind] in E.
    destruct (as_list sec) as [secondary|]; [|discriminate]. cbn [bind] in E.
    apply secondary_paths_length in E.
    pose proof (firstn_le_length 3 secondary). rewrite length_firstn in E. lia.
Qed.

(** The relationship analysis lists at most three paths for each direct
    relationship, and none when the depth asked for is 1 or less. *)
Theorem relationship_paths_bounded (kb : list (string * pyval)) (source : string)
    (target : option string) (depth : Z) (d : pyval) :
  EntityRelationshipTool_result kb source target depth = Ok d ->
  field "success" d = Some (PBool true) ->
  exists direct paths,
    field_list "direct_relationships" d = Some direct
    /\ field_list "relationship_paths" d = Some paths
    /\ length paths <= 3 * length direct
    /\ ((depth <= 1)%Z -> paths = []).
Proof.
  unfold EntityRelationshipTool_result. cbv zeta.
  destruct (negb (truthy (find_entity kb source))).
  { intros [= <-]. discriminate. }
  destruct (lookup kb _) as [info|]; [|discriminate]. cbn [bind].
  destruct (dict_get info "relationships" (PList [])) as [rels|]; [|discriminate].
  cbn [bind].
  destruct (as_list rels) as [relationships|]; [|discriminate]. cbn [bind].
  destruct (if truthy target then _ else _) as [direct|]; [|discriminate]. cbn [bind].
  destruct (depth >? 1)%Z eqn:Hd.
  - destruct (foldM _ direct []) as [paths|] eqn:E; [|discriminate]. cbn [bind].
    intros [= <-] _. exists direct, paths. repeat split.
    + apply relationship_paths_length in E. simpl in E. lia.
    + intros Hle. apply Z.gtb_lt in Hd. lia.
  - cbn [bind]. intros [= <-] _. exists direct, []. repeat split. simpl. lia.
Qed.

Lemma relationship_paths_bounded_witness :
  exists d direct paths,
    EntityRelationshipTool_result CREATIO_SCHEMA_KNOWLEDGE "sysadminunit" (Some "contact") 2
    = Ok d
    /\ field_list "direct_relationships" d = Some direct
    /\ field_list "relationship_paths" d = Some paths
    /\ length paths <= 3 * length direct
    /\ ((2 <= 1)%Z -> paths = []).
Proof.
  destruct (EntityRelationshipTool_result CREATIO_SCHEMA_KNOWLEDGE "sysadminunit"
              (Some "contact") 2) as [d|] eqn:E; [|vm_compute in E; discriminate].
  destruct (relationship_paths_bounded _ _ _ _ d E) as [direct [paths H]].
  - vm_compute in E. injection E as <-. reflexivity.
  - exists d, direct, paths. split; [reflexivity | exact H].
Defined.

Lemma list_in_false (x : string) (l : list string) : ~ In x l -> list_in x l = false.
Proof.
  intros H. destruct (list_in x l) eqn:E; [|reflexivity].
  apply list_in_spec in E. contradiction.
Qed.

Lemma search_entity_scope (term scope : string) (m m' : Matches) (item : string * pyval) :
  search_entity term scope m item = Ok m' ->
  (list_in scope ["all"; "entities"] = false -> m_entities m' = m_entities m)
  /\ (list_in scope ["all"; "columns"] = false -> m_columns m' = m_columns m)
  /\ (list_in scope ["all"; "relationships"] = false
      -> m_relationships m' = m_relationships m).
Proof.
  unfold search_entity. destruct item as [name info].
  destruct (list_in scope ["all"; "entities"]) eqn:E1;
    destruct (list_in scope ["all"; "columns"]) eqn:E2;
    destruct (list_in scope ["all"; "relationships"]) eqn:E3;
    repeat match goal with
           | |- context [bind ?c _] =>
               match c with
               | Ok _ => cbn [bind]
               | _ => destruct c; [cbn [bind] | discriminate]
               end
           end;
    intros [= <-]; repeat split; intros; try discriminate; reflexivity.
Qed.

Lemma search_fold_scope (term scope : string) (kb : list (string * pyval))
    (m m' : Matches) :
  foldM (search_entity term scope) kb m = Ok m' ->
  (list_in scope ["all"; "entities"] = false -> m_entities m' = m_entities m)
  /\ (list_in scope ["all"; "columns"] = false -> m_columns m' = m_columns m)
  /\ (list_in scope ["all"; "relationships"] = false
      -> m_relationships m' = m_relationships m).
Proof.
  revert m; induction kb as [|item kb IH]; intros m; simpl.
  - intros [= <-]. auto.
  - destruct (search_entity term scope m item) as [m1|] eqn:E; [|discriminate]. cbn [bind].
    intros H. apply IH in H. apply search_entity_scope in E.
    destruct H as [H1 [H2 H3]], E as [E1 [E2 E3]].
    repeat split; intros Hs; [rewrite H1, E1 | rewrite H2, E2 | rewrite H3, E3]; auto.
Qed.

(** Each of the three match lists of the schema search stays empty unless
    the scope is ['all'] or the name of the list; a scope that is none of
    the four gives no match and no error. *)
Theorem search_scope_limits_matches (kb : list (string * pyval))
    (term scope : string) (d : pyval) :
  SchemaSearchTool_result kb term scope = Ok d ->
  (~ In scope ["all"; "entities"] -> path ["matches"; "entities"] d = Some (PList []))
  /\ (~ In scope ["all"; "columns"] -> path ["matches"; "columns"] d = Some (PList []))
  /\ (~ In scope ["all"; "relationships"]
      -> path ["matches"; "relationships"] d = Some (PList [])).
Proof.
  unfold SchemaSearchTool_result. cbv zeta.
  destruct (foldM _ kb _) as [m|] eqn:E; [|discriminate]. cbn [bind]. intros [= <-].
  apply search_fold_scope in E. destruct E as [E1 [E2 E3]]. simpl in E1, E2, E3.
  repeat split; intros H; apply list_in_false in H; cbn;
    [rewrite (E1 H) | rewrite (E2 H) | rewrite (E3 H)]; reflexivity.
Qed.

Lemma search_scope_limits_matches_witness :
  exists d,
    SchemaSearchTool_result CREATIO_SCHEMA_KNOWLEDGE "account" "tables" = Ok d
    /\ (~ In "tables" ["all"; "entities"]
        -> path ["matches"; "entities"] d = Some (PList []))
    /\ (~ In "tables" ["all"; "columns"]
        -> path ["matches"; "columns"] d = Some (PList []))
    /\ (~ In "tables" ["all"; "relationships"]
        -> path ["matches"; "relationships"] d = Some (PList [])).
Proof.
  destruct (SchemaSearchTool_result CREATIO_SCHEMA_KNOWLEDGE "account" "tables")
    as [d|] eqn:E; [|vm_compute in E; discriminate].
  exists d. split; [reflexivity|].
  exact (search_scope_limits_matches _ _ _ d E).
Defined.

Lemma search_entity_entities (term : string) (m : Matches) (name : string) (info : pyval) :
  is_entity_info info ->
  search_entity (str_lower term) "entities" m (name, info)
  = Ok (mkMatches
          (m_entities m +++ (if entity_hit term (name, info)
                             then [entity_match (name, info)] else []))
          (m_columns m) (m_relationships m)).
Proof.
  intros [description [table [Hd Ht]]]. unfold search_entity, entity_hit, entity_match.
  change (list_in "entities" ["all"; "entities"]) with true.
  change (list_in "entities" ["all"; "columns"]) with false.
  change (list_in "entities" ["all"; "relationships"]) with false.
  assert (Hf : text_field "description" info = description
               /\ text_field "table_name" info = table).
  { unfold text_field, field. destruct info; try discriminate. simpl in Hd, Ht.
    unfold lookup in Hd, Ht.
    destruct (assoc "description" d) as [x|]; [|discriminate]. injection Hd as ->.
    destruct (assoc "table_name" d) as [y|]; [|discriminate]. injection Ht as ->.
    now split. }
  cbn [fst snd]. destruct Hf as [-> ->].
  unfold get_str. rewrite Hd. cbn [bind as_str or_else].
  destruct (str_in (str_lower term) (str_lower name)); cbn [or_else orb bind].
  - rewrite ?Hd, ?Ht. reflexivity.
  - destruct (str_in (str_lower term) (str_lower description)); cbn [bind].
    + rewrite ?Hd. cbn [bind]. rewrite ?Ht. reflexivity.
    + now rewrite app_nil_r.
Qed.

Lemma search_fold_entities (term : string) (kb : list (string * pyval)) (m : Matches) :
  Forall (fun entry => is_entity_info (snd entry)) kb ->
  foldM (search_entity (str_lower term) "entities") kb m
  = Ok (mkMatches (m_entities m +++ map entity_match (filter (entity_hit term) kb))
                  (m_columns m) (m_relationships m)).
Proof.
  intros H; revert m; induction H as [|[name info] kb Hi _ IH]; intros m; cbn [foldM].
  - destruct m; simpl. now rewrite app_nil_r.
  - rewrite (search_entity_entities term m name info Hi). cbn [bind]. rewrite IH.
    cbn [m_entities m_columns m_relationships filter].
    destruct (entity_hit term (name, info)); cbn [map].
    + now rewrite <- app_assoc.
    + now rewrite app_nil_r.
Qed.

Lemma stored_entity_infos :
  Forall (fun entry => is_entity_info (snd entry)) CREATIO_SCHEMA_KNOWLEDGE.
Proof.
  repeat (apply Forall_cons; [eexists; eexists; split; reflexivity|]). apply Forall_nil.
Qed.

(** With scope ['entities'] the schema search lists, in table order,
    exactly the stored entities whose name or description contains the
    search term, letter case ignored on both sides. *)
Theorem entity_search_exact (term : string) :
  exists d,
    SchemaSearchTool_result CREATIO_SCHEMA_KNOWLEDGE term "entities" = Ok d
    /\ path ["matches"; "entities"] d
       = Some (PList (map entity_match
                          (filter (entity_hit term) CREATIO_SCHEMA_KNOWLEDGE)))
    /\ path ["summary"; "entities_found"] d
       = Some (PLen (filter (entity_hit term) CREATIO_SCHEMA_KNOWLEDGE)).
Proof.
  unfold SchemaSearchTool_result. cbv zeta.
  rewrite (search_fold_entities term _ _ stored_entity_infos). cbn [bind].
  eexists. split; [reflexivity|]. split; [reflexivity|].
  cbn. unfold PLen. now rewrite length_map.
Qed.

Example entity_search_activity :
  map fst (filter (entity_hit "ACTIVIT") CREATIO_SCHEMA_KNOWLEDGE) = ["Activity"].
Proof. reflexivity. Qed.

(** The schema explorer always returns; it reports the entity as not found
    exactly when no stored name equals the stripped name, letter case
    ignored, and otherwise it succeeds. *)
Theorem schema_explorer_found_iff (name : string) (rels : bool) :
  exists d,
    SchemaExplorerTool_result CREATIO_SCHEMA_KNOWLEDGE name rels = Ok d
    /\ (field "success" d = Some (PBool false)
        <-> no_entity_matches CREATIO_SCHEMA_KNOWLEDGE (str_strip name))
    /\ (field "success" d = Some (PBool true)
        <-> ~ no_entity_matches CREATIO_SCHEMA_KNOWLEDGE (str_strip name)).
Proof.
  unfold SchemaExplorerTool_result. cbv zeta.
  destruct (find_entity CREATIO_SCHEMA_KNOWLEDGE (str_strip name)) as [key|] eqn:E.
  - apply find_entity_some in E as [Hk Hl].
    assert (Hn : ~ no_entity_matches CREATIO_SCHEMA_KNOWLEDGE (str_strip name))
      by (intros H; exact (H key Hk Hl)).
    each_entity Hk; destruct rels;
      (eexists; split; [vm_compute; reflexivity|]); cbn;
      (split; split; intros H;
       first [discriminate | contradiction | exact Hn | reflexivity]).
  - apply find_entity_none in E. cbn [truthy negb].
    eexists. split; [reflexivity|]. cbn.
    split; split; intros H;
      first [discriminate | assumption | reflexivity | contradiction].
Qed.

(** In a successful result of the schema explorer [column_count] and
    [relationship_count] are the lengths of the lists shown, and the
    relationships are shown only when asked for. *)
Theorem schema_explorer_counts (name : string) (rels : bool) (d : pyval) :
  SchemaExplorerTool_result CREATIO_SCHEMA_KNOWLEDGE name rels = Ok d ->
  field "success" d = Some (PBool true) ->
  (exists columns,
      field_list "columns" d = Some columns
      /\ field "column_count" d = Some (PLen columns))
  /\ (rels = true ->
      exists relationships,
        field_list "relationships" d = Some relationships
        /\ field "relationship_count" d = Some (PLen relationships))
  /\ (rels = false ->
      field "relationships" d = None /\ field "relationship_count" d = None).
Proof.
  unfold SchemaExplorerTool_result. cbv zeta.
  destruct (find_entity CREATIO_SCHEMA_KNOWLEDGE (str_strip name)) as [key|] eqn:E.
  - apply find_entity_some in E as [Hk _].
    each_entity Hk; destruct rels; vm_compute; intros [= <-] _;
      (split; [eexists; split; reflexivity|]); split; intros; try discriminate;
      try (eexists; split; reflexivity); split; reflexivity.
  - cbn [truthy negb]. intros [= <-]. discriminate.
Qed.

Lemma schema_explorer_counts_witness :
  exists d,
    SchemaExplorerTool_result CREATIO_SCHEMA_KNOWLEDGE "lead" false = Ok d
    /\ (exists columns,
           field_list "columns" d = Some columns
           /\ field "column_count" d = Some (PLen columns))
    /\ (false = true ->
        exists relationships,
          field_list "relationships" d = Some relationships
          /\ field "relationship_count" d = Some (PLen relationships))
    /\ (false = false ->
        field "relationships" d = None /\ field "relationship_count" d = None).
Proof.
  destruct (SchemaExplorerTool_result CREATIO_SCHEMA_KNOWLEDGE "lead" false)
    as [d|] eqn:E; [|vm_compute in E; discriminate].
  exists d. split; [reflexivity|].
  apply (schema_explorer_counts "lead" false d E).
  vm_compute in E. injection E as <-. reflexivity.
Defined.

(** ** metrics_tools.py *)

(** A category that is not a key of the library is not an error for the
    KPI library tool: it succeeds with no KPI, and echoes the category as
    searched. *)
Theorem kpi_library_unknown_category (lib : list (string * pyval))
    (category : string) (search : option string) :
  category <> "" ->
  ~ In category (keys lib) ->
  KPILibraryTool_result lib (Some category) search
  = Ok (PDict
          [("success", PBool true);
           ("filter", PDict [("category", PStr category); ("search_term", POpt search)]);
           ("kpis", PList []);
           ("summary",
            PDict [("total_kpis_found", PInt 0);
                   ("categories_searched", PStrs [category]);
                   ("available_categories", PStrs (keys lib))])]).
Proof.
  intros Hc Hn. unfold KPILibraryTool_result.
  destruct category as [|c category]; [contradiction|].
  cbn [truthy opt_text foldM]. unfold library_category.
  rewrite (list_in_false _ _ Hn). reflexivity.
Qed.

Lemma kpi_library_unknown_category_witness :
  KPILibraryTool_result CRM_KPI_LIBRARY (Some "finance") (Some "rate")
  = Ok (PDict
          [("success", PBool true);
           ("filter", PDict [("category", PStr "finance"); ("search_term", PStr "rate")]);
           ("kpis", PList []);
           ("summary",
            PDict [("total_kpis_found", PInt 0);
                   ("categories_searched", PStrs ["finance"]);
                   ("available_categories", PStrs (keys CRM_KPI_LIBRARY))])]).
Proof.
  apply (kpi_library_unknown_category CRM_KPI_LIBRARY "finance" (Some "rate")).
  - discriminate.
  - simpl. intuition discriminate.
Defined.

Lemma assoc_present {A : Type} (k : string) (d : list (string * A)) :
  In k (keys d) -> exists v, assoc k d = Some v /\ In (k, v) d.
Proof.
  induction d as [|[k' v] d IH]; simpl; [contradiction|].
  intros H. destruct (String.eqb_spec k k') as [->|Hne].
  - exists v. split; [reflexivity | now left].
  - destruct H as [H|H]; [congruence|].
    destruct (IH H) as [w [Hw Hin]]. exists w. split; [assumption | now right].
Qed.

(** One turn of the library loop on a well-formed record: the record is
    shown when the search term hits it. *)
Lemma library_kpi_shown (cat : string) (search : option string) (acc : list pyval)
    (kid : string) (info : pyval) :
  is_kpi_info info ->
  library_kpi cat search acc (kid, info)
  = Ok (acc +++ map library_record (filter (library_hit search) [(cat, kid, info)])).
Proof.
  intros [d [name [description [unit [frequency [-> [Hn [Hd [Hu Hf]]]]]]]]].
  unfold library_kpi, library_hit, kpi_hit, get_str, getitem, lookup, text_field, field.
  cbn [filter snd fst]. rewrite Hn, Hd, Hu, Hf. cbn [bind as_str].
  destruct (truthy search).
  - destruct (str_in (str_lower (opt_text search)) (str_lower name)); cbn [negb bind orb].
    + unfold library_record, kpi_id_of, value_field, field. cbn [map fst snd].
      now rewrite Hn, Hd, Hu, Hf.
    + destruct (str_in (str_lower (opt_text search)) (str_lower description));
        cbn [negb bind map].
      * unfold library_record, kpi_id_of, value_field, field. cbn [map fst snd].
        now rewrite Hn, Hd, Hu, Hf.
      * now rewrite app_nil_r.
  - cbn [bind]. unfold library_record, kpi_id_of, value_field, field. cbn [map fst snd].
    now rewrite Hn, Hd, Hu, Hf.
Qed.

Lemma library_kpis_shown (cat : string) (search : option string)
    (metrics : list (string * pyval)) (acc : list pyval) :
  Forall (fun m => is_kpi_info (snd m)) metrics ->
  foldM (library_kpi cat search) metrics acc
  = Ok (acc +++ map library_record
                  (filter (library_hit search) (map (fun m => (cat, fst m, snd m)) metrics))).
Proof.
  intros H. revert acc. induction H as [|[kid info] metrics Hi _ IH]; intros acc.
  - cbn. now rewrite app_nil_r.
  - cbn [foldM]. rewrite (library_kpi_shown cat search acc kid info Hi). cbn [bind].
    rewrite IH. cbn [map fst snd].
    change ((cat, kid, info) :: map (fun m => (cat, fst m, snd m)) metrics)
      with ([(cat, kid, info)] +++ map (fun m => (cat, fst m, snd m)) metrics).
    now rewrite filter_app, map_app, app_assoc.
Qed.

Lemma library_categories_shown (lib : list (string * pyval)) (search : option string)
    (cats : list string) (acc : list pyval) :
  Forall (fun e => is_kpi_category (snd e)) lib ->
  foldM (library_category lib search) cats acc
  = Ok (acc +++ map library_record (filter (library_hit search) (kpis_of lib cats))).
Proof.
  intros Hlib. revert acc. induction cats as [|cat cats IH]; intros acc.
  - cbn. now rewrite app_nil_r.
  - cbn [foldM]. unfold kpis_of. cbn [flat_map]. fold (kpis_of lib cats).
    rewrite filter_app, map_app, app_assoc. unfold library_category at 1.
    destruct (list_in cat (keys lib)) eqn:Hin; cbn [negb].
    + apply list_in_spec in Hin. destruct (assoc_present cat lib Hin) as [v [Hv Hm]].
      unfold lookup. rewrite Hv. cbn [bind].
      rewrite Forall_forall in Hlib. destruct (Hlib _ Hm) as [metrics [Hd Hms]].
      cbn [snd] in Hd. subst v. cbn [items as_dict bind].
      rewrite (library_kpis_shown cat search metrics acc Hms). cbn [bind]. apply IH.
    + assert (Hn : assoc cat lib = None).
      { apply assoc_absent. intros Hc. apply list_in_spec in Hc. congruence. }
      rewrite Hn. cbn [bind filter map]. rewrite app_nil_r. apply IH.
Qed.

Lemma stored_kpi_categories :
  Forall (fun e => is_kpi_category (snd e)) CRM_KPI_LIBRARY.
Proof.
  unfold CRM_KPI_LIBRARY.
  repeat (apply Forall_cons;
          [eexists; split; [reflexivity|];
           repeat (apply Forall_cons;
                   [do 5 eexists; split; [reflexivity|]; repeat split; reflexivity|]);
           apply Forall_nil|]).
  apply Forall_nil.
Qed.

(** The KPI library tool never raises on the stored library, and lists
    exactly the records of the searched categories whose name or
    description contains the search term, letter case ignored, in the order
    of the library; [total_kpis_found] is their number. *)
Theorem kpi_library_exact (category search : option string) :
  let cats := if truthy category then [opt_text category] else keys CRM_KPI_LIBRARY in
  let found := filter (library_hit search) (kpis_of CRM_KPI_LIBRARY cats) in
  exists d,
    returns_with_success true (KPILibraryTool_result CRM_KPI_LIBRARY category search) d
    /\ field "kpis" d = Some (PList (map library_record found))
    /\ path ["summary"; "total_kpis_found"] d = Some (PLen found).
Proof.
  intros cats found. unfold KPILibraryTool_result, returns_with_success.
  fold cats. rewrite (library_categories_shown _ search cats [] stored_kpi_categories).
  cbn [bind app]. fold found. eexists. split; [split; reflexivity|].
  split; [reflexivity|]. cbn. unfold PLen. now rewrite length_map.
Qed.

Example kpi_library_search_churn :
  exists d,
    KPILibraryTool_result CRM_KPI_LIBRARY None (Some "CHURN") = Ok d
    /\ path ["summary"; "total_kpis_found"] d = Some (PInt 1).
Proof. eexists. split; [vm_compute; reflexivity | reflexivity]. Qed.

Lemma kpis_of_stored (lib : list (string * pyval)) (cats : list string)
    (k : string * string * pyval) :
  In k (kpis_of lib cats) -> In (kpi_id_of k) (kpi_ids lib).
Proof.
  unfold kpis_of, kpi_ids. intros H. apply in_flat_map in H as [cat [_ H]].
  destruct (assoc cat lib) as [[| | | | |metrics]|] eqn:E; try contradiction.
  apply assoc_In in E. apply in_map_iff in H as [m [<- Hm]].
  apply in_flat_map. exists (cat, PDict metrics). split; [assumption|].
  cbn [snd fst]. apply in_map_iff. now exists m.
Qed.

Lemma calculator_accepts_stored (id : string) :
  In id (kpi_ids CRM_KPI_LIBRARY) -> calculator_accepts CRM_KPI_LIBRARY id.
Proof.
  intros Hid time_period group_by. unfold returns_with_success.
  each_id Hid;
    (eexists; split; [split; [vm_compute; reflexivity | reflexivity] | reflexivity]).
Qed.

(** Every identifier that the KPI library tool lists is accepted by the
    metric calculator, for every time period and grouping. *)
Theorem kpi_library_ids_are_calculable (category search : option string) :
  exists d shown,
    KPILibraryTool_result CRM_KPI_LIBRARY category search = Ok d
    /\ field_list "kpis" d = Some shown
    /\ Forall (fun rec => exists id,
                   field "id" rec = Some (PStr id)
                   /\ calculator_accepts CRM_KPI_LIBRARY id) shown.
Proof.
  unfold KPILibraryTool_result.
  rewrite (library_categories_shown _ search _ [] stored_kpi_categories).
  cbn [bind app]. eexists. eexists. split; [reflexivity|]. split; [reflexivity|].
  apply Forall_forall. intros rec Hrec. apply in_map_iff in Hrec as [k [<- Hk]].
  apply filter_In in Hk as [Hk _]. exists (kpi_id_of k). split; [reflexivity|].
  apply calculator_accepts_stored. exact (kpis_of_stored _ _ k Hk).
Qed.

Lemma str_split_length (c : ascii) (s : string) :
  length (str_split c s) = S (str_count c s).
Proof.
  induction s as [|a s IH]; [reflexivity|]. cbn [str_split str_count].
  destruct (Ascii.eqb a c).
  - cbn [length]. now rewrite IH.
  - destruct (str_split c s) as [|h t]; [discriminate|]. exact IH.
Qed.

Lemma str_split_one (c : ascii) (s b : string) : str_split c s = [b] -> s = b.
Proof.
  revert b. induction s as [|x s IH]; intros b; cbn [str_split].
  - now intros [= <-].
  - destruct (Ascii.eqb x c).
    + intros [= _ H]. destruct s; cbn [str_split] in H; [discriminate|].
      destruct (Ascii.eqb _ c); [discriminate|].
      destruct (str_split c s); discriminate.
    + pose proof (str_split_length c s) as Hl.
      destruct (str_split c s) as [|h t]; [discriminate|].
      intros [= <- ->]. f_equal. now apply IH.
Qed.

Lemma str_split_two (c : ascii) (s a b : string) :
  str_split c s = [a; b] -> s = a ++ String c b.
Proof.
  revert a. induction s as [|x s IH]; intros a; cbn [str_split]; [discriminate|].
  destruct (Ascii.eqb_spec x c) as [->|_].
  - intros [= <- Hs]. cbn. f_equal. now apply str_split_one with c.
  - destruct (str_split c s) as [|h t] eqn:E; [discriminate|].
    intros [= <- ->]. cbn. f_equal. now apply IH.
Qed.

(** An identifier that does not have exactly one dot is answered with the
    format error, whatever the library holds. *)
Theorem calculator_rejects_malformed_id (lib : list (string * pyval))
    (metric_id time_period : string) (group_by : option string) :
  str_count "." metric_id <> 1 ->
  MetricCalculatorTool_result lib metric_id time_period group_by
  = Ok (PDict
          [("success", PBool false);
           ("error",
            PStr "Invalid metric_id format. Use 'category.metric_name' (e.g., 'sales.win_rate')");
           ("available_categories", PStrs (keys lib))]).
Proof.
  intros H. unfold MetricCalculatorTool_result. cbv zeta.
  pose proof (str_split_length "." metric_id) as Hl.
  destruct (str_split "." metric_id) as [|a [|b [|x l]]]; try reflexivity.
  cbn in Hl. congruence.
Qed.

Lemma calculator_rejects_malformed_id_witness :
  MetricCalculatorTool_result CRM_KPI_LIBRARY "sales.win_rate.monthly" "ytd" None
  = Ok (PDict
          [("success", PBool false);
           ("error",
            PStr "Invalid metric_id format. Use 'category.metric_name' (e.g., 'sales.win_rate')");
           ("available_categories", PStrs (keys CRM_KPI_LIBRARY))]).
Proof.
  apply (calculator_rejects_malformed_id CRM_KPI_LIBRARY "sales.win_rate.monthly" "ytd" None).
  simpl. lia.
Defined.

Lemma kpi_id_stored (lib : list (string * pyval)) (cat kid : string)
    (metrics : list (string * pyval)) :
  In (cat, PDict metrics) lib -> In kid (keys metrics) ->
  In (cat ++ "." ++ kid) (kpi_ids lib).
Proof.
  intros Hc Hk. unfold kpi_ids. apply in_flat_map. exists (cat, PDict metrics).
  split; [assumption|]. cbn [snd fst]. apply in_map_iff in Hk as [m [<- Hm]].
  apply in_map_iff. now exists m.
Qed.

Lemma stored_ids_have_one_dot (id : string) :
  In id (kpi_ids CRM_KPI_LIBRARY) ->
  exists cat m, str_split "." id = [cat; m]
                /\ list_in cat (keys CRM_KPI_LIBRARY) = true
                /\ exists ms, lookup CRM_KPI_LIBRARY cat = Ok (PDict ms)
                              /\ list_in m (keys ms) = true.
Proof.
  intros Hid. each_id Hid;
    (eexists; eexists; split; [reflexivity|]; split; [reflexivity|];
     eexists; split; reflexivity).
Qed.

(** On the stored library the metric calculator never raises, and it
    succeeds exactly on the stored identifiers, spelled as stored. *)
Theorem calculator_succeeds_iff_stored (metric_id time_period : string)
    (group_by : option string) :
  exists d,
    MetricCalculatorTool_result CRM_KPI_LIBRARY metric_id time_period group_by = Ok d
    /\ (field "success" d = Some (PBool true) <-> In metric_id (kpi_ids CRM_KPI_LIBRARY))
    /\ (field "success" d = Some (PBool false)
        <-> ~ In metric_id (kpi_ids CRM_KPI_LIBRARY)).
Proof.
  destruct (in_dec string_dec metric_id (kpi_ids CRM_KPI_LIBRARY)) as [Hin|Hout].
  - destruct (calculator_accepts_stored metric_id Hin time_period group_by)
      as [r [[Hr Hs] _]].
    exists r. split; [assumption|]. rewrite Hs. split; split; try tauto; discriminate.
  - assert (Hfail : exists d,
               MetricCalculatorTool_result CRM_KPI_LIBRARY metric_id time_period group_by
               = Ok d /\ field "success" d = Some (PBool false)).
    { unfold MetricCalculatorTool_result. cbv zeta.
      destruct (str_split "." metric_id) as [|cat [|m [|x l]]] eqn:E;
        try (eexists; split; reflexivity).
      destruct (list_in cat (keys CRM_KPI_LIBRARY)) eqn:Hc; cbn [negb];
        [|eexists; split; reflexivity].
      apply list_in_spec in Hc. destruct (assoc_present cat _ Hc) as [v [Hv Hm]].
      unfold lookup. rewrite Hv. cbn [bind].
      pose proof stored_kpi_categories as Hlib. rewrite Forall_forall in Hlib.
      destruct (Hlib _ Hm) as [ms [Hd _]]. cbn [snd] in Hd. subst v.
      cbn [as_dict bind].
      destruct (list_in m (keys ms)) eqn:Hk; cbn [negb]; [|eexists; split; reflexivity].
      exfalso. apply Hout. apply list_in_spec in Hk.
      rewrite (str_split_two _ _ _ _ E).
      exact (kpi_id_stored _ cat m ms Hm Hk). }
    destruct Hfail as [d [Hd Hs]]. exists d. split; [assumption|]. rewrite Hs.
    split; split; try tauto; discriminate.
Qed.

Lemma date_filter_total (time_period : string) :
  exists f, MetricCalculatorTool_get_date_filter time_period = Ok f.
Proof. unfold MetricCalculatorTool_get_date_filter. cbn. eexists. reflexivity. Qed.

(** For a KPI whose unit is [currency] and whose name contains
    [pipeline], the generated SQL is one fixed text: the time period and
    the grouping do not reach it. *)
Theorem pipeline_query_ignores_period (kpi : pyval) (name : string) (e : pyval)
    (es : list pyval) (time_period : string) (group_by : option string) :
  getitem kpi "unit" = Ok (PStr "currency") ->
  getitem kpi "name" = Ok (PStr name) ->
  str_in "pipeline" (str_lower name) = true ->
  getitem kpi "entities" = Ok (PList (e :: es)) ->
  MetricCalculatorTool_generate_calculation_query kpi time_period group_by = Ok pipeline_sql.
Proof.
  intros Hu Hn Hp He. unfold MetricCalculatorTool_generate_calculation_query, get_list.
  rewrite He. cbn [bind as_list].
  destruct (date_filter_total time_period) as [f ->]. cbn [bind].
  unfold rate_query. rewrite Hu. cbn [bind py_eq_str String.eqb Ascii.eqb Bool.eqb].
  unfold currency_query, get_str. rewrite Hu, Hn.
  cbn [bind py_eq_str String.eqb Ascii.eqb Bool.eqb as_str]. rewrite Hp. reflexivity.
Qed.

Lemma pipeline_query_ignores_period_witness :
  MetricCalculatorTool_generate_calculation_query
    (PDict [("name", PStr "Pipeline Value"); ("unit", PStr "currency");
            ("entities", PStrs ["Opportunity"])]) "today" (Some "OwnerId")
  = Ok pipeline_sql.
Proof.
  apply (pipeline_query_ignores_period _ "Pipeline Value" (PStr "Opportunity") []);
    reflexivity.
Defined.

Lemma suggest_kpi_shown (metric_name cat : string) (acc : list pyval) (kid : string)
    (info : pyval) :
  is_kpi_info info ->
  suggest_kpi (str_lower metric_name) cat acc (kid, info)
  = Ok (acc +++ map kpi_suggestion (filter (kpi_hit metric_name) [(cat, kid, info)])).
Proof.
  intros [d [name [description [unit [frequency [-> [Hn [Hd _]]]]]]]].
  unfold suggest_kpi, kpi_hit, get_str, getitem, lookup, text_field, field.
  cbn [filter snd fst]. rewrite Hn, Hd. cbn [bind as_str].
  destruct (str_in (str_lower metric_name) (str_lower name)); cbn [or_else bind orb].
  - unfold kpi_suggestion, kpi_id_of, value_field, field. cbn [map fst snd].
    now rewrite Hn, Hd.
  - destruct (str_in (str_lower metric_name) (str_lower description)); cbn [map].
    + unfold kpi_suggestion, kpi_id_of, value_field, field. cbn [map fst snd].
      now rewrite Hn, Hd.
    + now rewrite app_nil_r.
Qed.

Lemma suggest_category_shown (metric_name cat : string) (metrics : list (string * pyval))
    (acc : list pyval) :
  Forall (fun m => is_kpi_info (snd m)) metrics ->
  foldM (suggest_kpi (str_lower metric_name) cat) metrics acc
  = Ok (acc +++ map kpi_suggestion
                  (filter (kpi_hit metric_name) (map (fun m => (cat, fst m, snd m)) metrics))).
Proof.
  intros H. revert acc. induction H as [|[kid info] metrics Hi _ IH]; intros acc.
  - cbn. now rewrite app_nil_r.
  - cbn [foldM]. rewrite (suggest_kpi_shown metric_name cat acc kid info Hi). cbn [bind].
    rewrite IH. cbn [map fst snd].
    change ((cat, kid, info) :: map (fun m => (cat, fst m, snd m)) metrics)
      with ([(cat, kid, info)] +++ map (fun m => (cat, fst m, snd m)) metrics).
    now rewrite filter_app, map_app, app_assoc.
Qed.

Lemma suggest_library_shown (metric_name : string) (lib : list (string * pyval))
    (acc : list pyval) :
  Forall (fun e => is_kpi_category (snd e)) lib ->
  foldM (suggest_kpis (str_lower metric_name)) lib acc
  = Ok (acc +++ map kpi_suggestion (filter (kpi_hit metric_name) (all_kpis lib))).
Proof.
  intros H. revert acc. induction H as [|[cat v] lib [metrics [Hd Hms]] _ IH]; intros acc.
  - cbn. now rewrite app_nil_r.
  - cbn [snd] in Hd. subst v. cbn [foldM]. unfold suggest_kpis at 1.
    cbn [items as_dict bind].
    rewrite (suggest_category_shown metric_name cat metrics acc Hms). cbn [bind].
    rewrite IH. unfold all_kpis. cbn [flat_map snd fst].
    now rewrite filter_app, map_app, app_assoc.
Qed.

(** The metric definition tool never raises on the stored library; the
    similar KPIs it shows are the first five stored records, in the order
    of the library, whose name or description contains the metric name,
    letter case ignored. *)
Theorem metric_definition_similar_kpis (metric_name business_context : string)
    (target_entity : option string) :
  exists d,
    returns_with_success true
      (MetricDefinitionTool_result CRM_KPI_LIBRARY metric_name business_context
         target_entity) d
    /\ field "similar_existing_kpis" d
       = Some (PList (firstn 5 (map kpi_suggestion
                                  (filter (kpi_hit metric_name)
                                     (all_kpis CRM_KPI_LIBRARY))))).
Proof.
  unfold MetricDefinitionTool_result, returns_with_success. cbv zeta.
  rewrite (suggest_library_shown metric_name _ [] stored_kpi_categories).
  cbn [bind app]. eexists. split; [split; reflexivity | reflexivity].
Qed.

Example metric_definition_rate :
  exists d shown,
    MetricDefinitionTool_result CRM_KPI_LIBRARY "Rate" "board report" None = Ok d
    /\ field_list "similar_existing_kpis" d = Some shown
    /\ map (field "id") shown
       = map (fun id => Some (PStr id))
           ["sales.win_rate"; "sales.lead_conversion_rate"; "sales.opportunity_velocity";
            "marketing.cost_per_lead"; "customer_service.sla_compliance"].
Proof. eexists. eexists. split; [vm_compute; reflexivity|]. split; reflexivity. Qed.

Lemma widget_step_stored (lib : list (string * pyval)) (all : list string) (i i' : nat)
    (ws ws' : list pyval) (kpi_id : string) :
  In kpi_id all ->
  Forall (widget_for lib all) ws ->
  widget_step lib (i, ws) kpi_id = Ok (i', ws') ->
  Forall (widget_for lib all) ws' /\ length ws' <= S (length ws).
Proof.
  intros Hall Hws. unfold widget_step.
  destruct (str_split "." kpi_id) as [|cat [|m [|x l]]] eqn:E;
    try (intros [= <- <-]; split; [assumption | lia]).
  unfold kpi_info_of, dict_get at 1. cbn [bind].
  destruct (assoc cat lib) as [v|] eqn:Hc.
  - destruct v as [| | | | |ms]; try discriminate. unfold dict_get at 1. cbn [bind].
    destruct (assoc m ms) as [info|] eqn:Hm.
    + destruct (negb (py_truthy info)); [intros [= <- <-]; split; [assumption | lia]|].
      destruct (dict_get info "unit" PNone) as [unit|]; [|discriminate]. cbn [bind].
      destruct (dict_get info "name" (PStr m)) as [name|]; [|discriminate]. cbn [bind].
      intros [= <- <-]. split.
      * apply Forall_app. split; [assumption|]. constructor; [|constructor].
        exists kpi_id. split; [reflexivity|]. split; [assumption|].
        rewrite (str_split_two _ _ _ _ E).
        apply (kpi_id_stored lib cat m ms); [now apply assoc_In|].
        apply assoc_In in Hm. apply in_map_iff. now exists (m, info).
      * rewrite length_app. cbn [length]. lia.
    + cbn. intros [= <- <-]. split; [assumption | lia].
  - cbn. intros [= <- <-]. split; [assumption | lia].
Qed.

Lemma widget_loop_stored (lib : list (string * pyval)) (all kpis : list string)
    (st st' : nat * list pyval) :
  incl kpis all ->
  Forall (widget_for lib all) (snd st) ->
  foldM (widget_step lib) kpis st = Ok st' ->
  Forall (widget_for lib all) (snd st') /\ length (snd st') <= length (snd st) + length kpis.
Proof.
  revert st. induction kpis as [|k kpis IH]; intros [i ws] Hincl Hws; cbn [foldM].
  - intros [= <-]. split; [assumption | lia].
  - destruct (widget_step lib (i, ws) k) as [[i1 ws1]|] eqn:Hs; [|discriminate].
    cbn [bind]. intros Hf.
    destruct (widget_step_stored lib all i i1 ws ws1 k) as [H1 L1];
      [apply Hincl; now left | assumption | assumption |].
    destruct (IH (i1, ws1)) as [H2 L2];
      [intros y Hy; apply Hincl; now right | assumption | assumption |].
    split; [assumption|]. cbn [snd length] in *. lia.
Qed.

(** Whatever the library holds, every widget that the layout generator
    returns is for one of the given KPI identifiers that is stored in the
    library, and there are at most as many widgets as identifiers. *)
Theorem widgets_only_for_stored_kpis (lib : list (string * pyval)) (kpis : list string)
    (config : pyval) (widgets : list pyval) :
  DashboardDesignerTool_generate_widget_layout lib kpis config = Ok widgets ->
  Forall (widget_for lib kpis) widgets /\ length widgets <= length kpis.
Proof.
  unfold DashboardDesignerTool_generate_widget_layout.
  destruct (foldM (widget_step lib) kpis (0, [])) as [st|] eqn:Hf; [|discriminate].
  cbn [bind]. intros [= <-].
  exact (widget_loop_stored lib kpis kpis (0, []) st (incl_refl _) (Forall_nil _) Hf).
Qed.

Lemma widgets_only_for_stored_kpis_witness :
  exists widgets,
    DashboardDesignerTool_generate_widget_layout CRM_KPI_LIBRARY
      ["sales.win_rate"; "marketing.lead_conversion_rate"; "win_rate"] PNone = Ok widgets
    /\ Forall (widget_for CRM_KPI_LIBRARY
                 ["sales.win_rate"; "marketing.lead_conversion_rate"; "win_rate"]) widgets
    /\ length widgets <= 3.
Proof.
  destruct (DashboardDesignerTool_generate_widget_layout CRM_KPI_LIBRARY
              ["sales.win_rate"; "marketing.lead_conversion_rate"; "win_rate"] PNone)
    as [widgets|] eqn:E; [|vm_compute in E; discriminate].
  exists widgets. split; [reflexivity|].
  exact (widgets_only_for_stored_kpis CRM_KPI_LIBRARY _ PNone widgets E).
Defined.

Lemma firstn_incl_le {A : Type} (n m : nat) (l : list A) :
  n <= m -> incl (firstn n l) (firstn m l).
Proof.
  revert n m. induction l as [|a l IH]; intros n m H.
  - rewrite !firstn_nil. apply incl_refl.
  - destruct n as [|n]; [intros y []|]. destruct m as [|m]; [lia|].
    cbn [firstn]. intros y [<-|Hy]; [now left|]. right. apply (IH n m); [lia | assumption].
Qed.

Lemma dashboard_loops_total (purpose_lower : string) (config : pyval) :
  exists st entities,
    foldM (widget_step CRM_KPI_LIBRARY) (firstn 6 (recommended_kpis_for purpose_lower)) (0, [])
    = Ok st
    /\ mapM (entities_of_kpi CRM_KPI_LIBRARY) (firstn 8 (recommended_kpis_for purpose_lower))
       = Ok entities.
Proof.
  unfold recommended_kpis_for.
  destruct (str_in "sales" purpose_lower || str_in "revenue" purpose_lower);
    destruct (str_in "marketing" purpose_lower || str_in "lead" purpose_lower);
    destruct (str_in "service" purpose_lower || str_in "support" purpose_lower
              || str_in "case" purpose_lower);
    destruct (str_in "executive" purpose_lower || str_in "overview" purpose_lower);
    (eexists; eexists; split; vm_compute; reflexivity).
Qed.

Lemma audience_config_cases (audience : string) (manager : pyval) :
  lookup layout_config "manager" = Ok manager ->
  exists cfg style max_widgets widget_types refresh,
    dict_get (PDict layout_config) (str_lower audience) manager = Ok cfg
    /\ getitem cfg "style" = Ok style
    /\ getitem cfg "max_widgets" = Ok max_widgets
    /\ getitem cfg "widget_types" = Ok widget_types
    /\ getitem cfg "refresh_frequency" = Ok refresh
    /\ (~ In (str_lower audience) (keys layout_config) ->
        PDict [("layout_style", style); ("recommended_widget_count", max_widgets);
               ("widget_types", widget_types); ("refresh_frequency", refresh)]
        = manager_design).
Proof.
  intros Hm. vm_compute in Hm. injection Hm as <-. unfold dict_get.
  destruct (assoc (str_lower audience) layout_config) as [cfg|] eqn:Ha.
  - apply assoc_In in Ha. simpl in Ha.
    destruct Ha as [Ha|[Ha|[Ha|[Ha|[]]]]]; injection Ha as Hk <-;
      (do 5 eexists; split; [reflexivity|]; repeat (split; [reflexivity|]);
       intros Hn; exfalso; apply Hn; rewrite <- Hk; simpl; tauto).
  - do 5 eexists. split; [reflexivity|]. repeat (split; [reflexivity|]).
    intros _. reflexivity.
Qed.

Lemma dashboard_designer_shape (set_iter : list string -> list string)
    (dashboard_purpose audience key_questions : string) :
  let recommended := firstn 8 (recommended_kpis_for (str_lower dashboard_purpose)) in
  exists d widgets,
    returns_with_success true
      (DashboardDesignerTool_result CRM_KPI_LIBRARY set_iter dashboard_purpose audience
         key_questions) d
    /\ field "recommended_kpis" d = Some (PStrs recommended)
    /\ field_list "widget_recommendations" d = Some widgets
    /\ length widgets <= 6
    /\ Forall (widget_for CRM_KPI_LIBRARY recommended) widgets
    /\ (~ In (str_lower audience) ["executive"; "manager"; "analyst"; "rep"] ->
        field "design" d = Some manager_design).
Proof.
  unfold DashboardDesignerTool_result, returns_with_success. cbv zeta.
  destruct (lookup layout_config "manager") as [manager|] eqn:Hm;
    [|vm_compute in Hm; discriminate].
  cbn [bind].
  destruct (audience_config_cases audience manager Hm)
    as [cfg [style [mw [wt [rf [Hc [Hs [Hmw [Hwt [Hrf Hfb]]]]]]]]]].
  rewrite Hc. cbn [bind]. rewrite Hs. cbn [bind]. rewrite Hmw. cbn [bind].
  rewrite Hwt. cbn [bind]. rewrite Hrf. cbn [bind].
  unfold DashboardDesignerTool_generate_widget_layout.
  set (recommended := recommended_kpis_for (str_lower dashboard_purpose)) in *.
  destruct (dashboard_loops_total (str_lower dashboard_purpose) cfg)
    as [st [entities [Hw He]]].
  fold recommended in Hw, He. rewrite Hw, He. cbn [bind].
  destruct (widget_loop_stored CRM_KPI_LIBRARY (firstn 8 recommended)
              (firstn 6 recommended) (0, []) st) as [Hst Hlen];
    [ apply firstn_incl_le; lia | constructor | exact Hw | ].
  eexists. exists (snd st).
  split; [split; reflexivity|]. split; [reflexivity|]. split; [reflexivity|].
  split; [cbn [snd length] in Hlen; rewrite length_firstn in Hlen; lia|].
  split; [exact Hst|].
  intros Hn. cbn [field assoc String.eqb Ascii.eqb Bool.eqb]. f_equal. apply Hfb. exact Hn.
Qed.

(** The dashboard designer never raises on the stored library.  It
    recommends at most eight KPI identifiers and at most six widgets, each
    widget for a recommended identifier that is stored; an audience
    outside the four known ones gets the design of a manager. *)
Theorem dashboard_designer_total (set_iter : list string -> list string)
    (dashboard_purpose audience key_questions : string) :
  exists d widgets recommended,
    returns_with_success true
      (DashboardDesignerTool_result CRM_KPI_LIBRARY set_iter dashboard_purpose audience
         key_questions) d
    /\ field "recommended_kpis" d = Some (PStrs recommended)
    /\ field_list "widget_recommendations" d = Some widgets
    /\ length recommended <= 8
    /\ length widgets <= 6
    /\ Forall (widget_for CRM_KPI_LIBRARY recommended) widgets
    /\ (~ In (str_lower audience) ["executive"; "manager"; "analyst"; "rep"] ->
        field "design" d = Some manager_design).
Proof.
  destruct (dashboard_designer_shape set_iter dashboard_purpose audience key_questions)
    as [d [widgets [Hd [Hr [Hw [Hl [Hf Ha]]]]]]].
  exists d, widgets. eexists. split; [exact Hd|]. split; [exact Hr|].
  split; [exact Hw|]. split; [apply firstn_le_length|]. tauto.
Qed.

Lemma lead_conversion_not_stored :
  ~ In "marketing.lead_conversion_rate" (kpi_ids CRM_KPI_LIBRARY).
Proof. intros H. apply list_in_spec in H. vm_compute in H. discriminate. Qed.

(** A purpose that mentions marketing, leads, an executive or an overview
    makes the dashboard designer recommend [marketing.lead_conversion_rate],
    which the library does not hold (the record is
    [sales.lead_conversion_rate]): the identifier gets no widget, and the
    metric calculator answers it with an error. *)
Theorem dashboard_recommends_unknown_kpi (set_iter : list string -> list string)
    (dashboard_purpose audience key_questions time_period : string)
    (group_by : option string) :
  wants_lead_conversion dashboard_purpose = true ->
  exists d recommended widgets r,
    DashboardDesignerTool_result CRM_KPI_LIBRARY set_iter dashboard_purpose audience
      key_questions = Ok d
    /\ field "recommended_kpis" d = Some (PStrs recommended)
    /\ In "marketing.lead_conversion_rate" recommended
    /\ field_list "widget_recommendations" d = Some widgets
    /\ Forall (fun w => field "kpi_id" w <> Some (PStr "marketing.lead_conversion_rate"))
         widgets
    /\ returns_with_success false
         (MetricCalculatorTool_result CRM_KPI_LIBRARY "marketing.lead_conversion_rate"
            time_period group_by) r
    /\ field "error" r = Some (PStr "Unknown metric: lead_conversion_rate").
Proof.
  intros Hp.
  destruct (dashboard_designer_shape set_iter dashboard_purpose audience key_questions)
    as [d [widgets [[Hd _] [Hr [Hw [_ [Hf _]]]]]]].
  exists d. eexists. exists widgets. eexists.
  split; [exact Hd|]. split; [exact Hr|]. split.
  { unfold wants_lead_conversion in Hp. cbv zeta in Hp. unfold recommended_kpis_for.
    destruct (str_in "sales" (str_lower dashboard_purpose)
              || str_in "revenue" (str_lower dashboard_purpose));
      destruct (str_in "marketing" (str_lower dashboard_purpose)
                || str_in "lead" (str_lower dashboard_purpose));
      destruct (str_in "service" (str_lower dashboard_purpose)
                || str_in "support" (str_lower dashboard_purpose)
                || str_in "case" (str_lower dashboard_purpose));
      destruct (str_in "executive" (str_lower dashboard_purpose)
                || str_in "overview" (str_lower dashboard_purpose));
      try discriminate Hp; cbn; tauto. }
  split; [exact Hw|]. split.
  { apply Forall_forall. intros w Hin. rewrite Forall_forall in Hf.
    destruct (Hf w Hin) as [id [Hid [_ Hs]]]. rewrite Hid. intros [= ->].
    exact (lead_conversion_not_stored Hs). }
  split; [split; [vm_compute; reflexivity | reflexivity] | reflexivity].
Qed.

Lemma dashboard_recommends_unknown_kpi_witness :
  exists d recommended widgets r,
    DashboardDesignerTool_result CRM_KPI_LIBRARY (fun l => l) "Lead funnel" "rep" "" = Ok d
    /\ field "recommended_kpis" d = Some (PStrs recommended)
    /\ In "marketing.lead_conversion_rate" recommended
    /\ field_list "widget_recommendations" d = Some widgets
    /\ Forall (fun w => field "kpi_id" w <> Some (PStr "marketing.lead_conversion_rate"))
         widgets
    /\ returns_with_success false
         (MetricCalculatorTool_result CRM_KPI_LIBRARY "marketing.lead_conversion_rate"
            "ytd" None) r
    /\ field "error" r = Some (PStr "Unknown metric: lead_conversion_rate").
Proof.
  apply (dashboard_recommends_unknown_kpi (fun l => l) "Lead funnel" "rep" "" "ytd" None).
  reflexivity.
Defined.
